(** * VeriKicks front end: upload form, proxy routes and results page

    A shallow embedding of the TypeScript sources

    - [app/api/analyze/box/route.ts]      (category proxy, [BoxRoute.POST])
    - the aggregation proxy route         ([CombinedRoute.POST])
    - [app/api/health/route.ts]           ([HealthRoute.GET])
    - the upload page [VeriKicksUpload]   ([Upload.handleSelect],
                                           [Upload.handleRemove],
                                           [Upload.submitUpload])
    - its upload card [UploadCard]        ([UploadCard.click])
    - [app/results/page.tsx]              ([Results.ResultsPage],
                                           [Results.overallVerdict])

    together with the part of the JavaScript platform these sources call:
    truthiness, [String(...)], [JSON.stringify] / [JSON.parse],
    [encodeURIComponent] / [decodeURIComponent], [URLSearchParams],
    [FormData], [fetch] and React's state setters.

    Conventions of the model.

    - A JavaScript string is the sequence of the bytes of its UTF-8 form
      (Rocq's [string]); every character the sources themselves write or test
      is ASCII.  The check of [decodeURIComponent] that escaped bytes above
      0x7F form UTF-8 is not modelled.
    - JavaScript numbers are IEEE doubles.  They are kept abstract behind the
      class [Numbers] (truthiness, [Number::toString], the JSON number
      lexer); [ZNumbers] is the instance of the integers, used to run the
      model on concrete inputs.
    - [undefined] is [None] in an [option value]; an absent property and a
      property holding [undefined] are not told apart (the sources never do).
    - [await] is sequencing in the monad [M]; exceptions are the left summand
      of its result.  Every awaited call settles, with a response or with an
      exception: a call that stays pending, and with it a handler that never
      returns, is outside the model, and what is proved of a handler holds
      once its calls have settled.
    - A function handed to a React setter runs at the next render, not in
      the handler that called the setter: what it throws is not caught by
      the handler's [try].  The results page keeps the queue of its updaters
      ([Results.render]); on the upload page the one updater that can throw
      is [Upload.add_error_line].
    - Of a component only the state is modelled, with the values the markup
      is computed from where a property needs them; the markup itself is
      not. *)

From Stdlib Require Import String Ascii List ZArith NArith Bool Lia.
From Stdlib Require Import DecimalString DecimalFacts DecimalPos DecimalZ.
Import ListNotations.
Open Scope string_scope.

(* ================================================================== *)
(** * Characters and strings *)

Definition code (c : ascii) : N := N_of_ascii c.

(** The double quote, written by its code (34). *)
Definition dquote : ascii := "034"%char.
Definition backslash : ascii := "\"%char.

Definition between (lo hi : N) (c : ascii) : bool :=
  ((lo <=? code c) && (code c <=? hi))%N.

Definition is_digit (c : ascii) : bool := between 48 57 c.
Definition is_upper (c : ascii) : bool := between 65 90 c.
Definition is_lower (c : ascii) : bool := between 97 122 c.
Definition is_alnum (c : ascii) : bool := is_digit c || is_upper c || is_lower c.

(** Value of a hexadecimal digit, either case. *)
Definition hex_value (c : ascii) : option N :=
  if is_digit c then Some (code c - 48)%N
  else if between 97 102 c then Some (code c - 87)%N
  else if between 65 70 c then Some (code c - 55)%N
  else None.

(** The hexadecimal digit of a nibble; [upper] selects A-F over a-f. *)
Definition hex_char (upper : bool) (n : N) : ascii :=
  if (n <? 10)%N then ascii_of_N (48 + n)
  else ascii_of_N ((if upper then 55 else 87) + n).

Definition hex_byte (hi lo : ascii) : option ascii :=
  match hex_value hi, hex_value lo with
  | Some h, Some l => Some (ascii_of_N (16 * h + l))
  | _, _ => None
  end.

Definition in_chars (set : string) (c : ascii) : bool :=
  existsb (Ascii.eqb c) (list_ascii_of_string set).

Fixpoint join (sep : string) (l : list string) : string :=
  match l with
  | [] => ""
  | [x] => x
  | x :: rest => x ++ sep ++ join sep rest
  end.

(** Decimal text of an integer (HTTP statuses, and the numbers of
    [ZNumbers]). *)
Definition Z_toString (z : Z) : string := NilZero.string_of_int (Z.to_int z).

(* ================================================================== *)
(** * Thrown values *)

(** An [Error] object: the sources only read [err.message] and [String(err)]. *)
Record Error := mkError { name : string; message : string }.

Definition TypeError (msg : string) : Error := mkError "TypeError" msg.
Definition SyntaxError (msg : string) : Error := mkError "SyntaxError" msg.
Definition URIError (msg : string) : Error := mkError "URIError" msg.
Definition RangeError (msg : string) : Error := mkError "RangeError" msg.

(** [String(err)], that is [Error.prototype.toString]. *)
Definition Error_toString (e : Error) : string :=
  if String.eqb (name e) "" then message e
  else if String.eqb (message e) "" then name e
  else name e ++ ": " ++ message e.

(* ================================================================== *)
(** * JavaScript numbers, abstractly *)

Class Numbers := {
  number : Type;
  (** [ToBoolean]: false on 0 and NaN. *)
  number_truthy : number -> bool;
  (** [Number::toString], radix 10; also what [JSON.stringify] writes. *)
  number_toString : number -> string;
  (** The JSON number lexer: the number a text starts with, and the rest. *)
  number_lex : string -> option (number * string)
}.

(** A character that can continue a JSON number literal. *)
Definition number_char (c : ascii) : bool := is_digit c || in_chars "+-.eE" c.

Definition number_stop (rest : string) : bool :=
  match rest with
  | "" => true
  | String c _ => negb (number_char c)
  end.

(** What ECMAScript guarantees of the two conversions on the finite numbers
    (the numbers JSON can carry): the text of a number starts like a JSON
    number and is read back as that number. *)
Record NumbersLaws (NUM : Numbers) : Prop := {
  number_toString_start : forall n : number,
    exists c s, number_toString n = String c s /\
                (Ascii.eqb c "-" || is_digit c) = true;
  number_lex_toString : forall (n : number) rest,
    number_stop rest = true ->
    number_lex (number_toString n ++ rest) = Some (n, rest)
}.

(** ** The integers as numbers *)

Fixpoint lex_digits (s : string) : Decimal.uint * string :=
  match s with
  | String c s' =>
      if is_digit c then
        let (d, rest) := lex_digits s' in
        (match code c - 48 with
         | 0 => Decimal.D0 d | 1 => Decimal.D1 d | 2 => Decimal.D2 d
         | 3 => Decimal.D3 d | 4 => Decimal.D4 d | 5 => Decimal.D5 d
         | 6 => Decimal.D6 d | 7 => Decimal.D7 d | 8 => Decimal.D8 d
         | _ => Decimal.D9 d
         end%N, rest)
      else (Decimal.Nil, s)
  | "" => (Decimal.Nil, "")
  end.

(** [int = "0" | digit1-9 digits]: a literal that starts with 0 ends there. *)
Definition lex_nat (s : string) : option (Z * string) :=
  match s with
  | String c s' =>
      if Ascii.eqb c "0" then Some (0%Z, s')
      else if is_digit c then
        let (d, rest) := lex_digits s in Some (Z.of_uint d, rest)
      else None
  | "" => None
  end.

(** Integer literals only: a fraction or an exponent is not an integer. *)
Definition Z_lex (s : string) : option (Z * string) :=
  let r := match s with
           | String c s' =>
               if Ascii.eqb c "-" then
                 match lex_nat s' with
                 | Some (z, rest) => Some ((- z)%Z, rest)
                 | None => None
                 end
               else lex_nat s
           | "" => None
           end in
  match r with
  | Some (z, rest) =>
      match rest with
      | String c _ => if in_chars ".eE" c then None else r
      | "" => r
      end
  | None => None
  end.

#[export] Instance ZNumbers : Numbers := {
  number := Z;
  number_truthy := fun z => negb (Z.eqb z 0);
  number_toString := Z_toString;
  number_lex := Z_lex
}.

(* ================================================================== *)
(** * JavaScript values that JSON can carry *)

Section Values.
Context {NUM : Numbers}.

#[local] Unset Elimination Schemes.
Inductive value : Type :=
| VNull
| VBool (b : bool)
| VNum (n : number)
| VStr (s : string)
| VArr (items : list value)
| VObj (props : list (string * value)).
#[local] Set Elimination Schemes.

(** Induction through the lists of an array and of an object. *)
Definition value_ind (P : value -> Prop)
  (HNull : P VNull) (HBool : forall b, P (VBool b))
  (HNum : forall n, P (VNum n)) (HStr : forall s, P (VStr s))
  (HArr : forall items, Forall P items -> P (VArr items))
  (HObj : forall props, Forall (fun kv => P (snd kv)) props -> P (VObj props))
  : forall v, P v :=
  fix F (v : value) : P v :=
    match v with
    | VNull => HNull
    | VBool b => HBool b
    | VNum n => HNum n
    | VStr s => HStr s
    | VArr items =>
        HArr items
          ((fix G (l : list value) : Forall P l :=
              match l with
              | [] => Forall_nil P
              | x :: l' => Forall_cons x (F x) (G l')
              end) items)
    | VObj props =>
        HObj props
          ((fix G (l : list (string * value)) : Forall (fun kv => P (snd kv)) l :=
              match l with
              | [] => Forall_nil _
              | kv :: l' => Forall_cons kv (F (snd kv)) (G l')
              end) props)
    end.

(** [ToBoolean]. *)
Definition truthy (v : value) : bool :=
  match v with
  | VNull => false
  | VBool b => b
  | VNum n => number_truthy n
  | VStr s => negb (String.eqb s "")
  | VArr _ | VObj _ => true
  end.

(** [ToBoolean] of a value that may be [undefined]. *)
Definition truthy_opt (o : option value) : bool :=
  match o with
  | Some v => truthy v
  | None => false
  end.

(** The property [k] of an object written as a list: the last [k] wins, as
    in [JSON.parse]. *)
Fixpoint lookup (k : string) (props : list (string * value)) : option value :=
  match props with
  | [] => None
  | (k', v) :: rest =>
      match lookup k rest with
      | Some w => Some w
      | None => if String.eqb k k' then Some v else None
      end
  end.

(** What [ToString] throws at an object it cannot convert. *)
Definition cannot_convert : Error := TypeError "Cannot convert object to primitive value".

(** [ToString].  An array joins the texts of its items with commas, writing
    nothing for [null].  An object parsed from JSON inherits
    [Object.prototype.toString] and [valueOf], unless it has an own property
    of that name, which is then no function: with an own [toString] the
    conversion finds no method that returns a primitive (the inherited
    [valueOf] returns the object) and throws; without one the text is
    ["[object Object]"].  The items of an array are converted from left to
    right, and the first that throws is what the array throws. *)
Fixpoint ToString (v : value) : Error + string :=
  match v with
  | VNull => inr "null"
  | VBool true => inr "true"
  | VBool false => inr "false"
  | VNum n => inr (number_toString n)
  | VStr s => inr s
  | VArr items =>
      match (fix texts (l : list value) : Error + list string :=
               match l with
               | [] => inr []
               | x :: rest =>
                   match (match x with
                          | VNull => inr ""
                          | _ => ToString x
                          end) with
                   | inl e => inl e
                   | inr t =>
                       match texts rest with
                       | inl e => inl e
                       | inr ts => inr (t :: ts)
                       end
                   end
               end) items with
      | inl e => inl e
      | inr ts => inr (join "," ts)
      end
  | VObj props =>
      match lookup "toString" props with
      | Some _ => inl cannot_convert
      | None => inr "[object Object]"
      end
  end.

(** [String(x)], and [`${x}`], where [x] may be [undefined]. *)
Definition String_ (o : option value) : Error + string :=
  match o with
  | Some v => ToString v
  | None => inr "undefined"
  end.

(** [v.k] for the property names the pages read ([error], [verdict],
    [realness_percent]): none of them is a built-in property of a string,
    number, boolean or array, so only an object can hold one.  Reading a
    property of [null] throws. *)
Definition get_prop (v : value) (k : string) : Error + option value :=
  match v with
  | VNull =>
      inl (TypeError ("Cannot read properties of null (reading '" ++ k ++ "')"))
  | VObj props => inr (lookup k props)
  | _ => inr None
  end.

(** [o?.k]: [undefined] when [o] is [null] or [undefined]. *)
Definition get_prop_opt (o : option value) (k : string) : option value :=
  match o with
  | Some (VObj props) => lookup k props
  | _ => None
  end.

(** [o === s] for a string literal [s]. *)
Definition is_string (o : option value) (s : string) : bool :=
  match o with
  | Some (VStr s') => String.eqb s' s
  | _ => false
  end.

End Values.

(* ================================================================== *)
(** * JSON text *)

Section JSON.
Context {NUM : Numbers}.

(** ** [JSON.stringify] *)

(** [QuoteJSONString] on one character. *)
Definition escape_char (c : ascii) : string :=
  if Ascii.eqb c dquote then String backslash (String dquote "")
  else if Ascii.eqb c backslash then String backslash (String backslash "")
  else if Ascii.eqb c "008" then String backslash "b"
  else if Ascii.eqb c "012" then String backslash "f"
  else if Ascii.eqb c "010" then String backslash "n"
  else if Ascii.eqb c "013" then String backslash "r"
  else if Ascii.eqb c "009" then String backslash "t"
  else if (code c <? 32)%N then
    String backslash
      (String "u" (String "0" (String "0"
         (String (hex_char false (code c / 16))
            (String (hex_char false (code c mod 16)) "")))))
  else String c "".

Fixpoint escape_chars (s : string) : string :=
  match s with
  | "" => ""
  | String c s' => escape_char c ++ escape_chars s'
  end.

Definition QuoteJSONString (s : string) : string :=
  String dquote (escape_chars s ++ String dquote "").

(** [JSON.stringify(v)] with no indentation. *)
Fixpoint JSON_stringify (v : value) : string :=
  match v with
  | VNull => "null"
  | VBool true => "true"
  | VBool false => "false"
  | VNum n => number_toString n
  | VStr s => QuoteJSONString s
  | VArr items => "[" ++ join "," (map JSON_stringify items) ++ "]"
  | VObj props =>
      "{" ++ join "," (map (fun kv => QuoteJSONString (fst kv) ++ ":"
                                        ++ JSON_stringify (snd kv)) props) ++ "}"
  end.

(** ** [JSON.parse] *)

Definition is_ws (c : ascii) : bool :=
  Ascii.eqb c " " || Ascii.eqb c "009" || Ascii.eqb c "010" || Ascii.eqb c "013".

Fixpoint skip_ws (s : string) : string :=
  match s with
  | String c s' => if is_ws c then skip_ws s' else s
  | "" => ""
  end.

(** What a string literal holds: a character written as itself, or the
    16-bit unit of a [\uXXXX] escape. *)
Inductive item := Raw (c : ascii) | Unit16 (u : N).

Definition hex4 (a b c d : ascii) : option N :=
  match hex_value a, hex_value b, hex_value c, hex_value d with
  | Some x, Some y, Some z, Some w => Some (4096 * x + 256 * y + 16 * z + w)%N
  | _, _, _, _ => None
  end.

(** The characters of a string literal after its opening quote, up to the
    closing quote. *)
Fixpoint lex_string (s : string) : option (list item * string) :=
  match s with
  | "" => None
  | String c s' =>
      if Ascii.eqb c dquote then Some ([], s')
      else if Ascii.eqb c backslash then
        match s' with
        | String e s'' =>
            let simple (x : ascii) :=
              match lex_string s'' with
              | Some (l, rest) => Some (Raw x :: l, rest)
              | None => None
              end in
            if Ascii.eqb e dquote then simple dquote
            else if Ascii.eqb e backslash then simple backslash
            else if Ascii.eqb e "/" then simple "/"%char
            else if Ascii.eqb e "b" then simple "008"%char
            else if Ascii.eqb e "f" then simple "012"%char
            else if Ascii.eqb e "n" then simple "010"%char
            else if Ascii.eqb e "r" then simple "013"%char
            else if Ascii.eqb e "t" then simple "009"%char
            else if Ascii.eqb e "u" then
              match s'' with
              | String h1 (String h2 (String h3 (String h4 s3))) =>
                  match hex4 h1 h2 h3 h4, lex_string s3 with
                  | Some u, Some (l, rest) => Some (Unit16 u :: l, rest)
                  | _, _ => None
                  end
              | _ => None
              end
            else None
        | "" => None
        end
      else if (code c <? 32)%N then None
      else
        match lex_string s' with
        | Some (l, rest) => Some (Raw c :: l, rest)
        | None => None
        end
  end.

(** UTF-8 bytes of a code point. *)
Definition utf8 (cp : N) : string :=
  (if cp <? 128 then String (ascii_of_N cp) ""
   else if cp <? 2048 then
     String (ascii_of_N (192 + cp / 64))
       (String (ascii_of_N (128 + cp mod 64)) "")
   else if cp <? 65536 then
     String (ascii_of_N (224 + cp / 4096))
       (String (ascii_of_N (128 + (cp / 64) mod 64))
          (String (ascii_of_N (128 + cp mod 64)) ""))
   else
     String (ascii_of_N (240 + cp / 262144))
       (String (ascii_of_N (128 + (cp / 4096) mod 64))
          (String (ascii_of_N (128 + (cp / 64) mod 64))
             (String (ascii_of_N (128 + cp mod 64)) ""))))%N.

Definition high_surrogate (u : N) : bool := ((55296 <=? u) && (u <=? 56319))%N.
Definition low_surrogate (u : N) : bool := ((56320 <=? u) && (u <=? 57343))%N.

(** The string of a literal: escaped units become UTF-8, a surrogate pair
    one code point. *)
Fixpoint string_of_items (l : list item) : string :=
  match l with
  | [] => ""
  | Raw c :: l' => String c (string_of_items l')
  | Unit16 u :: l' =>
      match l' with
      | Unit16 w :: l'' =>
          if high_surrogate u && low_surrogate w
          then utf8 (65536 + (u - 55296) * 1024 + (w - 56320)) ++ string_of_items l''
          else utf8 u ++ string_of_items l'
      | _ => utf8 u ++ string_of_items l'
      end
  end.

Definition parse_string (s : string) : option (string * string) :=
  match lex_string s with
  | Some (l, rest) => Some (string_of_items l, rest)
  | None => None
  end.

(** [expect w s]: [s] without its prefix [w]. *)
Fixpoint expect (w s : string) : option string :=
  match w, s with
  | "", _ => Some s
  | String a w', String b s' => if Ascii.eqb a b then expect w' s' else None
  | _, "" => None
  end.

(** [peek c s]: what follows [c] when [c] is the next token of [s]. *)
Definition peek (c : ascii) (s : string) : option string :=
  match skip_ws s with
  | String c' rest => if Ascii.eqb c' c then Some rest else None
  | "" => None
  end.

(** The JSON grammar by recursive descent; [fuel] bounds the calls. *)
Fixpoint parse_value (fuel : nat) (s : string) : option (value * string) :=
  match fuel with
  | O => None
  | S fuel' =>
      match skip_ws s with
      | "" => None
      | String c rest =>
          if Ascii.eqb c "n" then
            option_map (pair VNull) (expect "ull" rest)
          else if Ascii.eqb c "t" then
            option_map (pair (VBool true)) (expect "rue" rest)
          else if Ascii.eqb c "f" then
            option_map (pair (VBool false)) (expect "alse" rest)
          else if Ascii.eqb c dquote then
            match parse_string rest with
            | Some (str, rest') => Some (VStr str, rest')
            | None => None
            end
          else if Ascii.eqb c "[" then
            match peek "]" rest with
            | Some rest' => Some (VArr [], rest')
            | None =>
                match parse_elements fuel' rest with
                | Some (items, rest') => Some (VArr items, rest')
                | None => None
                end
            end
          else if Ascii.eqb c "{" then
            match peek "}" rest with
            | Some rest' => Some (VObj [], rest')
            | None =>
                match parse_members fuel' rest with
                | Some (props, rest') => Some (VObj props, rest')
                | None => None
                end
            end
          else if Ascii.eqb c "-" || is_digit c then
            match number_lex (String c rest) with
            | Some (n, rest') => Some (VNum n, rest')
            | None => None
            end
          else None
      end
  end

(** [value (, value)* ]] *)
with parse_elements (fuel : nat) (s : string) : option (list value * string) :=
  match fuel with
  | O => None
  | S fuel' =>
      match parse_value fuel' s with
      | Some (v, rest) =>
          match peek "," rest with
          | Some rest' =>
              match parse_elements fuel' rest' with
              | Some (vs, rest'') => Some (v :: vs, rest'')
              | None => None
              end
          | None =>
              match peek "]" rest with
              | Some rest' => Some ([v], rest')
              | None => None
              end
          end
      | None => None
      end
  end

(** [string : value (, string : value)* }] *)
with parse_members (fuel : nat) (s : string) : option (list (string * value) * string) :=
  match fuel with
  | O => None
  | S fuel' =>
      match peek dquote s with
      | Some rest =>
          match parse_string rest with
          | Some (k, rest1) =>
              match peek ":" rest1 with
              | Some rest2 =>
                  match parse_value fuel' rest2 with
                  | Some (v, rest3) =>
                      match peek "," rest3 with
                      | Some rest4 =>
                          match parse_members fuel' rest4 with
                          | Some (kvs, rest5) => Some ((k, v) :: kvs, rest5)
                          | None => None
                          end
                      | None =>
                          match peek "}" rest3 with
                          | Some rest4 => Some ([(k, v)], rest4)
                          | None => None
                          end
                      end
                  | None => None
                  end
              | None => None
              end
          | None => None
          end
      | None => None
      end
  end.

(** A whole text is one value between optional white space. *)
Definition JSON_read (s : string) : option value :=
  match parse_value (2 * String.length s + 2) s with
  | Some (v, rest) =>
      match skip_ws rest with
      | "" => Some v
      | _ => None
      end
  | None => None
  end.

(** [JSON.parse(s)]; the wording of the message is the engine's. *)
Definition JSON_parse (s : string) : Error + value :=
  match JSON_read s with
  | Some v => inr v
  | None => inl (SyntaxError "Unexpected token in JSON")
  end.

End JSON.

(* ================================================================== *)
(** * URI components and query strings *)

(** Characters [encodeURIComponent] leaves as they are. *)
Definition uri_unreserved (c : ascii) : bool := is_alnum c || in_chars "-_.!~*'()" c.

(** [%XX], upper-case digits. *)
Definition percent (c : ascii) : string :=
  String "%" (String (hex_char true (code c / 16))
                (String (hex_char true (code c mod 16)) "")).

Fixpoint encodeURIComponent (s : string) : string :=
  match s with
  | "" => ""
  | String c s' =>
      (if uri_unreserved c then String c "" else percent c) ++ encodeURIComponent s'
  end.

Fixpoint percent_decode (s : string) : option string :=
  match s with
  | "" => Some ""
  | String c s' =>
      if Ascii.eqb c "%" then
        match s' with
        | String h (String l s'') =>
            match hex_byte h l, percent_decode s'' with
            | Some b, Some r => Some (String b r)
            | _, _ => None
            end
        | _ => None
        end
      else option_map (String c) (percent_decode s')
  end.

(** [decodeURIComponent(s)]: a [%] that two hexadecimal digits do not follow
    throws.  The platform also throws when escaped bytes above 0x7F do not
    form UTF-8; that check is left out, so the model decodes some texts the
    platform refuses.  It makes no difference on a text written by
    [encodeURIComponent]. *)
Definition decodeURIComponent (s : string) : Error + string :=
  match percent_decode s with
  | Some r => inr r
  | None => inl (URIError "URI malformed")
  end.

(** ** [URLSearchParams] *)

Definition URLSearchParams := list (string * string).

Definition params_append (ps : URLSearchParams) (k v : string) : URLSearchParams :=
  (ps ++ [(k, v)])%list.

(** [ps.get(k)]: the first value of name [k], [null] when there is none. *)
Fixpoint params_get (k : string) (ps : URLSearchParams) : option string :=
  match ps with
  | [] => None
  | (k', v) :: rest => if String.eqb k k' then Some v else params_get k rest
  end.

(** The application/x-www-form-urlencoded serializer on one name or value. *)
Definition form_unreserved (c : ascii) : bool := is_alnum c || in_chars "*-._" c.

Fixpoint form_encode (s : string) : string :=
  match s with
  | "" => ""
  | String c s' =>
      (if form_unreserved c then String c ""
       else if Ascii.eqb c " " then "+"
       else percent c) ++ form_encode s'
  end.

(** [ps.toString()]. *)
Fixpoint params_toString (ps : URLSearchParams) : string :=
  match ps with
  | [] => ""
  | [(k, v)] => form_encode k ++ "=" ++ form_encode v
  | (k, v) :: rest => form_encode k ++ "=" ++ form_encode v ++ "&" ++ params_toString rest
  end.

(** The urlencoded parser's decoding: [+] is a space, a well-formed [%XX] a
    byte, anything else itself. *)
Fixpoint form_decode (s : string) : string :=
  match s with
  | "" => ""
  | String c s' =>
      if Ascii.eqb c "+" then String " " (form_decode s')
      else if Ascii.eqb c "%" then
        match s' with
        | String h (String l s'') =>
            match hex_byte h l with
            | Some b => String b (form_decode s'')
            | None => String c (form_decode s')
            end
        | _ => String c (form_decode s')
        end
      else String c (form_decode s')
  end.

Fixpoint split_on (sep : ascii) (s : string) : list string :=
  match s with
  | "" => [""]
  | String c s' =>
      if Ascii.eqb c sep then "" :: split_on sep s'
      else match split_on sep s' with
           | x :: r => String c x :: r
           | [] => [String c ""]
           end
  end.

(** [s] up to its first [sep], and what follows it. *)
Fixpoint split_first (sep : ascii) (s : string) : string * string :=
  match s with
  | "" => ("", "")
  | String c s' =>
      if Ascii.eqb c sep then ("", s')
      else let (a, b) := split_first sep s' in (String c a, b)
  end.

(** [new URLSearchParams(query)]: the pieces between [&], empty ones
    skipped, each split at its first [=]. *)
Definition params_parse (query : string) : URLSearchParams :=
  map (fun piece => let (k, v) := split_first "=" piece in
                    (form_decode k, form_decode v))
      (filter (fun piece => negb (String.eqb piece "")) (split_on "&" query)).

(** [useSearchParams()] on the page reached by [router.push(url)]: the
    parameters of what follows the first [?]. *)
Definition useSearchParams (url : string) : URLSearchParams :=
  params_parse (snd (split_first "?" url)).

(* ================================================================== *)
(** * Forms, requests and responses *)

Record File := mkFile { file_name : string; file_type : string; file_bytes : string }.

Inductive FormDataEntryValue := EString (s : string) | EFile (f : File).

Definition FormData := list (string * FormDataEntryValue).

Definition FormData_append (fd : FormData) (k : string) (v : FormDataEntryValue) : FormData :=
  (fd ++ [(k, v)])%list.

(** [fd.get(k)]: the first entry of name [k], [null] when there is none. *)
Fixpoint FormData_get (k : string) (fd : FormData) : option FormDataEntryValue :=
  match fd with
  | [] => None
  | (k', v) :: rest => if String.eqb k k' then Some v else FormData_get k rest
  end.

(** [ToBoolean] of an entry or [null]: a [File] is an object. *)
Definition entry_truthy (e : option FormDataEntryValue) : bool :=
  match e with
  | None => false
  | Some (EString s) => negb (String.eqb s "")
  | Some (EFile _) => true
  end.

(** [String(entry)]. *)
Definition entry_toString (e : FormDataEntryValue) : string :=
  match e with
  | EString s => s
  | EFile _ => "[object File]"
  end.

(** A call of [fetch(url, { method, body })]. *)
Record Request := mkRequest { url : string; method : string; body : option FormData }.

(** What [fetch] resolves to: the status line and the body, read in full. *)
Record Response := mkResponse { status : Z; text : string }.

(** [res.ok]. *)
Definition ok (res : Response) : bool := ((200 <=? status res) && (status res <=? 299))%Z.

(** The network as [fetch] sees it: a call rejects or resolves.  Every call
    settles: a call that stays pending (the handlers set no timeout) is
    outside the model.  What is proved of a handler is therefore what it
    does once its calls have settled, never that it gets there. *)
Definition Network := Request -> Error + Response.

(** The [Request] a route handler receives; [req.formData()] rejects when
    the body is not a form. *)
Record IncomingRequest := mkIncoming { formData : Error + FormData }.

(* ================================================================== *)
(** * Effects *)

(** What a handler or an event callback leaves behind: the component state
    it wrote, the [fetch] calls it issued, what it logged with
    [console.error] and where [router.push] sent the browser. *)
Record World (St : Type) := mkWorld {
  state : St;
  requests : list Request;
  console : list (string * string);
  pushed : list string
}.
Arguments mkWorld {St}.
Arguments state {St}.
Arguments requests {St}.
Arguments console {St}.
Arguments pushed {St}.

Definition M (St A : Type) : Type := World St -> (Error + A) * World St.

Definition ret {St A} (a : A) : M St A := fun w => (inr a, w).

Definition bind {St A B} (m : M St A) (k : A -> M St B) : M St B :=
  fun w => match m w with
           | (inr a, w') => k a w'
           | (inl e, w') => (inl e, w')
           end.

Definition throw {St A} (e : Error) : M St A := fun w => (inl e, w).

(** A value or the exception its computation threw. *)
Definition lift {St A} (r : Error + A) : M St A := fun w => (r, w).

(** [try { m } catch (err) { handler err }]. *)
Definition try_catch {St A} (m : M St A) (handler : Error -> M St A) : M St A :=
  fun w => match m w with
           | (inl e, w') => handler e w'
           | r => r
           end.

(** [try { m } finally { f }]. *)
Definition try_finally {St A} (m : M St A) (f : M St unit) : M St A :=
  fun w => match m w with
           | (r, w') =>
               match f w' with
               | (inl e, w'') => (inl e, w'')
               | (inr _, w'') => (r, w'')
               end
           end.

Definition modify {St} (f : St -> St) : M St unit :=
  fun w => (inr tt, mkWorld (f (state w)) (requests w) (console w) (pushed w)).

Definition console_error {St} (label payload : string) : M St unit :=
  fun w => (inr tt, mkWorld (state w) (requests w) (console w ++ [(label, payload)])%list (pushed w)).

Definition router_push {St} (href : string) : M St unit :=
  fun w => (inr tt, mkWorld (state w) (requests w) (console w) (pushed w ++ [href])%list).

(** [fetch(...)] without [await]: the call is issued now; what the promise
    settles to is handed back (that it settles is assumed, see [Network]). *)
Definition fetch_promise {St} (net : Network) (req : Request) : M St (Error + Response) :=
  fun w => (inr (net req), mkWorld (state w) (requests w ++ [req])%list (console w) (pushed w)).

(** [await fetch(...)]. *)
Definition fetch {St} (net : Network) (req : Request) : M St Response :=
  bind (fetch_promise net req) lift.

Declare Scope monad_scope.
Delimit Scope monad_scope with monad.
Notation "x <- m ;; k" := (bind m (fun x => k))
  (at level 61, m at next level, right associativity) : monad_scope.
Notation "m ;;; k" := (bind m (fun _ => k))
  (at level 61, right associativity) : monad_scope.

(** The world before a handler runs. *)
Definition fresh {St} (st : St) : World St := mkWorld st [] [] [].

(* ================================================================== *)
(** * [NextResponse.json] *)

Section ServerSide.
Context {NUM : Numbers}.

Record NextResponse := mkNextResponse { res_status : Z; res_body : value }.

(** [NextResponse.json(body, { status })].  The [Response] it builds refuses
    a status outside 200..599 (RangeError) and a body on a status that
    carries none, 204, 205 and 304 (TypeError). *)
Definition NextResponse_json (body : value) (st : Z) : Error + NextResponse :=
  if ((st <? 200) || (599 <? st))%Z then
    inl (RangeError "init.status must be in the range of 200 to 599, inclusive.")
  else if ((st =? 204) || (st =? 205) || (st =? 304))%Z then
    inl (TypeError ("Response constructor: Invalid response status code " ++ Z_toString st))
  else inr (mkNextResponse st body).

(** The statuses [NextResponse.json] accepts. *)
Definition settable (st : Z) : bool :=
  ((200 <=? st) && (st <=? 599)
   && negb ((st =? 204) || (st =? 205) || (st =? 304)))%Z.

(** [await res.json()]. *)
Definition Response_json (res : Response) : Error + value := JSON_parse (text res).

(** An object literal [{ error: msg }]. *)
Definition error_body (msg : string) : value := VObj [("error", VStr msg)].

End ServerSide.

(* ================================================================== *)
(** * Category proxy: [app/api/analyze/box/route.ts] *)

Module BoxRoute.
Section Route.
Context {NUM : Numbers}.
Variable net : Network.
Open Scope monad_scope.

(** [await file.arrayBuffer()]: a form field sent as text is a string and
    has no such method. *)
Definition arrayBuffer (e : option FormDataEntryValue) : Error + string :=
  match e with
  | Some (EFile f) => inr (file_bytes f)
  | _ => inl (TypeError "file.arrayBuffer is not a function")
  end.

(** [new Blob([buffer], { type: file.type })] appended under [file.name]. *)
Definition rewrap (e : option FormDataEntryValue) (buffer : string) : FormDataEntryValue :=
  match e with
  | Some (EFile f) => EFile (mkFile (file_name f) (file_type f) buffer)
  | _ => EFile (mkFile "undefined" "undefined" buffer)
  end.

Definition entry_String (e : option FormDataEntryValue) : string :=
  match e with
  | Some v => entry_toString v
  | None => "null"
  end.

Definition backend : string := "http://127.0.0.1:8000/analyze/box_advanced".

(** The form sent on: [forward.append("shoe_id", ...)], [forward.append("file", ...)]. *)
Definition forward (shoe_id file : option FormDataEntryValue) (buffer : string) : FormData :=
  FormData_append
    (FormData_append [] "shoe_id" (EString (entry_String shoe_id)))
    "file" (rewrap file buffer).

Definition POST (req : IncomingRequest) : M unit NextResponse :=
  try_catch
    (incoming <- lift (formData req) ;;
     let shoe_id := FormData_get "shoe_id" incoming in
     let file := FormData_get "file" incoming in
     if negb (entry_truthy shoe_id) || negb (entry_truthy file) then
       lift (NextResponse_json (error_body "shoe_id and file are required") 400)
     else
       buffer <- lift (arrayBuffer file) ;;
       res <- fetch net (mkRequest backend "POST" (Some (forward shoe_id file buffer))) ;;
       if negb (ok res) then
         let errorText := text res in
         lift (NextResponse_json
                 (error_body (if negb (String.eqb errorText "") then errorText
                              else "Status " ++ Z_toString (status res)))
                 (status res))
       else
         data <- lift (Response_json res) ;;
         lift (NextResponse_json data 200))
    (fun err =>
       console_error "API Error:" (Error_toString err) ;;;
       lift (NextResponse_json (error_body (message err)) 502)).

End Route.
End BoxRoute.

(* ================================================================== *)
(** * Aggregation proxy (the route of [/api/analyze/combined]) *)

Module CombinedRoute.
Section Route.
Context {NUM : Numbers}.
Variable net : Network.
Open Scope monad_scope.

(** [e === null]. *)
Definition is_null (e : option FormDataEntryValue) : bool :=
  match e with
  | None => true
  | Some _ => false
  end.

Definition entry_String (e : option FormDataEntryValue) : string :=
  match e with
  | Some v => entry_toString v
  | None => "null"
  end.

Definition backend : string := "http://127.0.0.1:8000/analyze/combined".

(** The form sent on: four [forward.append(name, String(value))]. *)
Definition forward (shoe_id sneaker_percent box_percent video_percent
                    : option FormDataEntryValue) : FormData :=
  FormData_append
    (FormData_append
       (FormData_append
          (FormData_append [] "shoe_id" (EString (entry_String shoe_id)))
          "sneaker_percent" (EString (entry_String sneaker_percent)))
       "box_percent" (EString (entry_String box_percent)))
    "video_percent" (EString (entry_String video_percent)).

Definition required : string :=
  "shoe_id, sneaker_percent, box_percent, and video_percent are required".

Definition POST (req : IncomingRequest) : M unit NextResponse :=
  try_catch
    (incoming <- lift (formData req) ;;
     let shoe_id := FormData_get "shoe_id" incoming in
     let sneaker_percent := FormData_get "sneaker_percent" incoming in
     let box_percent := FormData_get "box_percent" incoming in
     let video_percent := FormData_get "video_percent" incoming in
     if negb (entry_truthy shoe_id) || is_null sneaker_percent
        || is_null box_percent || is_null video_percent then
       lift (NextResponse_json (error_body required) 400)
     else
       res <- fetch net (mkRequest backend "POST"
                           (Some (forward shoe_id sneaker_percent box_percent video_percent))) ;;
       if negb (ok res) then
         let errorText := text res in
         lift (NextResponse_json
                 (error_body (if negb (String.eqb errorText "") then errorText
                              else "Status " ++ Z_toString (status res)))
                 (status res))
       else
         data <- lift (Response_json res) ;;
         lift (NextResponse_json data 200))
    (fun err =>
       console_error "API Error:" (Error_toString err) ;;;
       lift (NextResponse_json (error_body (message err)) 502)).

End Route.
End CombinedRoute.

(* ================================================================== *)
(** * Health route: [app/api/health/route.ts] *)

Module HealthRoute.
Section Route.
Context {NUM : Numbers}.
Variable net : Network.
Open Scope monad_scope.

(** [fetch("http://127.0.0.1:8000/health", { cache: "no-store" })]. *)
Definition probe : Request := mkRequest "http://127.0.0.1:8000/health" "GET" None.

Definition failure (err : Error) : value :=
  VObj [("status", VStr "error"); ("error", VStr (Error_toString err))].

Definition GET : M unit NextResponse :=
  try_catch
    (res <- fetch net probe ;;
     data <- lift (Response_json res) ;;
     lift (NextResponse_json data (status res)))
    (fun err => lift (NextResponse_json (failure err) 502)).

End Route.
End HealthRoute.

(* ================================================================== *)
(** * The upload page: [VeriKicksUpload] *)

Module Upload.
Section Page.
Context {NUM : Numbers}.
Variable net : Network.
Open Scope monad_scope.

(** [type UploadKey = 'sneaker' | 'box' | 'video']. *)
Inductive UploadKey := Sneaker | Box | Video.

Definition key_name (key : UploadKey) : string :=
  match key with
  | Sneaker => "sneaker"
  | Box => "box"
  | Video => "video"
  end.

Definition SHOE_ID_MAP : list (string * string) :=
  [ ("Jordan 1 Lost & Found", "jordan1_lost_found");
    ("Travis Scott Olive", "travis_scott_olive");
    ("Yeezy 350 Zebra", "yeezy_350_zebra") ].

(** [SHOE_ID_MAP[name]], [undefined] for a name it does not list. *)
Definition shoe_id_of (name : string) : option string := params_get name SHOE_ID_MAP.

(** [Record<UploadKey, File | null>]. *)
Record Uploads := mkUploads {
  sneaker_file : option File;
  box_file : option File;
  video_file : option File
}.

Definition upload_at (key : UploadKey) (u : Uploads) : option File :=
  match key with
  | Sneaker => sneaker_file u
  | Box => box_file u
  | Video => video_file u
  end.

(** [{ ...prev, [key]: file }]. *)
Definition set_upload (key : UploadKey) (f : option File) (u : Uploads) : Uploads :=
  match key with
  | Sneaker => mkUploads f (box_file u) (video_file u)
  | Box => mkUploads (sneaker_file u) f (video_file u)
  | Video => mkUploads (sneaker_file u) (box_file u) f
  end.

(** [{ combined: any; box?, video?, sneaker? }]. *)
Record Results := mkResults {
  combined : option value;
  sneaker : option value;
  box : option value;
  video : option value
}.

Definition result_at (key : UploadKey) (r : Results) : option value :=
  match key with
  | Sneaker => sneaker r
  | Box => box r
  | Video => video r
  end.

(** [{ ...prev, [key]: v }], and [newResults[key] = v]. *)
Definition set_result (key : UploadKey) (v : option value) (r : Results) : Results :=
  match key with
  | Sneaker => mkResults (combined r) v (box r) (video r)
  | Box => mkResults (combined r) (sneaker r) v (video r)
  | Video => mkResults (combined r) (sneaker r) (box r) v
  end.

Definition set_combined (v : option value) (r : Results) : Results :=
  mkResults v (sneaker r) (box r) (video r).

Definition no_results : Results := mkResults None None None None.

(** The [useState] cells of the component. *)
Record State := mkState {
  modelDropdown : string;
  uploads : Uploads;
  submitting : bool;
  results : Results;
  error : string
}.

Definition setUploads (f : Uploads -> Uploads) (st : State) : State :=
  mkState (modelDropdown st) (f (uploads st)) (submitting st) (results st) (error st).
Definition setSubmitting (b : bool) (st : State) : State :=
  mkState (modelDropdown st) (uploads st) b (results st) (error st).
Definition setResults (f : Results -> Results) (st : State) : State :=
  mkState (modelDropdown st) (uploads st) (submitting st) (f (results st)) (error st).
Definition setError (f : string -> string) (st : State) : State :=
  mkState (modelDropdown st) (uploads st) (submitting st) (results st) (f (error st)).

Definition initial : State :=
  mkState "Jordan 1 Lost & Found" (mkUploads None None None) false no_results "".

(** [!!(uploads.sneaker && uploads.box && uploads.video)]. *)
Definition canProceed (st : State) : bool :=
  match sneaker_file (uploads st), box_file (uploads st), video_file (uploads st) with
  | Some _, Some _, Some _ => true
  | _, _, _ => false
  end.

Definition handleSelect (key : UploadKey) (file : File) : M State unit :=
  modify (setUploads (set_upload key (Some file))).

Definition handleRemove (key : UploadKey) : M State unit :=
  modify (setUploads (set_upload key None)) ;;;
  modify (setResults (set_result key None)) ;;;
  modify (setError (fun _ => "")).

Definition newline : string := String "010" "".

(** [o.k] where [o] may be [undefined]. *)
Definition prop_of (o : option value) (k : string) : Error + option value :=
  match o with
  | Some v => get_prop v k
  | None =>
      inl (TypeError ("Cannot read properties of undefined (reading '" ++ k ++ "')"))
  end.

(** The form of one category call. *)
Definition category_form (shoeId : option string) (f : File) : FormData :=
  FormData_append
    (FormData_append [] "shoe_id"
       (EString (match shoeId with Some id => id | None => "undefined" end)))
    "file" (EFile f).

(** The call of one category: [fetch('/api/analyze/<key>', { method: 'POST',
    body })]. *)
Definition category_request (key : UploadKey) (shoeId : option string) (f : File) : Request :=
  mkRequest ("/api/analyze/" ++ key_name key) "POST" (Some (category_form shoeId f)).

(** [fetch('/api/analyze/<key>', ...).then(r => r.json())
      .then(data => ({ key, data }))], pushed on [promises] when the slot
    holds a file: the call is issued at once, the promise settles later. *)
Definition analyze (key : UploadKey) (shoeId : option string) (slot : option File)
  : M State (list (Error + (UploadKey * value))) :=
  match slot with
  | Some f =>
      r <- fetch_promise net (category_request key shoeId f) ;;
      ret [match r with
           | inl e => inl e
           | inr res =>
               match Response_json res with
               | inl e => inl e
               | inr data => inr (key, data)
               end
           end]
  | None => ret []
  end.

(** [await Promise.all(promises)]: every value, or a rejection of one of
    them (the handler below does not look at which). *)
Fixpoint Promise_all {A} (promises : list (Error + A)) : Error + list A :=
  match promises with
  | [] => inr []
  | inl e :: _ => inl e
  | inr a :: rest =>
      match Promise_all rest with
      | inl e => inl e
      | inr l => inr (a :: l)
      end
  end.

(** What the console keeps of a value handed to [console.error]: a string
    as it is, any other value as its JSON text. *)
Definition logged (o : option value) : string :=
  match o with
  | Some (VStr s) => s
  | Some v => JSON_stringify v
  | None => "undefined"
  end.

(** [setError(prev => prev + `${key}: ${data.error}\n`)].  The template is
    evaluated inside the updater, which React runs at the next render: when
    [data.error] cannot be converted to a string, the exception is thrown
    there, outside this handler and its [try], and the handler goes on.  The
    model writes no line then: what it says of the error text holds of a
    page whose updaters returned. *)
Definition add_error_line (key : UploadKey) (err : option value) : M State unit :=
  match String_ err with
  | inr text => modify (setError (fun prev => prev ++ key_name key ++ ": " ++ text ++ newline))
  | inl _ => ret tt
  end.

(** The loop [for (const { key, data } of allResults)]. *)
Fixpoint collect (allResults : list (UploadKey * value)) (newResults : Results)
  : M State Results :=
  match allResults with
  | [] => ret newResults
  | (key, data) :: rest =>
      err <- lift (get_prop data "error") ;;
      if truthy_opt err then
        console_error (key_name key ++ " error:") (logged err) ;;;
        add_error_line key err ;;;
        collect rest newResults
      else collect rest (set_result key (Some data) newResults)
  end.

(** The form of the aggregation call. *)
Definition combined_form (shoeId : option string) (s b v : string) : FormData :=
  FormData_append
    (FormData_append
       (FormData_append
          (FormData_append [] "shoe_id"
             (EString (match shoeId with Some id => id | None => "undefined" end)))
          "sneaker_percent" (EString s))
       "box_percent" (EString b))
    "video_percent" (EString v).

(** The aggregation call: [fetch('/api/analyze/combined', { method: 'POST',
    body: combinedForm })]. *)
Definition combined_request (shoeId : option string) (s b v : string) : Request :=
  mkRequest "/api/analyze/combined" "POST" (Some (combined_form shoeId s b v)).

(** [x ? encodeURIComponent(JSON.stringify(x)) : '']. *)
Definition param_of (x : option value) : string :=
  match x with
  | Some v => if truthy v then encodeURIComponent (JSON_stringify v) else ""
  | None => ""
  end.

(** [if (p) params.append(k, p)]. *)
Definition append_if (ps : URLSearchParams) (k p : string) : URLSearchParams :=
  if negb (String.eqb p "") then params_append ps k p else ps.

(** The query of the results page, as the end of [submitUpload] builds it. *)
Definition results_params (newResults : Results) (model : string) : URLSearchParams :=
  let sneakerParam := param_of (sneaker newResults) in
  let boxParam := param_of (box newResults) in
  let videoParam := param_of (video newResults) in
  let combinedParam := param_of (combined newResults) in
  let params := [] in
  let params := append_if params "sneaker" sneakerParam in
  let params := append_if params "box" boxParam in
  let params := append_if params "video" videoParam in
  let params := append_if params "combined" combinedParam in
  params_append params "model" model.

Definition results_url (newResults : Results) (model : string) : string :=
  "/results?" ++ params_toString (results_params newResults model).

(** [submitUpload], called from a render whose state is [st]: reads come
    from [st], the setters write to the world. *)
Definition submitUpload (st : State) : M State unit :=
  if negb (canProceed st) || submitting st then ret tt
  else
    modify (setSubmitting true) ;;;
    modify (setError (fun _ => "")) ;;;
    modify (setResults (fun _ => no_results)) ;;;
    try_finally
      (try_catch
         (let shoeId := shoe_id_of (modelDropdown st) in
          p1 <- analyze Sneaker shoeId (sneaker_file (uploads st)) ;;
          p2 <- analyze Box shoeId (box_file (uploads st)) ;;
          p3 <- analyze Video shoeId (video_file (uploads st)) ;;
          allResults <- lift (Promise_all (p1 ++ p2 ++ p3)%list) ;;
          newResults <- collect allResults no_results ;;
          modify (setResults (fun _ => newResults)) ;;;
          newResults <-
            (if truthy_opt (sneaker newResults) && truthy_opt (box newResults)
                && truthy_opt (video newResults) then
               sp <- lift (prop_of (sneaker newResults) "realness_percent") ;;
               sneaker_percent <- lift (String_ sp) ;;
               bp <- lift (prop_of (box newResults) "realness_percent") ;;
               box_percent <- lift (String_ bp) ;;
               vp <- lift (prop_of (video newResults) "realness_percent") ;;
               video_percent <- lift (String_ vp) ;;
               combinedRes <-
                 fetch net (combined_request shoeId sneaker_percent box_percent
                              video_percent) ;;
               combinedData <- lift (Response_json combinedRes) ;;
               cerr <- lift (get_prop combinedData "error") ;;
               if negb (truthy_opt cerr) then
                 (* [newResults] is the object [setResults] was given: the
                    assignment shows in the state as well. *)
                 let newResults := set_combined (Some combinedData) newResults in
                 modify (setResults (fun _ => newResults)) ;;;
                 ret newResults
               else ret newResults
             else ret newResults) ;;
          router_push (results_url newResults (modelDropdown st)))
         (fun e =>
            console_error "Analysis error:" (Error_toString e) ;;;
            modify (setError (fun _ => "Analysis failed. Check browser console for details."))))
      (modify (setSubmitting false)).

(** ** The other callbacks of the page *)

(** The [<option>]s of the model [<select>]; [e.target.value] is the text
    of the one chosen. *)
Inductive ModelOption := JordanLostFound | TravisScottOlive | Yeezy350Zebra.

Definition option_text (o : ModelOption) : string :=
  match o with
  | JordanLostFound => "Jordan 1 Lost & Found"
  | TravisScottOlive => "Travis Scott Olive"
  | Yeezy350Zebra => "Yeezy 350 Zebra"
  end.

Definition setModelDropdown (m : string) (st : State) : State :=
  mkState m (uploads st) (submitting st) (results st) (error st).

(** [onChange={(e) => setModelDropdown(e.target.value)}]. *)
Definition chooseModel (o : ModelOption) : M State unit :=
  modify (setModelDropdown (option_text o)).

(** [handleFile] of the [UploadCard] of [key]: [if (!f) return; onSelect(f)],
    where the page passes [(file) => handleSelect(key, file)] as [onSelect].
    [f] is [files?.[0]] of the picker or of the drop. *)
Definition handleFile (key : UploadKey) (f : option File) : M State unit :=
  match f with
  | Some file => handleSelect key file
  | None => ret tt
  end.

(** [disabled={!canProceed || submitting}] on the Analyze button. *)
Definition analyze_disabled (st : State) : bool :=
  negb (canProceed st) || submitting st.

End Page.
End Upload.

(* ================================================================== *)
(** * The upload card: [UploadCard] *)

Module UploadCard.

(** [previewType: 'image' | 'video']. *)
Inductive PreviewType := ImagePreview | VideoPreview.

(** The props the click handlers read. *)
Record Props := mkProps { file : option File; previewType : PreviewType }.

(** What the click handlers of a card write: the [showInfo] cell, and how
    often they opened the file picker ([inputRef.current?.click()]) and
    called [onRemove]. *)
Record Card := mkCard { showInfo : bool; opened : nat; removed : nat }.

Definition setShowInfo (b : bool) (c : Card) : Card := mkCard b (opened c) (removed c).
Definition openPicker (c : Card) : Card := mkCard (showInfo c) (S (opened c)) (removed c).
Definition onRemove (c : Card) : Card := mkCard (showInfo c) (opened c) (S (removed c)).

(** [!file && previewType === 'video']. *)
Definition awaits_video (p : Props) : bool :=
  match file p, previewType p with
  | None, VideoPreview => true
  | _, _ => false
  end.

(** A click handler: what it writes, and whether it called
    [e.stopPropagation()]. *)
Definition Handler := Card -> Card * bool.

(** [onClick] of the card, the outer button. *)
Definition handleButtonClick (p : Props) : Handler :=
  fun c => if awaits_video p then (setShowInfo true c, false) else (openPicker c, false).

(** [onClick={(e) => { e.stopPropagation(); onRemove(); }}] of the Remove
    label. *)
Definition clickRemove : Handler := fun c => (onRemove c, true).

(** [onClick={() => { setShowInfo(false); openPicker(); }}] of Start
    Upload. *)
Definition clickStart : Handler := fun c => (openPicker (setShowInfo false c), false).

(** [onClick={(e) => { e.stopPropagation(); setShowInfo(false); }}] of
    Close. *)
Definition clickClose : Handler := fun c => (setShowInfo false c, true).

(** What can be clicked: the card and, inside it, the Remove label and the
    two buttons of the info panel. *)
Inductive Target := TheCard | RemoveLabel | StartUpload | Close.

(** [showInfo && previewType === 'video' && !file]: the info panel is
    rendered. *)
Definition panel (p : Props) (c : Card) : bool := showInfo c && awaits_video p.

(** What is rendered: the Remove label with a file, the two buttons with
    the panel. *)
Definition rendered (p : Props) (c : Card) (t : Target) : bool :=
  match t with
  | TheCard => true
  | RemoveLabel =>
      match file p with
      | Some _ => true
      | None => false
      end
  | StartUpload | Close => panel p c
  end.

(** A click on something rendered: its handler runs first; the click then
    reaches the card around it, whose handler is [handleButtonClick], unless
    the propagation was stopped. *)
Definition click (p : Props) (t : Target) (c : Card) : option Card :=
  if rendered p c t then
    match t with
    | TheCard => Some (fst (handleButtonClick p c))
    | RemoveLabel | StartUpload | Close =>
        let inner := match t with
                     | RemoveLabel => clickRemove
                     | StartUpload => clickStart
                     | _ => clickClose
                     end in
        let (c', stopped) := inner c in
        Some (if stopped then c' else fst (handleButtonClick p c'))
    end
  else None.

End UploadCard.

(* ================================================================== *)
(** * The results page: [app/results/page.tsx] *)

Module Results.
Section Page.
Context {NUM : Numbers}.
Open Scope monad_scope.

(** [{ sneaker?, box?, video?, combined? }]. *)
Record Results := mkResults {
  sneaker : option value;
  box : option value;
  video : option value;
  combined : option value
}.

(** The argument of [setResults(prev => ...)].  React does not run it inside
    [setResults]: it queues it and runs it when the component renders next,
    so what it throws is thrown by that render. *)
Definition Updater := Results -> Error + Results.

Record State := mkState {
  results : Results;
  shoeModel : string;
  loading : bool;
  (** updaters [setResults] has queued, oldest first *)
  queued : list Updater
}.

Definition initial : State := mkState (mkResults None None None None) "" true [].

Definition setResults (f : Updater) (st : State) : State :=
  mkState (results st) (shoeModel st) (loading st) (queued st ++ [f])%list.
Definition setShoeModel (m : string) (st : State) : State :=
  mkState (results st) m (loading st) (queued st).
Definition setLoading (b : bool) (st : State) : State :=
  mkState (results st) (shoeModel st) b (queued st).

(** [JSON.parse(decodeURIComponent(data))]. *)
Definition decode (data : string) : Error + value :=
  match decodeURIComponent data with
  | inl e => inl e
  | inr s => JSON_parse s
  end.

(** [prev => ({ ...prev, <field>: JSON.parse(decodeURIComponent(data)) })]. *)
Definition with_field (set : value -> Results -> Results) (data : string) : Updater :=
  fun prev =>
    match decode data with
    | inl e => inl e
    | inr v => inr (set v prev)
    end.

Definition put_sneaker (v : value) (r : Results) : Results :=
  mkResults (Some v) (box r) (video r) (combined r).
Definition put_box (v : value) (r : Results) : Results :=
  mkResults (sneaker r) (Some v) (video r) (combined r).
Definition put_video (v : value) (r : Results) : Results :=
  mkResults (sneaker r) (box r) (Some v) (combined r).
Definition put_combined (v : value) (r : Results) : Results :=
  mkResults (sneaker r) (box r) (video r) (Some v).

(** [if (data) setResults(prev => ...)]: [data] is [null] or a string. *)
Definition when_present (data : option string) (set : value -> Results -> Results)
  : M State unit :=
  match data with
  | Some d => if negb (String.eqb d "") then modify (setResults (with_field set d)) else ret tt
  | None => ret tt
  end.

(** The body of [useEffect]. *)
Definition effect (searchParams : URLSearchParams) : M State unit :=
  let sneakerData := params_get "sneaker" searchParams in
  let boxData := params_get "box" searchParams in
  let videoData := params_get "video" searchParams in
  let combinedData := params_get "combined" searchParams in
  let model := params_get "model" searchParams in
  modify (setShoeModel (match model with
                        | Some m => if negb (String.eqb m "") then m else "Unknown Model"
                        | None => "Unknown Model"
                        end)) ;;;
  try_finally
    (try_catch
       (when_present sneakerData put_sneaker ;;;
        when_present boxData put_box ;;;
        when_present videoData put_video ;;;
        when_present combinedData put_combined)
       (fun e => console_error "Failed to parse results:" (Error_toString e)))
    (modify (setLoading false)).

(** The queue of a render: each updater gets the state the one before it
    returned. *)
Fixpoint run_queue (q : list Updater) (r : Results) : Error + Results :=
  match q with
  | [] => inr r
  | f :: rest =>
      match f r with
      | inl e => inl e
      | inr r' => run_queue rest r'
      end
  end.

(** The render that follows the effect, up to the state it computes: React
    runs the queued updaters, and what one of them throws is thrown by the
    render, to the nearest error boundary.  The markup the component then
    builds from the state is not part of this function: [inr] says that the
    updaters returned and gives the state the markup is built from, not that
    building it succeeds. *)
Definition render (st : State) : Error + State :=
  match run_queue (queued st) (results st) with
  | inl e => inl e
  | inr r => inr (mkState r (shoeModel st) (loading st) [])
  end.

(** The page once it has loaded with [searchParams]: first render, effect,
    and the state of the second render (see [render]).  The console is
    handed back with it. *)
Definition ResultsPage (searchParams : URLSearchParams)
  : (Error + State) * list (string * string) :=
  let w := snd (effect searchParams (fresh initial)) in
  (render (state w), console w).

(** [const overallVerdict = ...], on the state a render shows. *)
Definition overallVerdict (r : Results) : value :=
  let verdict := get_prop_opt (combined r) "verdict" in
  if is_string verdict "AUTHENTIC" then VStr "AUTHENTIC"
  else if is_string verdict "COUNTERFEIT" then VStr "COUNTERFEIT"
  else match verdict with
       | Some v => if truthy v then v else VStr "INCONCLUSIVE"
       | None => VStr "INCONCLUSIVE"
       end.

(** [results.combined?.realness_percent || 0], [None] standing for the
    literal 0. *)
Definition overallPercent (r : Results) : option value :=
  match get_prop_opt (combined r) "realness_percent" with
  | Some v => if truthy v then Some v else None
  | None => None
  end.

(** [overallVerdict === 'AUTHENTIC']. *)
Definition isAuthentic (r : Results) : bool :=
  is_string (Some (overallVerdict r)) "AUTHENTIC".

(** The three looks of the verdict card. *)
Inductive Look := Green | Red | Yellow.

(** The ternary that picks the card's colours and its sentence:
    [isAuthentic ? ... : overallVerdict === 'COUNTERFEIT' ? ... : ...]. *)
Definition look (r : Results) : Look :=
  if isAuthentic r then Green
  else if is_string (Some (overallVerdict r)) "COUNTERFEIT" then Red
  else Yellow.

Definition sentence (r : Results) : string :=
  match look r with
  | Green => "This shoe passed our authenticity verification."
  | Red => "This shoe appears to be counterfeit."
  | Yellow => "Results are inconclusive. More data needed."
  end.

End Page.
End Results.

(* ================================================================== *)
(** * Facts about strings *)

Lemma app_assoc_s (a b c : string) : (a ++ b) ++ c = a ++ (b ++ c).
Proof. induction a as [|x a IH]; simpl; [reflexivity | now rewrite IH]. Qed.

Lemma app_nil_r_s (a : string) : a ++ "" = a.
Proof. induction a as [|x a IH]; simpl; [reflexivity | now rewrite IH]. Qed.

Lemma length_app_s (a b : string) :
  String.length (a ++ b) = String.length a + String.length b.
Proof. induction a as [|x a IH]; simpl; [reflexivity | now rewrite IH]. Qed.

(** Case analysis on the eight bits of a character. *)
Ltac bytes c := destruct c as [[] [] [] [] [] [] [] []].

(** ** Percent coding *)

Lemma percent_decode_chunk (c : ascii) (tail : string) :
  percent_decode ((if uri_unreserved c then String c "" else percent c) ++ tail)
  = option_map (String c) (percent_decode tail).
Proof. bytes c; reflexivity. Qed.

Lemma percent_decode_encode (s : string) :
  percent_decode (encodeURIComponent s) = Some s.
Proof.
  induction s as [|c s IH]; [reflexivity|].
  cbn [encodeURIComponent]. rewrite percent_decode_chunk, IH. reflexivity.
Qed.

Lemma decodeURIComponent_encodeURIComponent (s : string) :
  decodeURIComponent (encodeURIComponent s) = inr s.
Proof. unfold decodeURIComponent. now rewrite percent_decode_encode. Qed.

Lemma encodeURIComponent_empty (s : string) :
  String.eqb (encodeURIComponent s) "" = String.eqb s "".
Proof.
  destruct s as [|c s]; [reflexivity|].
  cbn [encodeURIComponent]. destruct (uri_unreserved c); reflexivity.
Qed.

(** ** Query strings *)

Definition form_chunk (c : ascii) : string :=
  if form_unreserved c then String c ""
  else if Ascii.eqb c " " then "+"
  else percent c.

Fixpoint has_char (sep : ascii) (s : string) : bool :=
  match s with
  | "" => false
  | String c s' => Ascii.eqb c sep || has_char sep s'
  end.

Lemma has_char_app sep a b : has_char sep (a ++ b) = has_char sep a || has_char sep b.
Proof.
  induction a as [|x a IH]; simpl; [reflexivity|].
  rewrite IH. now rewrite orb_assoc.
Qed.

Lemma form_decode_chunk (c : ascii) (tail : string) :
  form_decode (form_chunk c ++ tail) = String c (form_decode tail).
Proof. bytes c; reflexivity. Qed.

Lemma form_decode_encode (s : string) : form_decode (form_encode s) = s.
Proof.
  induction s as [|c s IH]; [reflexivity|].
  cbn [form_encode]. fold (form_chunk c). now rewrite form_decode_chunk, IH.
Qed.

Lemma form_chunk_plain (c : ascii) :
  has_char "&" (form_chunk c) = false /\ has_char "=" (form_chunk c) = false.
Proof. bytes c; split; reflexivity. Qed.

Lemma form_encode_plain (s : string) :
  has_char "&" (form_encode s) = false /\ has_char "=" (form_encode s) = false.
Proof.
  induction s as [|c s [IH1 IH2]]; [split; reflexivity|].
  cbn [form_encode]. fold (form_chunk c).
  rewrite !has_char_app, IH1, IH2.
  destruct (form_chunk_plain c) as [-> ->]. split; reflexivity.
Qed.

Lemma split_first_app sep a b :
  has_char sep a = false -> split_first sep (a ++ String sep b) = (a, b).
Proof.
  induction a as [|x a IH]; simpl; intros H.
  - now rewrite Ascii.eqb_refl.
  - apply orb_false_iff in H as [-> H]. now rewrite (IH H).
Qed.

Lemma split_on_plain sep a : has_char sep a = false -> split_on sep a = [a].
Proof.
  induction a as [|x a IH]; simpl; intros H; [reflexivity|].
  apply orb_false_iff in H as [-> H]. now rewrite (IH H).
Qed.

Lemma split_on_app sep a b :
  has_char sep a = false -> split_on sep (a ++ String sep b) = a :: split_on sep b.
Proof.
  induction a as [|x a IH]; simpl; intros H.
  - now rewrite Ascii.eqb_refl.
  - apply orb_false_iff in H as [-> H]. now rewrite (IH H).
Qed.

(** One [name=value] piece of a query. *)
Definition piece (kv : string * string) : string :=
  form_encode (fst kv) ++ "=" ++ form_encode (snd kv).

Lemma piece_plain kv : has_char "&" (piece kv) = false.
Proof.
  unfold piece. rewrite !has_char_app.
  destruct (form_encode_plain (fst kv)) as [-> _].
  destruct (form_encode_plain (snd kv)) as [-> _]. reflexivity.
Qed.

Lemma piece_nonempty kv : String.eqb (piece kv) "" = false.
Proof. unfold piece. destruct (form_encode (fst kv)); reflexivity. Qed.

Lemma piece_read kv :
  (let (k, v) := split_first "=" (piece kv) in (form_decode k, form_decode v)) = kv.
Proof.
  unfold piece. cbn [append].
  rewrite split_first_app by apply form_encode_plain.
  rewrite !form_decode_encode. now destruct kv.
Qed.

(** The query [toString] writes is read back as the same parameters. *)
Lemma params_parse_toString (ps : URLSearchParams) :
  params_parse (params_toString ps) = ps.
Proof.
  unfold params_parse.
  induction ps as [|[k v] ps IH]; [reflexivity|].
  destruct ps as [|kv' ps].
  - change (params_toString [(k, v)]) with (piece (k, v)).
    rewrite split_on_plain by apply piece_plain.
    cbn [filter]. rewrite piece_nonempty. cbn [negb map].
    now rewrite piece_read.
  - change (params_toString ((k, v) :: kv' :: ps))
      with (form_encode k ++ "=" ++ form_encode v ++ "&" ++ params_toString (kv' :: ps)).
    replace (form_encode k ++ "=" ++ form_encode v ++ "&" ++ params_toString (kv' :: ps))
      with (piece (k, v) ++ String "&" (params_toString (kv' :: ps)))
      by (unfold piece; cbn [fst snd]; now rewrite !app_assoc_s).
    rewrite split_on_app by apply piece_plain.
    cbn [filter]. rewrite piece_nonempty. cbn [negb map].
    rewrite piece_read. f_equal. exact IH.
Qed.

Lemma useSearchParams_push (ps : URLSearchParams) :
  useSearchParams ("/results?" ++ params_toString ps) = ps.
Proof. unfold useSearchParams. cbn. apply params_parse_toString. Qed.

(* ================================================================== *)
(** * [JSON.parse] reads back what [JSON.stringify] writes *)

Section JSONFacts.
Context {NUM : Numbers}.

(** What the lexer makes of an escaped character. *)
Definition item_of (c : ascii) : item :=
  if (code c <? 32)%N && negb (in_chars (String "008" (String "009" (String "010"
                                 (String "012" (String "013" ""))))) c)
  then Unit16 (code c) else Raw c.

Lemma lex_string_chunk (c : ascii) (tail : string) :
  lex_string (escape_char c ++ tail)
  = match lex_string tail with
    | Some (l, rest) => Some (item_of c :: l, rest)
    | None => None
    end.
Proof. bytes c; reflexivity. Qed.

Lemma string_of_items_chunk (c : ascii) (l : list item) :
  string_of_items (item_of c :: l) = String c (string_of_items l).
Proof. bytes c; try reflexivity; destruct l as [|[x|w] l]; reflexivity. Qed.

Lemma lex_string_escape (s rest : string) :
  lex_string (escape_chars s ++ String dquote rest)
  = Some (map item_of (list_ascii_of_string s), rest).
Proof.
  induction s as [|c s IH]; [reflexivity|].
  cbn [escape_chars]. rewrite app_assoc_s, lex_string_chunk, IH. reflexivity.
Qed.

Lemma string_of_items_escape (s : string) :
  string_of_items (map item_of (list_ascii_of_string s)) = s.
Proof.
  induction s as [|c s IH]; [reflexivity|].
  cbn [list_ascii_of_string map]. now rewrite string_of_items_chunk, IH.
Qed.

Lemma parse_string_quote (s rest : string) :
  parse_string (escape_chars s ++ String dquote rest) = Some (s, rest).
Proof.
  unfold parse_string. now rewrite lex_string_escape, string_of_items_escape.
Qed.

Lemma QuoteJSONString_app (s rest : string) :
  QuoteJSONString s ++ rest = String dquote (escape_chars s ++ String dquote rest).
Proof. unfold QuoteJSONString. cbn [append]. now rewrite app_assoc_s. Qed.

(** ** First characters *)

(** A character a JSON value can start with. *)
Definition value_start (c : ascii) : bool :=
  in_chars "ntf[{-" c || Ascii.eqb c dquote || is_digit c.

Lemma value_start_token (c : ascii) :
  value_start c = true ->
  is_ws c = false /\ Ascii.eqb c "]" = false /\ Ascii.eqb c "}" = false
  /\ Ascii.eqb c "," = false /\ Ascii.eqb c ":" = false.
Proof. bytes c; intros H; try discriminate H; repeat split. Qed.

Lemma number_start_dispatch (c : ascii) :
  (Ascii.eqb c "-" || is_digit c) = true ->
  is_ws c = false /\ Ascii.eqb c "n" = false /\ Ascii.eqb c "t" = false
  /\ Ascii.eqb c "f" = false /\ Ascii.eqb c dquote = false
  /\ Ascii.eqb c "[" = false /\ Ascii.eqb c "{" = false /\ value_start c = true.
Proof. bytes c; intros H; try discriminate H; repeat split. Qed.

Lemma peek_other (c c' : ascii) (s : string) :
  is_ws c' = false -> Ascii.eqb c' c = false -> peek c (String c' s) = None.
Proof. intros H1 H2. unfold peek. cbn [skip_ws]. now rewrite H1, H2. Qed.

Lemma peek_same (c : ascii) (s : string) :
  is_ws c = false -> peek c (String c s) = Some s.
Proof. intros H. unfold peek. cbn [skip_ws]. now rewrite H, Ascii.eqb_refl. Qed.

(** ** The fuel a value needs *)

Fixpoint weight (v : value) : nat :=
  match v with
  | VArr items => S (list_sum (map (fun x => S (weight x)) items))
  | VObj props => S (list_sum (map (fun kv => S (weight (snd kv))) props))
  | _ => 1
  end.

Lemma parse_value_S (fuel : nat) (s : string) :
  parse_value (S fuel) s
  = match skip_ws s with
    | "" => None
    | String c rest =>
        if Ascii.eqb c "n" then option_map (pair VNull) (expect "ull" rest)
        else if Ascii.eqb c "t" then option_map (pair (VBool true)) (expect "rue" rest)
        else if Ascii.eqb c "f" then option_map (pair (VBool false)) (expect "alse" rest)
        else if Ascii.eqb c dquote then
          match parse_string rest with
          | Some (str, rest') => Some (VStr str, rest')
          | None => None
          end
        else if Ascii.eqb c "[" then
          match peek "]" rest with
          | Some rest' => Some (VArr [], rest')
          | None =>
              match parse_elements fuel rest with
              | Some (items, rest') => Some (VArr items, rest')
              | None => None
              end
          end
        else if Ascii.eqb c "{" then
          match peek "}" rest with
          | Some rest' => Some (VObj [], rest')
          | None =>
              match parse_members fuel rest with
              | Some (props, rest') => Some (VObj props, rest')
              | None => None
              end
          end
        else if Ascii.eqb c "-" || is_digit c then
          match number_lex (String c rest) with
          | Some (n, rest') => Some (VNum n, rest')
          | None => None
          end
        else None
    end.
Proof. reflexivity. Qed.

Lemma parse_elements_S (fuel : nat) (s : string) :
  parse_elements (S fuel) s
  = match parse_value fuel s with
    | Some (v, rest) =>
        match peek "," rest with
        | Some rest' =>
            match parse_elements fuel rest' with
            | Some (vs, rest'') => Some (v :: vs, rest'')
            | None => None
            end
        | None =>
            match peek "]" rest with
            | Some rest' => Some ([v], rest')
            | None => None
            end
        end
    | None => None
    end.
Proof. reflexivity. Qed.

Lemma parse_members_S (fuel : nat) (s : string) :
  parse_members (S fuel) s
  = match peek dquote s with
    | Some rest =>
        match parse_string rest with
        | Some (k, rest1) =>
            match peek ":" rest1 with
            | Some rest2 =>
                match parse_value fuel rest2 with
                | Some (v, rest3) =>
                    match peek "," rest3 with
                    | Some rest4 =>
                        match parse_members fuel rest4 with
                        | Some (kvs, rest5) => Some ((k, v) :: kvs, rest5)
                        | None => None
                        end
                    | None =>
                        match peek "}" rest3 with
                        | Some rest4 => Some ([(k, v)], rest4)
                        | None => None
                        end
                    end
                | None => None
                end
            | None => None
            end
        | None => None
        end
    | None => None
    end.
Proof. reflexivity. Qed.

Hypothesis LAWS : NumbersLaws NUM.

Lemma JSON_stringify_start (v : value) :
  exists c s, JSON_stringify v = String c s /\ value_start c = true.
Proof.
  destruct v as [|[]|n|s|items|props]; try (eexists _, _; split; reflexivity).
  destruct (number_toString_start _ LAWS n) as (c & s & E & H).
  exists c, s. split; [exact E|]. now apply number_start_dispatch.
Qed.

(** The property proved of every value, by induction on it. *)
Definition reads_back (v : value) : Prop :=
  forall fuel rest, weight v <= fuel -> number_stop rest = true ->
    parse_value fuel (JSON_stringify v ++ rest) = Some (v, rest).

Lemma join_cons2 (sep a b : string) (l : list string) :
  join sep (a :: b :: l) = a ++ sep ++ join sep (b :: l).
Proof. reflexivity. Qed.

Lemma parse_elements_stringify (items : list value) :
  Forall reads_back items -> items <> [] ->
  forall fuel rest, list_sum (map (fun x => S (weight x)) items) <= fuel ->
    parse_elements fuel (join "," (map JSON_stringify items) ++ String "]" rest)
    = Some (items, rest).
Proof.
  induction 1 as [|x l Hx Hl IH]; [congruence|]. intros _ fuel rest Hfuel.
  cbn [map list_sum fold_right] in Hfuel.
  destruct fuel as [|fuel]; [lia|]. rewrite parse_elements_S.
  destruct l as [|y l].
  - cbn [map join]. rewrite Hx by (try reflexivity; cbn in Hfuel; lia).
    reflexivity.
  - cbn [map]. rewrite join_cons2, !app_assoc_s.
    rewrite Hx by (try reflexivity; lia).
    cbn [append]. rewrite peek_same by reflexivity.
    cbn [map] in IH. rewrite IH by (try discriminate; cbn [map list_sum fold_right] in *; lia).
    reflexivity.
Qed.

Lemma parse_value_array (fuel : nat) (tail : string) :
  parse_value (S fuel) (String "[" tail)
  = match peek "]" tail with
    | Some rest' => Some (VArr [], rest')
    | None =>
        match parse_elements fuel tail with
        | Some (items, rest') => Some (VArr items, rest')
        | None => None
        end
    end.
Proof. reflexivity. Qed.

Lemma parse_value_object (fuel : nat) (tail : string) :
  parse_value (S fuel) (String "{" tail)
  = match peek "}" tail with
    | Some rest' => Some (VObj [], rest')
    | None =>
        match parse_members fuel tail with
        | Some (props, rest') => Some (VObj props, rest')
        | None => None
        end
    end.
Proof. reflexivity. Qed.

Lemma parse_value_quoted (fuel : nat) (tail : string) :
  parse_value (S fuel) (String dquote tail)
  = match parse_string tail with
    | Some (str, rest') => Some (VStr str, rest')
    | None => None
    end.
Proof. reflexivity. Qed.

Definition member_text (kv : string * value) : string :=
  QuoteJSONString (fst kv) ++ ":" ++ JSON_stringify (snd kv).

Lemma stringify_array (items : list value) (rest : string) :
  JSON_stringify (VArr items) ++ rest
  = String "[" (join "," (map JSON_stringify items) ++ String "]" rest).
Proof. cbn [JSON_stringify append]. now rewrite app_assoc_s. Qed.

Lemma stringify_object (props : list (string * value)) (rest : string) :
  JSON_stringify (VObj props) ++ rest
  = String "{" (join "," (map member_text props) ++ String "}" rest).
Proof. cbn [JSON_stringify append]. now rewrite app_assoc_s. Qed.

Lemma member_text_app (k : string) (x : value) (tail : string) :
  member_text (k, x) ++ tail
  = String dquote (escape_chars k ++ String dquote (String ":" (JSON_stringify x ++ tail))).
Proof.
  unfold member_text. cbn [fst snd].
  now rewrite app_assoc_s, QuoteJSONString_app, app_assoc_s.
Qed.

Lemma parse_members_stringify (props : list (string * value)) :
  Forall (fun kv => reads_back (snd kv)) props -> props <> [] ->
  forall fuel rest, list_sum (map (fun kv => S (weight (snd kv))) props) <= fuel ->
    parse_members fuel (join "," (map member_text props) ++ String "}" rest)
    = Some (props, rest).
Proof.
  induction 1 as [|[k x] l Hx Hl IH]; [congruence|]. intros _ fuel rest Hfuel.
  cbn [map list_sum fold_right snd] in Hfuel. cbn [snd] in Hx.
  destruct fuel as [|fuel]; [lia|]. rewrite parse_members_S.
  destruct l as [|y l].
  - cbn [map join]. rewrite member_text_app.
    rewrite peek_same by reflexivity. rewrite parse_string_quote.
    rewrite peek_same by reflexivity.
    rewrite Hx by (try reflexivity; cbn in Hfuel; lia).
    reflexivity.
  - cbn [map]. rewrite join_cons2, !app_assoc_s, member_text_app.
    rewrite peek_same by reflexivity. rewrite parse_string_quote.
    rewrite peek_same by reflexivity.
    cbn [append].
    rewrite Hx by (try reflexivity; lia).
    rewrite peek_same by reflexivity.
    cbn [map] in IH. rewrite IH by (try discriminate; cbn [map list_sum fold_right] in *; lia).
    reflexivity.
Qed.

Lemma parse_value_stringify (v : value) : reads_back v.
Proof.
  induction v as [|b|n|s|items IH|props IH] using value_ind;
    intros fuel rest Hfuel Hstop;
    (destruct fuel as [|fuel]; [cbn in Hfuel; lia|]).
  - reflexivity.
  - destruct b; reflexivity.
  - rewrite parse_value_S. cbn [JSON_stringify].
    destruct (number_toString_start _ LAWS n) as (c & s & E & H).
    pose proof (number_lex_toString _ LAWS n rest Hstop) as Hlex.
    rewrite E in *. cbn [append] in *. cbn [skip_ws].
    destruct (number_start_dispatch c H) as (-> & -> & -> & -> & -> & -> & -> & _).
    now rewrite H, Hlex.
  - cbn [JSON_stringify]. rewrite QuoteJSONString_app, parse_value_quoted.
    now rewrite parse_string_quote.
  - rewrite stringify_array, parse_value_array.
    destruct items as [|x l]; [reflexivity|].
    destruct (JSON_stringify_start x) as (c & s & E & H).
    destruct (value_start_token c H) as (Hws & Hc & _).
    assert (Hp : peek "]" (join "," (map JSON_stringify (x :: l)) ++ String "]" rest) = None).
    { destruct l as [|y l]; cbn [map].
      - cbn [join]. rewrite E. now apply peek_other.
      - rewrite join_cons2, app_assoc_s, E. now apply peek_other. }
    rewrite Hp.
    rewrite parse_elements_stringify; try assumption; try discriminate.
    + reflexivity.
    + cbn [weight] in Hfuel. lia.
  - rewrite stringify_object, parse_value_object.
    destruct props as [|[k x] l]; [reflexivity|].
    assert (Hp : peek "}" (join "," (map member_text ((k, x) :: l)) ++ String "}" rest) = None).
    { destruct l as [|y l]; cbn [map].
      - cbn [join]. rewrite member_text_app. reflexivity.
      - rewrite join_cons2, !app_assoc_s, member_text_app. reflexivity. }
    rewrite Hp.
    rewrite parse_members_stringify; try assumption; try discriminate.
    + reflexivity.
    + cbn [weight] in Hfuel. lia.
Qed.

(** ** The text is long enough to pay for the fuel *)

Lemma QuoteJSONString_length (s : string) : 2 <= String.length (QuoteJSONString s).
Proof. unfold QuoteJSONString. cbn [String.length]. rewrite length_app_s. cbn. lia. Qed.

Lemma weight_length (v : value) : weight v <= String.length (JSON_stringify v).
Proof.
  induction v as [|b|n|s|items IH|props IH] using value_ind.
  - cbn. lia.
  - destruct b; cbn; lia.
  - cbn. destruct (number_toString_start _ LAWS n) as (c & s & -> & _). cbn. lia.
  - cbn [weight JSON_stringify]. pose proof (QuoteJSONString_length s). lia.
  - rewrite <- (app_nil_r_s (JSON_stringify (VArr items))), stringify_array.
    cbn [weight String.length]. rewrite length_app_s. cbn [String.length].
    enough (list_sum (map (fun x => S (weight x)) items)
            <= S (String.length (join "," (map JSON_stringify items)))) by lia.
    induction IH as [|x l Hx Hl IHl]; [cbn; lia|].
    destruct l as [|y l].
    + cbn. lia.
    + cbn [map] in *. rewrite join_cons2, !length_app_s.
      cbn [list_sum fold_right String.length] in *. lia.
  - rewrite <- (app_nil_r_s (JSON_stringify (VObj props))), stringify_object.
    cbn [weight String.length]. rewrite length_app_s. cbn [String.length].
    enough (list_sum (map (fun kv => S (weight (snd kv))) props)
            <= S (String.length (join "," (map member_text props)))) by lia.
    induction IH as [|x l Hx Hl IHl]; [cbn; lia|].
    assert (weight (snd x) < String.length (member_text x))
      by (unfold member_text; rewrite !length_app_s; cbn [String.length];
          pose proof (QuoteJSONString_length (fst x)); lia).
    destruct l as [|y l].
    + cbn [map join list_sum fold_right]. lia.
    + cbn [map] in *. rewrite join_cons2, !length_app_s.
      cbn [list_sum fold_right String.length] in *. lia.
Qed.

Lemma JSON_read_stringify (v : value) : JSON_read (JSON_stringify v) = Some v.
Proof.
  unfold JSON_read.
  pose proof (parse_value_stringify v (2 * String.length (JSON_stringify v) + 2) "") as H.
  rewrite app_nil_r_s in H. rewrite H; [reflexivity| |reflexivity].
  pose proof (weight_length v). lia.
Qed.

Lemma JSON_parse_stringify (v : value) : JSON_parse (JSON_stringify v) = inr v.
Proof. unfold JSON_parse. now rewrite JSON_read_stringify. Qed.

End JSONFacts.

(* ================================================================== *)
(** * The integers satisfy the laws of numbers *)

Lemma number_stop_digit (rest : string) :
  number_stop rest = true ->
  match rest with
  | String c _ => is_digit c = false /\ in_chars ".eE" c = false
  | "" => True
  end.
Proof.
  destruct rest as [|c rest]; [trivial|]. cbn [number_stop].
  bytes c; intros H; try discriminate H; split; reflexivity.
Qed.

Lemma lex_digits_uint (d : Decimal.uint) (rest : string) :
  number_stop rest = true ->
  lex_digits (NilEmpty.string_of_uint d ++ rest) = (d, rest).
Proof.
  intros H. induction d as [|d IH|d IH|d IH|d IH|d IH|d IH|d IH|d IH|d IH|d IH];
    try (cbn [NilEmpty.string_of_uint append lex_digits];
         match goal with
         | |- context [is_digit ?c] => change (is_digit c) with true
         end; cbv iota; rewrite IH; reflexivity).
  cbn [NilEmpty.string_of_uint append].
  apply number_stop_digit in H. destruct rest as [|c rest]; [reflexivity|].
  cbn [lex_digits]. destruct H as [-> _]. reflexivity.
Qed.

(** The decimal digits of a positive number start with a digit from 1 to 9. *)
Lemma to_uint_head (p : positive) :
  match Pos.to_uint p with
  | Decimal.Nil | Decimal.D0 _ => False
  | _ => True
  end.
Proof.
  pose proof (Unsigned.to_uint_nonzero p) as Hnz.
  pose proof (Unsigned.to_of (Pos.to_uint p)) as Hnorm.
  rewrite Unsigned.of_to in Hnorm. cbn [N.to_uint] in Hnorm.
  destruct (Pos.to_uint p) as [|d|d|d|d|d|d|d|d|d|d] eqn:E; try exact I.
  - now apply (Unsigned.to_uint_nonnil p).
  - unfold Decimal.unorm in Hnorm.
    destruct (Decimal.nzhead (Decimal.D0 d)) eqn:Hh; try discriminate Hnorm.
    + now apply Hnz.
    + now apply nzhead_nonzero in Hh.
Qed.

Lemma lex_nat_pos (p : positive) (rest : string) :
  number_stop rest = true ->
  lex_nat (NilEmpty.string_of_uint (Pos.to_uint p) ++ rest) = Some (Z.pos p, rest)
  /\ exists c s, NilEmpty.string_of_uint (Pos.to_uint p) = String c s
                 /\ is_digit c = true /\ Ascii.eqb c "-" = false.
Proof.
  intros H.
  assert (Hz : Z.of_uint (Pos.to_uint p) = Z.pos p)
    by (unfold Z.of_uint; now rewrite Unsigned.of_to).
  pose proof (lex_digits_uint (Pos.to_uint p) rest H) as Hlex.
  pose proof (to_uint_head p) as Hhead.
  destruct (Pos.to_uint p) as [|d|d|d|d|d|d|d|d|d|d]; try contradiction;
    cbn [NilEmpty.string_of_uint append] in *;
    (split; [ unfold lex_nat;
              match goal with
              | |- context [Ascii.eqb ?c "0"] => change (Ascii.eqb c "0") with false
              end;
              match goal with
              | |- context [is_digit ?c] => change (is_digit c) with true
              end; cbv iota; rewrite Hlex, Hz; reflexivity
            | eexists _, _; repeat split ]).
Qed.

Lemma Z_lex_check (r : Z * string) :
  number_stop (snd r) = true ->
  match snd r with
  | String c _ => if in_chars ".eE" c then None else Some r
  | "" => Some r
  end = Some r.
Proof.
  intros H. apply number_stop_digit in H.
  destruct (snd r) as [|c s]; [reflexivity|]. now destruct H as [_ ->].
Qed.

Lemma Z_lex_toString (z : Z) (rest : string) :
  number_stop rest = true -> Z_lex (Z_toString z ++ rest) = Some (z, rest).
Proof.
  intros H. unfold Z_toString, Z_lex.
  destruct z as [|p|p]; cbn [Z.to_int NilZero.string_of_int].
  - cbn. exact (Z_lex_check (0%Z, rest) H).
  - destruct (lex_nat_pos p rest H) as (Hlex & c & s & E & Hd & Hm).
    unfold NilZero.string_of_uint.
    pose proof (to_uint_head p) as Hhead.
    destruct (Pos.to_uint p) eqn:Ep; try contradiction;
      rewrite E in *; cbn [append] in *; rewrite Hm, Hlex;
      exact (Z_lex_check (Z.pos p, rest) H).
  - destruct (lex_nat_pos p rest H) as (Hlex & _).
    unfold NilZero.string_of_uint.
    pose proof (to_uint_head p) as Hhead.
    destruct (Pos.to_uint p) eqn:Ep; try contradiction;
      cbn [append]; change (Ascii.eqb "-" "-") with true; cbv iota;
      rewrite Hlex; exact (Z_lex_check ((- Z.pos p)%Z, rest) H).
Qed.

Lemma Z_toString_start (z : Z) :
  exists c s, Z_toString z = String c s /\ (Ascii.eqb c "-" || is_digit c) = true.
Proof.
  unfold Z_toString. destruct z as [|p|p]; cbn [Z.to_int NilZero.string_of_int].
  - eexists _, _. split; reflexivity.
  - destruct (lex_nat_pos p "" eq_refl) as (_ & c & s & E & Hd & _).
    unfold NilZero.string_of_uint.
    pose proof (to_uint_head p) as Hhead.
    destruct (Pos.to_uint p) eqn:Ep; try contradiction;
      exists c, s; (split; [exact E | now rewrite Hd, orb_true_r]).
  - eexists _, _. split; reflexivity.
Qed.

Lemma ZNumbersLaws : NumbersLaws ZNumbers.
Proof.
  split.
  - exact Z_toString_start.
  - exact Z_lex_toString.
Qed.

(* ================================================================== *)
(** * The proxy routes *)

(** One step of a handler: the monad's operations and the projections of
    the world, unfolded; the platform's functions stay folded. *)
Ltac run_handler :=
  cbv beta iota zeta delta
    [try_catch try_finally bind ret lift throw fetch fetch_promise console_error
     router_push modify formData fresh state requests console pushed app
     negb orb andb BoxRoute.arrayBuffer CombinedRoute.is_null fst snd].

Section RouteFacts.
Context {NUM : Numbers}.

(** A form has a field of name [k]. *)
Definition has_field (k : string) (fd : FormData) : bool :=
  existsb (fun kv => String.eqb k (fst kv)) fd.

Lemma FormData_get_absent (k : string) (fd : FormData) :
  has_field k fd = false -> FormData_get k fd = None.
Proof.
  induction fd as [|[k' v] fd IH]; cbn; [reflexivity|].
  intros H. apply orb_false_iff in H as [-> H]. auto.
Qed.

Lemma NextResponse_json_settable (body : value) (st : Z) :
  settable st = true -> NextResponse_json body st = inr (mkNextResponse st body).
Proof.
  unfold settable, NextResponse_json. intros H.
  apply andb_true_iff in H as [H Hn]. apply andb_true_iff in H as [Hlo Hhi].
  apply negb_true_iff in Hn. rewrite Hn.
  replace (st <? 200)%Z with false by lia. replace (599 <? st)%Z with false by lia.
  reflexivity.
Qed.

(** The request the category route sends on for a shoe identifier [sid]
    and a file [f]. *)
Definition box_request (sid : FormDataEntryValue) (f : File) : Request :=
  mkRequest BoxRoute.backend "POST"
    (Some [("shoe_id", EString (entry_toString sid)); ("file", EFile f)]).

(** The request the aggregation route sends on. *)
Definition combined_request (sid sp bp vp : FormDataEntryValue) : Request :=
  mkRequest CombinedRoute.backend "POST"
    (Some [("shoe_id", EString (entry_toString sid));
           ("sneaker_percent", EString (entry_toString sp));
           ("box_percent", EString (entry_toString bp));
           ("video_percent", EString (entry_toString vp))]).

(** A form the category route lets through. *)
Definition box_form (fd : FormData) (sid : FormDataEntryValue) (f : File) : Prop :=
  FormData_get "shoe_id" fd = Some sid /\ entry_truthy (Some sid) = true
  /\ FormData_get "file" fd = Some (EFile f).

(** A form the aggregation route lets through. *)
Definition combined_form (fd : FormData) (sid sp bp vp : FormDataEntryValue) : Prop :=
  FormData_get "shoe_id" fd = Some sid /\ entry_truthy (Some sid) = true
  /\ FormData_get "sneaker_percent" fd = Some sp
  /\ FormData_get "box_percent" fd = Some bp
  /\ FormData_get "video_percent" fd = Some vp.

(** What the routes answer to a backend response [res]. *)
Definition relay (res : Response) : Error + NextResponse :=
  if negb (ok res) then
    NextResponse_json
      (error_body (if negb (String.eqb (text res) "") then text res
                   else "Status " ++ Z_toString (status res)))
      (status res)
  else
    match Response_json res with
    | inl e => inl e
    | inr data => NextResponse_json data 200
    end.

(** The answer of the [catch] block. *)
Definition caught (e : Error) : NextResponse := mkNextResponse 502 (error_body (message e)).

(** The category route on a form it lets through: one call, then the relay
    of what came back. *)
Lemma BoxRoute_run (net : Network) (fd : FormData) sid f :
  box_form fd sid f ->
  BoxRoute.POST net (mkIncoming (inr fd)) (fresh tt)
  = match net (box_request sid f) with
    | inl e => (inr (caught e),
                mkWorld tt [box_request sid f] [("API Error:", Error_toString e)] [])
    | inr res =>
        match relay res with
        | inl e => (inr (caught e),
                    mkWorld tt [box_request sid f] [("API Error:", Error_toString e)] [])
        | inr r => (inr r, mkWorld tt [box_request sid f] [] [])
        end
    end.
Proof.
  intros (Hs & Ht & Hf).
  unfold BoxRoute.POST. run_handler. rewrite Hs, Hf, Ht.
  cbn [entry_truthy]. run_handler.
  replace (BoxRoute.forward (Some sid) (Some (EFile f)) (file_bytes f))
    with [("shoe_id", EString (entry_toString sid)); ("file", EFile f)]
    by (destruct f; reflexivity).
  unfold box_request.
  destruct (net _) as [e|res]; [reflexivity|].
  unfold relay. destruct (ok res); cbn [negb].
  - destruct (Response_json res) as [e|data]; [reflexivity|].
    destruct (NextResponse_json data 200); reflexivity.
  - destruct (NextResponse_json _ (status res)); reflexivity.
Qed.

Lemma CombinedRoute_run (net : Network) (fd : FormData) sid sp bp vp :
  combined_form fd sid sp bp vp ->
  CombinedRoute.POST net (mkIncoming (inr fd)) (fresh tt)
  = match net (combined_request sid sp bp vp) with
    | inl e => (inr (caught e),
                mkWorld tt [combined_request sid sp bp vp]
                        [("API Error:", Error_toString e)] [])
    | inr res =>
        match relay res with
        | inl e => (inr (caught e),
                    mkWorld tt [combined_request sid sp bp vp]
                            [("API Error:", Error_toString e)] [])
        | inr r => (inr r, mkWorld tt [combined_request sid sp bp vp] [] [])
        end
    end.
Proof.
  intros (Hs & Ht & Hsp & Hbp & Hvp).
  unfold CombinedRoute.POST. run_handler. rewrite Hs, Hsp, Hbp, Hvp, Ht. run_handler.
  change (CombinedRoute.forward (Some sid) (Some sp) (Some bp) (Some vp))
    with [("shoe_id", EString (entry_toString sid));
          ("sneaker_percent", EString (entry_toString sp));
          ("box_percent", EString (entry_toString bp));
          ("video_percent", EString (entry_toString vp))].
  unfold combined_request.
  destruct (net _) as [e|res]; [reflexivity|].
  unfold relay. destruct (ok res); cbn [negb].
  - destruct (Response_json res) as [e|data]; [reflexivity|].
    destruct (NextResponse_json data 200); reflexivity.
  - destruct (NextResponse_json _ (status res)); reflexivity.
Qed.

End RouteFacts.

Section RouteTheorems.
Context {NUM : Numbers}.

(** C2, amended.  A request whose body can be read as a form and whose
    form lacks a required field (the category route: [shoe_id] or [file];
    the aggregation route: [shoe_id], [sneaker_percent], [box_percent] or
    [video_percent]) is answered with status 400 and the JSON body
    [{ error: <the route's message> }], and the world is left as it was: no
    call to the backend is issued.  A request whose body cannot be read as a
    form has none of the fields either; it is answered with status 502 and
    [{ error: <the message of what was thrown> }], which is logged, and no
    call to the backend is issued. *)
Theorem missing_field_is_rejected (net : Network) (w : World unit) :
  (forall fd, has_field "shoe_id" fd = false \/ has_field "file" fd = false ->
     BoxRoute.POST net (mkIncoming (inr fd)) w
     = (inr (mkNextResponse 400
               (VObj [("error", VStr "shoe_id and file are required")])), w))
  /\
  (forall fd, has_field "shoe_id" fd = false \/ has_field "sneaker_percent" fd = false
              \/ has_field "box_percent" fd = false \/ has_field "video_percent" fd = false ->
     CombinedRoute.POST net (mkIncoming (inr fd)) w
     = (inr (mkNextResponse 400 (VObj [("error", VStr
          "shoe_id, sneaker_percent, box_percent, and video_percent are required")])), w))
  /\
  (forall e,
     let logs := mkWorld (state w) (requests w)
                   (console w ++ [("API Error:", Error_toString e)])%list (pushed w) in
     BoxRoute.POST net (mkIncoming (inl e)) w
     = (inr (mkNextResponse 502 (VObj [("error", VStr (message e))])), logs)
     /\ CombinedRoute.POST net (mkIncoming (inl e)) w
        = (inr (mkNextResponse 502 (VObj [("error", VStr (message e))])), logs)).
Proof.
  split; [|split].
  - intros fd H. unfold BoxRoute.POST. run_handler.
    destruct H as [H|H]; rewrite (FormData_get_absent _ _ H).
    + reflexivity.
    + destruct (entry_truthy (FormData_get "shoe_id" fd)); reflexivity.
  - intros fd H. unfold CombinedRoute.POST. run_handler.
    destruct H as [H|[H|[H|H]]]; rewrite (FormData_get_absent _ _ H).
    + reflexivity.
    + destruct (entry_truthy (FormData_get "shoe_id" fd)); reflexivity.
    + destruct (entry_truthy (FormData_get "shoe_id" fd));
        destruct (FormData_get "sneaker_percent" fd); reflexivity.
    + destruct (entry_truthy (FormData_get "shoe_id" fd));
        destruct (FormData_get "sneaker_percent" fd);
        destruct (FormData_get "box_percent" fd); reflexivity.
  - intros e logs. subst logs. destruct w as [st rq con psh].
    split; [unfold BoxRoute.POST | unfold CombinedRoute.POST]; run_handler; reflexivity.
Qed.

(** C5, amended.  When the backend answers with a status that is not a
    success and that a response can carry (300 to 599, 304 apart), the route
    answers with the same status and the body [{ error: t }], where [t] is
    the backend's body text when that text is not empty and
    ["Status <status>"] when it is: an object whose one field, [error],
    holds that string. *)
Theorem upstream_error_is_relayed (net : Network) (res : Response) :
  ok res = false -> settable (status res) = true ->
  let relayed :=
    mkNextResponse (status res)
      (VObj [("error",
              VStr (if String.eqb (text res) "" then "Status " ++ Z_toString (status res)
                    else text res))]) in
  (forall fd sid f, box_form fd sid f -> net (box_request sid f) = inr res ->
     BoxRoute.POST net (mkIncoming (inr fd)) (fresh tt)
     = (inr relayed, mkWorld tt [box_request sid f] [] []))
  /\
  (forall fd sid sp bp vp, combined_form fd sid sp bp vp ->
     net (combined_request sid sp bp vp) = inr res ->
     CombinedRoute.POST net (mkIncoming (inr fd)) (fresh tt)
     = (inr relayed, mkWorld tt [combined_request sid sp bp vp] [] [])).
Proof.
  intros Hok Hset relayed.
  assert (Hrelay : relay res = inr relayed).
  { unfold relay, relayed. rewrite Hok. cbn [negb].
    rewrite NextResponse_json_settable by exact Hset.
    destruct (String.eqb (text res) ""); reflexivity. }
  split.
  - intros fd sid f Hform Hnet. now rewrite (BoxRoute_run net fd sid f Hform), Hnet, Hrelay.
  - intros fd sid sp bp vp Hform Hnet.
    now rewrite (CombinedRoute_run net fd sid sp bp vp Hform), Hnet, Hrelay.
Qed.

(** C6.  When the call to the backend throws, the route answers with status
    502 and the body [{ error: m }], an object whose one field, [error],
    holds [m], the message of what was thrown; the call is the only one
    issued, and the error is logged. *)
Theorem transport_failure_is_502 (net : Network) (e : Error) :
  (forall fd sid f, box_form fd sid f -> net (box_request sid f) = inl e ->
     BoxRoute.POST net (mkIncoming (inr fd)) (fresh tt)
     = (inr (mkNextResponse 502 (VObj [("error", VStr (message e))])),
        mkWorld tt [box_request sid f] [("API Error:", Error_toString e)] []))
  /\
  (forall fd sid sp bp vp, combined_form fd sid sp bp vp ->
     net (combined_request sid sp bp vp) = inl e ->
     CombinedRoute.POST net (mkIncoming (inr fd)) (fresh tt)
     = (inr (mkNextResponse 502 (VObj [("error", VStr (message e))])),
        mkWorld tt [combined_request sid sp bp vp] [("API Error:", Error_toString e)] [])).
Proof.
  split.
  - intros fd sid f Hform Hnet. now rewrite (BoxRoute_run net fd sid f Hform), Hnet.
  - intros fd sid sp bp vp Hform Hnet.
    now rewrite (CombinedRoute_run net fd sid sp bp vp Hform), Hnet.
Qed.



End RouteTheorems.

(** A form of the category route and one of the aggregation route, and a
    backend that never answers. *)
Definition photo : File := mkFile "box.png" "image/png" "PNG".
Definition box_fields : FormData :=
  [("shoe_id", EString "yeezy_350_zebra"); ("file", EFile photo)].
Definition percent_fields (s b v : string) : FormData :=
  [("shoe_id", EString "yeezy_350_zebra"); ("sneaker_percent", EString s);
   ("box_percent", EString b); ("video_percent", EString v)].
Definition unreachable : Network := fun _ => inl (TypeError "fetch failed").
Definition answers (st : Z) (body : string) : Network := fun _ => inr (mkResponse st body).

Lemma box_fields_form : box_form box_fields (EString "yeezy_350_zebra") photo.
Proof. repeat split. Qed.

Lemma percent_fields_form s b v :
  combined_form (percent_fields s b v) (EString "yeezy_350_zebra")
                (EString s) (EString b) (EString v).
Proof. repeat split. Qed.

(** C2 as stated fails: a request whose body is not a form has no required
    field, yet the category route answers it with status 502, not 400; the
    body carries what reading the form threw, and the failure is logged. *)
Lemma unreadable_body_counterexample :
  BoxRoute.POST unreachable
    (mkIncoming (inl (TypeError "Failed to parse body as FormData."))) (fresh tt)
  = (inr (mkNextResponse 502
            (VObj [("error", VStr "Failed to parse body as FormData.")])),
     mkWorld tt [] [("API Error:", "TypeError: Failed to parse body as FormData.")] [])
  /\ res_status (mkNextResponse 502
                    (VObj [("error", VStr "Failed to parse body as FormData.")])) <> 400%Z.
Proof.
  split; [reflexivity|]. intros H. discriminate H.
Qed.

(** C2, amended, at a category form without [file], an aggregation form
    without [video_percent], and a body that is not a form. *)
Lemma missing_field_is_rejected_witness :
  (has_field "file" [("shoe_id", EString "yeezy_350_zebra")] = false
   /\ BoxRoute.POST unreachable
        (mkIncoming (inr [("shoe_id", EString "yeezy_350_zebra")])) (fresh tt)
      = (inr (mkNextResponse 400
                (VObj [("error", VStr "shoe_id and file are required")])), fresh tt))
  /\
  (has_field "video_percent"
     [("shoe_id", EString "yeezy_350_zebra"); ("sneaker_percent", EString "92");
      ("box_percent", EString "88")] = false
   /\ CombinedRoute.POST unreachable
        (mkIncoming (inr [("shoe_id", EString "yeezy_350_zebra");
                          ("sneaker_percent", EString "92");
                          ("box_percent", EString "88")])) (fresh tt)
      = (inr (mkNextResponse 400 (VObj [("error", VStr
           "shoe_id, sneaker_percent, box_percent, and video_percent are required")])),
         fresh tt))
  /\
  CombinedRoute.POST unreachable
    (mkIncoming (inl (TypeError "Failed to parse body as FormData."))) (fresh tt)
  = (inr (mkNextResponse 502
            (VObj [("error", VStr "Failed to parse body as FormData.")])),
     mkWorld tt [] [("API Error:", "TypeError: Failed to parse body as FormData.")] []).
Proof.
  split; [split; [reflexivity|] | split; [split; [reflexivity|] |]].
  - apply (proj1 (missing_field_is_rejected unreachable (fresh tt))).
    right. reflexivity.
  - apply (proj1 (proj2 (missing_field_is_rejected unreachable (fresh tt)))).
    right. right. right. reflexivity.
  - exact (proj2 (proj2 (proj2 (missing_field_is_rejected unreachable (fresh tt)))
                    (TypeError "Failed to parse body as FormData."))).
Defined.

(** C5 as stated fails: a backend that answers 500 with an empty body gets
    [{ error: "Status 500" }] relayed, not its (empty) text; and a backend
    status a response cannot carry, such as 304, is answered with 502. *)
Lemma upstream_error_counterexample :
  fst (BoxRoute.POST (answers 500 "") (mkIncoming (inr box_fields)) (fresh tt))
  = inr (mkNextResponse 500 (VObj [("error", VStr "Status 500")]))
  /\ VObj [("error", VStr "Status 500")]
     <> VObj [("error", VStr (text (mkResponse 500 "")))]
  /\ fst (CombinedRoute.POST (answers 304 "not modified")
            (mkIncoming (inr (percent_fields "92" "88" "95"))) (fresh tt))
     = inr (mkNextResponse 502
              (VObj [("error",
                      VStr "Response constructor: Invalid response status code 304")])).
Proof.
  split; [reflexivity|]. split; [|reflexivity].
  intros H. discriminate H.
Qed.

(** C5, amended, at the backend answer 404 "not found". *)
Lemma upstream_error_is_relayed_witness :
  ok (mkResponse 404 "not found") = false
  /\ settable 404 = true
  /\ BoxRoute.POST (answers 404 "not found") (mkIncoming (inr box_fields)) (fresh tt)
     = (inr (mkNextResponse 404 (VObj [("error", VStr "not found")])),
        mkWorld tt [box_request (EString "yeezy_350_zebra") photo] [] []).
Proof.
  split; [reflexivity|]. split; [reflexivity|].
  exact (proj1 (upstream_error_is_relayed (answers 404 "not found")
                  (mkResponse 404 "not found") eq_refl eq_refl)
               box_fields _ _ box_fields_form eq_refl).
Defined.

(** C6 at a backend that cannot be reached. *)
Lemma transport_failure_is_502_witness :
  BoxRoute.POST unreachable (mkIncoming (inr box_fields)) (fresh tt)
  = (inr (mkNextResponse 502 (VObj [("error", VStr "fetch failed")])),
     mkWorld tt [box_request (EString "yeezy_350_zebra") photo]
             [("API Error:", "TypeError: fetch failed")] [])
  /\ fst (CombinedRoute.POST unreachable
            (mkIncoming (inr (percent_fields "92" "88" "95"))) (fresh tt))
     = inr (mkNextResponse 502 (VObj [("error", VStr "fetch failed")])).
Proof.
  split.
  - exact (proj1 (transport_failure_is_502 unreachable (TypeError "fetch failed"))
                 box_fields _ _ box_fields_form eq_refl).
  - rewrite (proj2 (transport_failure_is_502 unreachable (TypeError "fetch failed"))
                   (percent_fields "92" "88" "95") _ _ _ _
                   (percent_fields_form "92" "88" "95") eq_refl).
    reflexivity.
Defined.



(* ================================================================== *)
(** * The upload page *)

(** One step of an event callback of the upload page. *)
Ltac run_upload :=
  repeat progress
    (cbv beta iota zeta delta
       [try_catch try_finally bind ret lift throw fetch fetch_promise console_error
        router_push modify fresh state requests console pushed app fst snd
        Upload.handleRemove Upload.handleSelect Upload.submitUpload Upload.analyze
        Upload.Promise_all Upload.canProceed
        Upload.setUploads Upload.setSubmitting Upload.setResults Upload.setError
        Upload.set_upload Upload.set_result Upload.set_combined Upload.no_results
        Upload.upload_at Upload.result_at Upload.prop_of
        Upload.modelDropdown Upload.uploads Upload.submitting Upload.results Upload.error
        Upload.sneaker_file Upload.box_file Upload.video_file
        Upload.combined Upload.sneaker Upload.box Upload.video];
     cbn [andb orb negb]).

Section UploadTheorems.
Context {NUM : Numbers}.

(** C8.  Removing a file from a slot clears the file of that slot, the
    analysis result of that category and the error text (all of it, hence
    any text of that category); the other slots keep their file and their
    result. *)
Theorem handleRemove_clears_slot (key : Upload.UploadKey) (w : World Upload.State) :
  let w' := snd (Upload.handleRemove key w) in
  Upload.upload_at key (Upload.uploads (state w')) = None
  /\ Upload.result_at key (Upload.results (state w')) = None
  /\ Upload.error (state w') = ""
  /\ (forall k, k <> key ->
        Upload.upload_at k (Upload.uploads (state w'))
        = Upload.upload_at k (Upload.uploads (state w))
        /\ Upload.result_at k (Upload.results (state w'))
           = Upload.result_at k (Upload.results (state w))).
Proof.
  destruct w as [[model ups sub res err] rq con psh].
  destruct key; run_upload; (split; [reflexivity|]); (split; [reflexivity|]);
    (split; [reflexivity|]); intros k Hk; destruct k; split; congruence.
Qed.

(** ** The aggregation call *)

(** What a category call produced: the parsed body, or what the call or
    [r.json()] threw. *)
Definition category_data (net : Network) (key : Upload.UploadKey) (st : Upload.State)
  (f : File) : Error + value :=
  match net (Upload.category_request key (Upload.shoe_id_of (Upload.modelDropdown st)) f) with
  | inl e => inl e
  | inr res => Response_json res
  end.

(** A result the page keeps and counts: a truthy value whose [error] is
    [undefined] or falsy. *)
Definition usable (o : Error + value) : bool :=
  match o with
  | inr data =>
      match get_prop data "error" with
      | inr err => truthy data && negb (truthy_opt err)
      | inl _ => false
      end
  | inl _ => false
  end.

(** [data.realness_percent] of what a category call produced. *)
Definition percent_of (o : Error + value) : option value :=
  match o with
  | inr data => get_prop_opt (Some data) "realness_percent"
  | inl _ => None
  end.

(** The calls of the aggregation endpoint among the calls issued. *)
Definition aggregation_calls {St} (w : World St) : list Request :=
  filter (fun rq => String.eqb (url rq) "/api/analyze/combined") (requests w).

(** The results the loop over [allResults] leaves in [newResults]. *)
Fixpoint kept (allResults : list (Upload.UploadKey * value)) (newResults : Upload.Results)
  : Error + Upload.Results :=
  match allResults with
  | [] => inr newResults
  | (key, data) :: rest =>
      match get_prop data "error" with
      | inl e => inl e
      | inr err =>
          if truthy_opt err then kept rest newResults
          else kept rest (Upload.set_result key (Some data) newResults)
      end
  end.

(** The loop writes the error text and the console only. *)
Lemma collect_run allResults newResults (w : World Upload.State) :
  exists st' con',
    Upload.collect allResults newResults w
    = (kept allResults newResults, mkWorld st' (requests w) con' (pushed w)).
Proof.
  revert newResults w.
  induction allResults as [|[key data] rest IH]; intros newResults w.
  - exists (state w), (console w). destruct w; reflexivity.
  - cbn [Upload.collect kept]. unfold bind, lift.
    destruct (get_prop data "error") as [e|err].
    + exists (state w), (console w). destruct w; reflexivity.
    + destruct (truthy_opt err).
      * unfold Upload.add_error_line, console_error.
        destruct (String_ err) as [x|text]; unfold modify, ret;
          cbn [state requests console pushed];
          match goal with
          | |- context [Upload.collect rest newResults ?w'] =>
              destruct (IH newResults w') as (st' & con' & ->)
          end;
          cbn [requests pushed]; now exists st', con'.
      * apply IH.
Qed.

(** [String(x)] returns: [x] is not an object with an own [toString]
    property, nor an array that holds one. *)
Definition converts (o : option value) : bool :=
  match String_ o with
  | inr _ => true
  | inl _ => false
  end.

(** The three results are usable and the [realness_percent] of each can be
    written as a string. *)
Definition sendable (s b v : Error + value) : bool :=
  usable s && usable b && usable v
  && converts (percent_of s) && converts (percent_of b) && converts (percent_of v).

(** A submission that stops before the aggregation block: no aggregation
    call, no navigation. *)
Ltac bools :=
  repeat progress (cbv beta iota; cbn [usable andb negb truthy_opt];
                   rewrite ?andb_false_r, ?andb_true_r).

Ltac not_sent :=
  intros sp bp vp; bools; intros H E1 E2 E3;
  first [discriminate H | discriminate E1 | discriminate E2 | discriminate E3].

Ltac sent :=
  intros sp bp vp _ E1 E2 E3; injection E1 as <-; injection E2 as <-; injection E3 as <-;
  reflexivity.

Ltac upload_stops :=
  split;
  [ not_sent
  | intros _; split; [reflexivity | intros href []] ].

Lemma get_prop_truthy (data : value) (k : string) :
  truthy data = true -> get_prop data k = inr (get_prop_opt (Some data) k).
Proof. destruct data; try reflexivity. discriminate. Qed.

Lemma results_params_no_combined (newResults : Upload.Results) (model : string) :
  Upload.combined newResults = None ->
  params_get "combined" (Upload.results_params newResults model) = None.
Proof.
  intros H. unfold Upload.results_params, Upload.append_if, params_append.
  rewrite H. cbn [Upload.param_of String.eqb negb].
  destruct (negb (String.eqb (Upload.param_of (Upload.sneaker newResults)) ""));
    destruct (negb (String.eqb (Upload.param_of (Upload.box newResults)) ""));
    destruct (negb (String.eqb (Upload.param_of (Upload.video newResults)) ""));
    reflexivity.
Qed.

(** A submission that skips the aggregation block and navigates. *)
Ltac upload_skips :=
  split;
  [ not_sent
  | intros _; split;
    [ reflexivity
    | intros href [<-|[]]; unfold Upload.results_url;
      rewrite useSearchParams_push; now apply results_params_no_combined ] ].

(** The submission, run: with three usable results whose percentages can
    be written as strings the aggregation call is the one call of its
    endpoint; otherwise there is none, and a page the browser is sent to
    gets no [combined] parameter. *)
Lemma submitUpload_aggregation (net : Network) (st : Upload.State) (f1 f2 f3 : File) :
  Upload.uploads st = Upload.mkUploads (Some f1) (Some f2) (Some f3) ->
  Upload.submitting st = false ->
  let s := category_data net Upload.Sneaker st f1 in
  let b := category_data net Upload.Box st f2 in
  let v := category_data net Upload.Video st f3 in
  let w := snd (Upload.submitUpload net st (fresh st)) in
  (forall sp bp vp,
     usable s && usable b && usable v = true ->
     String_ (percent_of s) = inr sp -> String_ (percent_of b) = inr bp ->
     String_ (percent_of v) = inr vp ->
     aggregation_calls w
     = [Upload.combined_request (Upload.shoe_id_of (Upload.modelDropdown st)) sp bp vp])
  /\
  (sendable s b v = false ->
   aggregation_calls w = []
   /\ forall href, In href (pushed w) ->
        params_get "combined" (useSearchParams href) = None).
Proof.
  intros Hup Hsub s b v w.
  destruct st as [model ups sub res err]. cbn in Hup, Hsub. subst ups sub.
  subst w s b v. unfold sendable, category_data. run_upload.
  destruct (net (Upload.category_request Upload.Sneaker _ f1)) as [e1|res1];
    [upload_stops|].
  destruct (Response_json res1) as [e1|d1]; [upload_stops|].
  destruct (net (Upload.category_request Upload.Box _ f2)) as [e2|res2];
    [upload_stops|].
  destruct (Response_json res2) as [e2|d2]; [upload_stops|].
  destruct (net (Upload.category_request Upload.Video _ f3)) as [e3|res3];
    [upload_stops|].
  destruct (Response_json res3) as [e3|d3]; [upload_stops|].
  run_upload.
  match goal with
  | |- context [Upload.collect ?l ?nr ?w0] =>
      destruct (collect_run l nr w0) as (st' & con' & E); rewrite E; clear E
  end.
  cbn [kept usable].
  destruct (get_prop d1 "error") as [x1|err1] eqn:G1; [upload_stops|].
  destruct (get_prop d2 "error") as [x2|err2] eqn:G2;
    [destruct (truthy_opt err1); upload_stops|].
  destruct (get_prop d3 "error") as [x3|err3] eqn:G3;
    [destruct (truthy_opt err1), (truthy_opt err2); upload_stops|].
  destruct (truthy_opt err1), (truthy_opt err2), (truthy_opt err3);
    run_upload; bools; run_upload; try upload_skips.
  destruct (truthy d1) eqn:T1; run_upload; [|upload_skips].
  destruct (truthy d2) eqn:T2; run_upload; [|upload_skips].
  destruct (truthy d3) eqn:T3; run_upload; [|upload_skips].
  rewrite (get_prop_truthy d1 _ T1), (get_prop_truthy d2 _ T2), (get_prop_truthy d3 _ T3).
  unfold percent_of, converts. run_upload.
  destruct (String_ (get_prop_opt (Some d1) "realness_percent")) as [y1|t1];
    [upload_stops|].
  destruct (String_ (get_prop_opt (Some d2) "realness_percent")) as [y2|t2];
    [upload_stops|].
  destruct (String_ (get_prop_opt (Some d3) "realness_percent")) as [y3|t3];
    [upload_stops|].
  run_upload.
  destruct (net (Upload.combined_request _ _ _ _)) as [e|combinedRes];
    [split; [sent | intros H; discriminate H]|].
  destruct (Response_json combinedRes) as [e|combinedData];
    [split; [sent | intros H; discriminate H]|].
  destruct (get_prop combinedData "error") as [e|cerr];
    [split; [sent | intros H; discriminate H]|].
  destruct (truthy_opt cerr); run_upload; (split; [sent | intros H; discriminate H]).
Qed.

(** A category answered with an error the page reports: [data.error] is
    truthy. *)
Definition reports_error (o : Error + value) : bool :=
  match o with
  | inr data =>
      match get_prop data "error" with
      | inr err => truthy_opt err
      | inl _ => false
      end
  | inl _ => false
  end.

Lemma reports_error_unusable (o : Error + value) :
  reports_error o = true -> usable o = false.
Proof.
  destruct o as [e|data]; [reflexivity|]. cbn.
  destruct (get_prop data "error") as [e|err]; [reflexivity|].
  intros ->. apply andb_false_r.
Qed.

(** The identifier sent as [shoe_id]: [FormData.append] writes ["undefined"]
    for a model the table does not list. *)
Definition shoe (st : Upload.State) : string :=
  match Upload.shoe_id_of (Upload.modelDropdown st) with
  | Some id => id
  | None => "undefined"
  end.

Lemma converts_inr (o : option value) :
  converts o = true -> exists t, String_ o = inr t.
Proof. unfold converts. destruct (String_ o) as [e|t]; [discriminate|]. now exists t. Qed.

(** C1, amended.  In a submission with its three files, the aggregation
    request is issued exactly once if and only if each of the three category
    calls produced a truthy JSON result whose [error] field is absent or
    falsy ([null], [false], 0 or the empty string) and whose
    [realness_percent] [String()] can convert (it is not an object with an
    own [toString] property, nor an array that holds one); otherwise it is
    not issued.  When issued it carries the model's identifier and, as
    strings, the [realness_percent] of the three category results.  When a
    category answered with a truthy [error], no aggregation call is made and
    a page the browser is sent to gets no [combined] parameter. *)
Theorem aggregation_iff_all_usable (net : Network) (st : Upload.State) (f1 f2 f3 : File) :
  Upload.uploads st = Upload.mkUploads (Some f1) (Some f2) (Some f3) ->
  Upload.submitting st = false ->
  let s := category_data net Upload.Sneaker st f1 in
  let b := category_data net Upload.Box st f2 in
  let v := category_data net Upload.Video st f3 in
  let w := snd (Upload.submitUpload net st (fresh st)) in
  (length (aggregation_calls w) = 1 <-> sendable s b v = true)
  /\
  (forall sp bp vp,
     usable s && usable b && usable v = true ->
     String_ (percent_of s) = inr sp -> String_ (percent_of b) = inr bp ->
     String_ (percent_of v) = inr vp ->
     aggregation_calls w
     = [mkRequest "/api/analyze/combined" "POST"
          (Some [("shoe_id", EString (shoe st));
                 ("sneaker_percent", EString sp);
                 ("box_percent", EString bp);
                 ("video_percent", EString vp)])])
  /\
  (sendable s b v = false -> aggregation_calls w = [])
  /\
  (reports_error s || reports_error b || reports_error v = true ->
   aggregation_calls w = []
   /\ forall href, In href (pushed w) ->
        params_get "combined" (useSearchParams href) = None).
Proof.
  intros Hup Hsub s b v w.
  destruct (submitUpload_aggregation net st f1 f2 f3 Hup Hsub) as [Hyes Hno].
  fold s b v w in Hyes, Hno.
  assert (Hbad : reports_error s || reports_error b || reports_error v = true ->
                 sendable s b v = false).
  { intros H. unfold sendable.
    apply orb_true_iff in H as [H|H]; [apply orb_true_iff in H as [H|H]|];
      rewrite (reports_error_unusable _ H); rewrite ?andb_false_r; reflexivity. }
  split; [|split; [|split]].
  - destruct (sendable s b v) eqn:E.
    + unfold sendable in E.
      apply andb_true_iff in E as [E Cv]. apply andb_true_iff in E as [E Cb].
      apply andb_true_iff in E as [E Cs].
      destruct (converts_inr _ Cs) as [sp Es], (converts_inr _ Cb) as [bp Eb],
        (converts_inr _ Cv) as [vp Ev].
      rewrite (Hyes sp bp vp E Es Eb Ev). split; reflexivity.
    + destruct (Hno eq_refl) as [-> _]. split; discriminate.
  - intros sp bp vp H Es Eb Ev. rewrite (Hyes sp bp vp H Es Eb Ev). reflexivity.
  - intros H. now destruct (Hno H).
  - intros H. exact (Hno (Hbad H)).
Qed.

End UploadTheorems.

(** A network that answers each endpoint of the page with status 200 and
    the JSON text of a value. *)
Definition endpoints (s b v c : value) : Network :=
  fun rq =>
    inr (mkResponse 200
           (JSON_stringify
              (if String.eqb (url rq) "/api/analyze/sneaker" then s
               else if String.eqb (url rq) "/api/analyze/box" then b
               else if String.eqb (url rq) "/api/analyze/video" then v
               else c))).

Definition verdict_of (verdict : string) (percent : Z) : value :=
  VObj [("verdict", VStr verdict); ("realness_percent", VNum percent)].

(** The form with a model chosen and its three files. *)
Definition ready : Upload.State :=
  Upload.mkState "Yeezy 350 Zebra"
    (Upload.mkUploads (Some photo) (Some photo) (Some photo)) false Upload.no_results "".

(** The sneaker endpoint answers with a result that has an [error] field
    holding [null]. *)
Definition null_error : value :=
  VObj [("error", VNull); ("verdict", VStr "REAL"); ("realness_percent", VNum 92%Z)].
Definition null_error_net : Network :=
  endpoints null_error (verdict_of "REAL" 88) (verdict_of "REAL" 95)
            (verdict_of "AUTHENTIC" 91).

(** The scenario of three results 92, 88 and 95. *)
Definition scenario_net : Network :=
  endpoints (verdict_of "REAL" 92) (verdict_of "REAL" 88) (verdict_of "REAL" 95)
            (verdict_of "AUTHENTIC" 91).

Definition scenario_call : Request :=
  mkRequest "/api/analyze/combined" "POST"
    (Some [("shoe_id", EString "yeezy_350_zebra");
           ("sneaker_percent", EString "92");
           ("box_percent", EString "88");
           ("video_percent", EString "95")]).

(** C1 as stated fails: the sneaker call answers with a result that has an
    [error] field (holding [null]), and the aggregation request is issued
    all the same. *)
Lemma error_field_counterexample :
  category_data null_error_net Upload.Sneaker ready photo = inr null_error
  /\ lookup "error" [("error", VNull); ("verdict", VStr "REAL");
                     ("realness_percent", VNum 92%Z)] = Some VNull
  /\ aggregation_calls (snd (Upload.submitUpload null_error_net ready (fresh ready)))
     = [scenario_call].
Proof. repeat split; vm_compute; reflexivity. Qed.

(** C1, amended, at the scenario of three results 92, 88 and 95. *)
Lemma aggregation_iff_all_usable_witness :
  aggregation_calls (snd (Upload.submitUpload scenario_net ready (fresh ready)))
  = [scenario_call].
Proof.
  exact (proj1 (proj2 (aggregation_iff_all_usable scenario_net ready photo photo photo
                         eq_refl eq_refl))
               "92" "88" "95" eq_refl eq_refl eq_refl eq_refl).
Defined.

(** The sneaker endpoint answers with a percentage that is an object with a
    [toString] field: [String()] throws at it, and no aggregation request is
    issued although no result has an [error] field. *)
Definition odd_percent : value :=
  VObj [("verdict", VStr "REAL");
        ("realness_percent", VObj [("toString", VStr "92")])].
Definition odd_percent_net : Network :=
  endpoints odd_percent (verdict_of "REAL" 88) (verdict_of "REAL" 95)
            (verdict_of "AUTHENTIC" 91).

Lemma odd_percent_is_not_sent :
  usable (category_data odd_percent_net Upload.Sneaker ready photo) = true
  /\ sendable (category_data odd_percent_net Upload.Sneaker ready photo)
              (category_data odd_percent_net Upload.Box ready photo)
              (category_data odd_percent_net Upload.Video ready photo) = false
  /\ aggregation_calls (snd (Upload.submitUpload odd_percent_net ready (fresh ready))) = []
  /\ pushed (snd (Upload.submitUpload odd_percent_net ready (fresh ready))) = [].
Proof. repeat split; vm_compute; reflexivity. Qed.

(* ================================================================== *)
(** * The results page *)

Section ResultsFacts.
Context {NUM : Numbers}.

(** The four parameters, in the order the effect reads them. *)
Inductive Field := FSneaker | FBox | FVideo | FCombined.

Definition field_name (k : Field) : string :=
  match k with
  | FSneaker => "sneaker"
  | FBox => "box"
  | FVideo => "video"
  | FCombined => "combined"
  end.

Definition position (k : Field) : nat :=
  match k with
  | FSneaker => 0
  | FBox => 1
  | FVideo => 2
  | FCombined => 3
  end.

(** [a] is read before [b]. *)
Definition before (a b : Field) : bool := Nat.ltb (position a) (position b).

Definition shown (k : Field) (r : Results.Results) : option value :=
  match k with
  | FSneaker => Results.sneaker r
  | FBox => Results.box r
  | FVideo => Results.video r
  | FCombined => Results.combined r
  end.

Definition put (k : Field) : value -> Results.Results -> Results.Results :=
  match k with
  | FSneaker => Results.put_sneaker
  | FBox => Results.put_box
  | FVideo => Results.put_video
  | FCombined => Results.put_combined
  end.

(** The text of a parameter the effect acts on: neither [null] nor empty. *)
Definition present (searchParams : URLSearchParams) (k : Field) : option string :=
  match params_get (field_name k) searchParams with
  | Some d => if String.eqb d "" then None else Some d
  | None => None
  end.

(** What the state of the page holds for a parameter: nothing when the
    render threw. *)
Definition populated (k : Field) (page : (Error + Results.State) * list (string * string))
  : option value :=
  match fst page with
  | inr st => shown k (Results.results st)
  | inl _ => None
  end.

(** One parameter's share of the render. *)
Definition step (searchParams : URLSearchParams) (k : Field) (r : Results.Results)
  : Error + Results.Results :=
  match present searchParams k with
  | Some d =>
      match Results.decode d with
      | inl e => inl e
      | inr v => inr (put k v r)
      end
  | None => inr r
  end.

Definition then_step (searchParams : URLSearchParams) (k : Field)
  (r : Error + Results.Results) : Error + Results.Results :=
  match r with
  | inl e => inl e
  | inr r' => step searchParams k r'
  end.

Definition model_name (searchParams : URLSearchParams) : string :=
  match params_get "model" searchParams with
  | Some m => if negb (String.eqb m "") then m else "Unknown Model"
  | None => "Unknown Model"
  end.

(** The page, run: the four parameters in order, each on what the one
    before it left. *)
Lemma ResultsPage_run (searchParams : URLSearchParams) :
  Results.ResultsPage searchParams
  = (match then_step searchParams FCombined
             (then_step searchParams FVideo
                (then_step searchParams FBox
                   (step searchParams FSneaker (Results.mkResults None None None None))))
     with
     | inl e => inl e
     | inr r => inr (Results.mkState r (model_name searchParams) false [])
     end, []).
Proof.
  unfold Results.ResultsPage, Results.effect, Results.render, Results.when_present,
    then_step, step, present, model_name.
  cbn [field_name].
  destruct (params_get "sneaker" searchParams) as [d1|];
    [destruct (String.eqb d1 "")|];
    (destruct (params_get "box" searchParams) as [d2|];
     [destruct (String.eqb d2 "")|]);
    (destruct (params_get "video" searchParams) as [d3|];
     [destruct (String.eqb d3 "")|]);
    (destruct (params_get "combined" searchParams) as [d4|];
     [destruct (String.eqb d4 "")|]);
    cbv beta iota zeta delta
      [try_catch try_finally bind ret modify fresh state requests console pushed
       app fst snd negb Results.setResults Results.setShoeModel Results.setLoading
       Results.initial Results.results Results.shoeModel Results.loading Results.queued
       Results.run_queue Results.with_field put];
    repeat match goal with
           | |- context [Results.decode ?d] => destruct (Results.decode d)
           end;
    reflexivity.
Qed.

(** What a parameter contributes when it decodes and parses. *)
Definition decoded (searchParams : URLSearchParams) (k : Field) : option value :=
  match present searchParams k with
  | Some d =>
      match Results.decode d with
      | inr v => Some v
      | inl _ => None
      end
  | None => None
  end.

(** When every parameter that is present decodes and parses, the page shows
    each of them. *)
Lemma page_of_decodable (searchParams : URLSearchParams) :
  (forall k d, present searchParams k = Some d -> exists v, Results.decode d = inr v) ->
  forall k, populated k (Results.ResultsPage searchParams) = decoded searchParams k.
Proof.
  intros Hall. unfold populated, decoded. rewrite ResultsPage_run. cbn [fst].
  unfold then_step, step.
  destruct (present searchParams FSneaker) as [d1|] eqn:P1;
    [destruct (Hall _ _ P1) as (v1 & D1); rewrite D1|];
    (destruct (present searchParams FBox) as [d2|] eqn:P2;
     [destruct (Hall _ _ P2) as (v2 & D2); rewrite D2|]);
    (destruct (present searchParams FVideo) as [d3|] eqn:P3;
     [destruct (Hall _ _ P3) as (v3 & D3); rewrite D3|]);
    (destruct (present searchParams FCombined) as [d4|] eqn:P4;
     [destruct (Hall _ _ P4) as (v4 & D4); rewrite D4|]);
    intros k; destruct k; rewrite ?P1, ?P2, ?P3, ?P4, ?D1, ?D2, ?D3, ?D4; reflexivity.
Qed.

(** C7, for a parameter that fails.  The page does not do what its [try]
    is there for.  [JSON.parse(decodeURIComponent(data))] is not evaluated
    inside the [try] of the effect but inside the updater handed to
    [setResults], which React runs at the next render, after the effect has
    returned.  So when a parameter is present and fails to decode or parse,
    the effect returns and logs nothing (its [catch] is never entered); the
    render throws what the first failing parameter threw; and no parameter
    is populated, the well-formed ones before and after it included.  (Which
    parameter fails first is that of the model's decoder, which leaves out
    the UTF-8 check of [decodeURIComponent]: on the platform an earlier
    parameter can fail that check, and the render then throws its error.) *)
Theorem malformed_parameter_is_not_caught (searchParams : URLSearchParams)
  (k : Field) (d : string) (e : Error) :
  present searchParams k = Some d -> Results.decode d = inl e ->
  (fst (Results.effect searchParams (fresh Results.initial)) = inr tt
   /\ console (snd (Results.effect searchParams (fresh Results.initial))) = [])
  /\ (exists k0 d0 e0,
        present searchParams k0 = Some d0 /\ Results.decode d0 = inl e0
        /\ (forall k' d', before k' k0 = true -> present searchParams k' = Some d' ->
              exists v', Results.decode d' = inr v')
        /\ Results.ResultsPage searchParams = (inl e0, []))
  /\ forall k', populated k' (Results.ResultsPage searchParams) = None.
Proof.
  intros Hp Hd.
  assert (Heffect : fst (Results.effect searchParams (fresh Results.initial)) = inr tt
                    /\ console (snd (Results.effect searchParams (fresh Results.initial)))
                       = []).
  { unfold Results.effect, Results.when_present.
    destruct (params_get "sneaker" searchParams) as [d1|];
      [destruct (String.eqb d1 "")|];
      (destruct (params_get "box" searchParams) as [d2|];
       [destruct (String.eqb d2 "")|]);
      (destruct (params_get "video" searchParams) as [d3|];
       [destruct (String.eqb d3 "")|]);
      (destruct (params_get "combined" searchParams) as [d4|];
       [destruct (String.eqb d4 "")|]);
      split; reflexivity. }
  split; [exact Heffect|]. clear Heffect.
  unfold populated. rewrite ResultsPage_run. cbn [fst].
  unfold then_step, step.
  destruct (present searchParams FSneaker) as [d1|] eqn:P1;
    [destruct (Results.decode d1) as [e1|v1] eqn:D1|];
    (destruct (present searchParams FBox) as [d2|] eqn:P2;
     [destruct (Results.decode d2) as [e2|v2] eqn:D2|]);
    (destruct (present searchParams FVideo) as [d3|] eqn:P3;
     [destruct (Results.decode d3) as [e3|v3] eqn:D3|]);
    (destruct (present searchParams FCombined) as [d4|] eqn:P4;
     [destruct (Results.decode d4) as [e4|v4] eqn:D4|]).
  all: try (exfalso; destruct k; rewrite ?P1, ?P2, ?P3, ?P4 in Hp; try discriminate Hp;
            injection Hp as <-; rewrite ?D1, ?D2, ?D3, ?D4 in Hd; discriminate Hd).
  all: (split; [|intros k'; reflexivity]).
  all: first
    [ exists FSneaker, d1, e1; (split; [exact P1|]); (split; [exact D1|]);
      (split; [intros k' d' Hb; destruct k'; discriminate Hb | reflexivity])
    | exists FBox, d2, e2; (split; [exact P2|]); (split; [exact D2|]);
      (split; [|reflexivity]);
      intros k' d' Hb Hk; destruct k'; try discriminate Hb;
      rewrite ?P1 in Hk; try discriminate Hk; injection Hk as <-; eauto
    | exists FVideo, d3, e3; (split; [exact P3|]); (split; [exact D3|]);
      (split; [|reflexivity]);
      intros k' d' Hb Hk; destruct k'; try discriminate Hb;
      rewrite ?P1, ?P2 in Hk; try discriminate Hk; injection Hk as <-; eauto
    | exists FCombined, d4, e4; (split; [exact P4|]); (split; [exact D4|]);
      (split; [|reflexivity]);
      intros k' d' Hb Hk; destruct k'; try discriminate Hb;
      rewrite ?P1, ?P2, ?P3 in Hk; try discriminate Hk; injection Hk as <-; eauto ].
Qed.


End ResultsFacts.

(* ================================================================== *)
(** * From the upload page to the results page *)

Section RoundTrip.
Context {NUM : Numbers}.
Hypothesis LAWS : NumbersLaws NUM.

(** The result the upload page holds for a parameter. *)
Definition sent (k : Field) (newResults : Upload.Results) : option value :=
  match k with
  | FSneaker => Upload.sneaker newResults
  | FBox => Upload.box newResults
  | FVideo => Upload.video newResults
  | FCombined => Upload.combined newResults
  end.

Lemma JSON_stringify_nonempty (v : value) : String.eqb (JSON_stringify v) "" = false.
Proof. destruct (JSON_stringify_start LAWS v) as (c & s & -> & _). reflexivity. Qed.

Lemma param_of_empty (o : option value) :
  String.eqb (Upload.param_of o) "" = negb (truthy_opt o).
Proof.
  destruct o as [v|]; [|reflexivity]. cbn [Upload.param_of truthy_opt].
  destruct (truthy v); [|reflexivity].
  now rewrite encodeURIComponent_empty, JSON_stringify_nonempty.
Qed.

Lemma decode_param_of (v : value) :
  truthy v = true -> Results.decode (Upload.param_of (Some v)) = inr v.
Proof.
  intros H. unfold Results.decode. cbn [Upload.param_of]. rewrite H.
  rewrite decodeURIComponent_encodeURIComponent. now apply JSON_parse_stringify.
Qed.

(** The parameters the results page finds are the truthy results of the
    upload page, encoded. *)
Lemma present_results_params (newResults : Upload.Results) (model : string) (k : Field) :
  present (Upload.results_params newResults model) k
  = if truthy_opt (sent k newResults) then Some (Upload.param_of (sent k newResults))
    else None.
Proof.
  unfold present, Upload.results_params, Upload.append_if, params_append.
  pose proof (param_of_empty (Upload.sneaker newResults)) as E1.
  pose proof (param_of_empty (Upload.box newResults)) as E2.
  pose proof (param_of_empty (Upload.video newResults)) as E3.
  pose proof (param_of_empty (Upload.combined newResults)) as E4.
  destruct (truthy_opt (Upload.sneaker newResults)) eqn:T1;
    destruct (truthy_opt (Upload.box newResults)) eqn:T2;
    destruct (truthy_opt (Upload.video newResults)) eqn:T3;
    destruct (truthy_opt (Upload.combined newResults)) eqn:T4;
    cbn [negb] in E1, E2, E3, E4; rewrite E1, E2, E3, E4; cbn [negb app];
    destruct k; cbn [field_name sent params_get String.eqb Ascii.eqb Bool.eqb];
    rewrite ?T1, ?T2, ?T3, ?T4, ?E1, ?E2, ?E3, ?E4; reflexivity.
Qed.

(** C4.  A result the upload page holds and writes into the results URL
    (an object, or any other truthy value) is read back by the results page
    as the same value: its [verdict] and its [realness_percent] are the
    ones it had. *)
Theorem results_survive_the_url (newResults : Upload.Results) (model : string)
  (k : Field) (r : value) :
  sent k newResults = Some r -> truthy r = true ->
  let page := Results.ResultsPage (useSearchParams (Upload.results_url newResults model)) in
  populated k page = Some r
  /\ get_prop_opt (populated k page) "verdict" = get_prop_opt (Some r) "verdict"
  /\ get_prop_opt (populated k page) "realness_percent"
     = get_prop_opt (Some r) "realness_percent".
Proof.
  intros Hsent Htruthy page.
  assert (Hpage : populated k page = Some r).
  { subst page. unfold Upload.results_url. rewrite useSearchParams_push.
    rewrite page_of_decodable.
    - unfold decoded. rewrite present_results_params, Hsent. cbn [truthy_opt].
      rewrite Htruthy. now rewrite decode_param_of.
    - intros k' d Hp. rewrite present_results_params in Hp.
      destruct (sent k' newResults) as [v|]; [|discriminate Hp].
      cbn [truthy_opt] in Hp. destruct (truthy v) eqn:Hv; [|discriminate Hp].
      injection Hp as <-. exists v. now apply decode_param_of. }
  rewrite Hpage. repeat split.
Qed.

End RoundTrip.




(** A query whose [sneaker] is cut short and whose [box] is well formed. *)
Definition box_param : string := encodeURIComponent (JSON_stringify (verdict_of "REAL" 88)).
Definition cut_short : URLSearchParams :=
  [("sneaker", "%7Bverdict"); ("box", box_param); ("model", "Yeezy 350 Zebra")].

(** C7 at that query: the [box] parameter decodes and parses on its own,
    the malformed [sneaker] is not caught and not logged, the render throws
    the parser's error and [box] is not populated. *)
Lemma malformed_parameter_is_not_caught_witness :
  present cut_short FSneaker = Some "%7Bverdict"
  /\ Results.decode "%7Bverdict" = inl (SyntaxError "Unexpected token in JSON")
  /\ Results.decode box_param = inr (verdict_of "REAL" 88)
  /\ Results.ResultsPage cut_short = (inl (SyntaxError "Unexpected token in JSON"), [])
  /\ console (snd (Results.effect cut_short (fresh Results.initial))) = []
  /\ populated FBox (Results.ResultsPage cut_short) = None.
Proof.
  split; [reflexivity|]. split; [reflexivity|]. split; [reflexivity|].
  split; [reflexivity|].
  split.
  - exact (proj2 (proj1 (malformed_parameter_is_not_caught cut_short FSneaker "%7Bverdict"
                           (SyntaxError "Unexpected token in JSON") eq_refl eq_refl))).
  - exact (proj2 (proj2 (malformed_parameter_is_not_caught cut_short FSneaker "%7Bverdict"
                           (SyntaxError "Unexpected token in JSON") eq_refl eq_refl))
                 FBox).
Defined.

(** The results the upload page holds at the end of the scenario. *)
Definition scenario_results : Upload.Results :=
  Upload.mkResults (Some (verdict_of "AUTHENTIC" 91)) (Some (verdict_of "REAL" 92))
                   (Some (verdict_of "REAL" 88)) (Some (verdict_of "REAL" 95)).

(** C4 at the sneaker result of the scenario, with the integers as numbers. *)
Lemma results_survive_the_url_witness :
  populated FSneaker
    (Results.ResultsPage
       (useSearchParams (Upload.results_url scenario_results "Yeezy 350 Zebra")))
  = Some (verdict_of "REAL" 92)
  /\ get_prop_opt
       (populated FSneaker
          (Results.ResultsPage
             (useSearchParams (Upload.results_url scenario_results "Yeezy 350 Zebra"))))
       "realness_percent"
     = Some (VNum 92%Z).
Proof.
  destruct (results_survive_the_url ZNumbersLaws scenario_results "Yeezy 350 Zebra"
              FSneaker (verdict_of "REAL" 92) eq_refl eq_refl) as (H1 & _ & H3).
  split; [exact H1 | exact H3].
Defined.

(* ================================================================== *)
(** * Further properties of the routes *)

(** One path of a route handler, to its answer. *)
Ltac route_answers :=
  eexists; eexists; split; [reflexivity|];
  cbn [res_status requests console pushed state].

Section RouteProperties.
Context {NUM : Numbers}.

(** What [NextResponse.json] returns when it returns. *)
Lemma NextResponse_json_inr (body : value) (st : Z) (r : NextResponse) :
  NextResponse_json body st = inr r ->
  r = mkNextResponse st body /\ settable st = true.
Proof.
  unfold NextResponse_json, settable. intros H.
  destruct ((st <? 200)%Z || (599 <? st)%Z) eqn:Hrange; [discriminate H|].
  destruct ((st =? 204)%Z || (st =? 205)%Z || (st =? 304)%Z) eqn:Hnone; [discriminate H|].
  injection H as <-. split; [reflexivity|].
  apply orb_false_iff in Hrange as [Hlo Hhi].
  replace (200 <=? st)%Z with true by lia. replace (st <=? 599)%Z with true by lia.
  reflexivity.
Qed.

(** The statuses a proxy route answers with: 200, or a status from 300 to
    599 other than 304. *)
Definition proxy_status (st : Z) : Prop :=
  (st = 200 \/ (300 <= st <= 599 /\ st <> 304))%Z.

Lemma relayed_status (res : Response) :
  ok res = false -> settable (status res) = true -> proxy_status (status res).
Proof.
  unfold ok, settable, proxy_status. intros Hok Hset.
  apply andb_true_iff in Hset as [Hrange Hnone].
  apply andb_true_iff in Hrange as [Hlo Hhi].
  apply negb_true_iff in Hnone. apply orb_false_iff in Hnone as [Hnone H304].
  apply andb_false_iff in Hok. right. lia.
Qed.

(** The calls a handler added to those of [w]: none, or one [POST] of a form
    to [backend]. *)
Definition calls_at_most_once {St} (backend : string) (w w' : World St) : Prop :=
  requests w' = requests w
  \/ exists fd, requests w' = (requests w ++ [mkRequest backend "POST" (Some fd)])%list.

Lemma relay_answer (res : Response) :
  match relay res with
  | inr r => proxy_status (res_status r)
  | inl _ => True
  end.
Proof.
  unfold relay. destruct (ok res) eqn:Hok; cbn [negb].
  - destruct (Response_json res) as [e|data]; [exact I|].
    destruct (NextResponse_json data 200) as [e|r] eqn:Hr; [exact I|].
    apply NextResponse_json_inr in Hr as [-> _]. left. reflexivity.
  - destruct (NextResponse_json _ (status res)) as [e|r] eqn:Hr; [exact I|].
    apply NextResponse_json_inr in Hr as [-> Hset]. now apply relayed_status.
Qed.

(** X1.  The two proxy routes and the health route throw nothing.  Once the
    call to the backend has settled (with a response or with an exception; a
    call that stays pending is outside the model, and nothing is said of a
    handler that waits for one), whatever the request holds and whatever the
    world is, what the handler produces is a response, never an exception.
    A proxy answers with status 200 or with a status from 300 to 599 other
    than 304 (never with another 2xx status), and issues at most one call, a
    [POST] of a form to its backend endpoint.  The health route answers with
    a status a response can carry, issues exactly its one probe and logs
    nothing. *)
Theorem routes_never_throw (net : Network) (req : IncomingRequest) (w : World unit) :
  (exists r w', BoxRoute.POST net req w = (inr r, w')
     /\ proxy_status (res_status r)
     /\ calls_at_most_once BoxRoute.backend w w')
  /\
  (exists r w', CombinedRoute.POST net req w = (inr r, w')
     /\ proxy_status (res_status r)
     /\ calls_at_most_once CombinedRoute.backend w w')
  /\
  (exists r w', HealthRoute.GET net w = (inr r, w')
     /\ settable (res_status r) = true
     /\ requests w' = (requests w ++ [HealthRoute.probe])%list
     /\ console w' = console w).
Proof.
  assert (H400 : proxy_status 400) by (right; lia).
  assert (H502 : proxy_status 502) by (right; lia).
  split; [|split].
  - destruct req as [[e|fd]]; unfold BoxRoute.POST; run_handler.
    { route_answers. split; [exact H502 | left; reflexivity]. }
    destruct (entry_truthy (FormData_get "shoe_id" fd));
      [|route_answers; split; [exact H400 | left; reflexivity]].
    destruct (FormData_get "file" fd) as [[s|f]|]; cbn [entry_truthy].
    + destruct (negb (String.eqb s "")); route_answers;
        (split; [first [exact H400 | exact H502] | left; reflexivity]).
    + run_handler.
      destruct (net _) as [e|res];
        [route_answers; split; [exact H502 | right; eexists; reflexivity]|].
      pose proof (relay_answer res) as Hrelay. unfold relay in Hrelay.
      destruct (ok res); cbn [negb] in *.
      * destruct (Response_json res) as [e|data];
          [route_answers; split; [exact H502 | right; eexists; reflexivity]|].
        destruct (NextResponse_json data 200) as [e|r]; route_answers;
          (split; [first [exact Hrelay | exact H502] | right; eexists; reflexivity]).
      * destruct (NextResponse_json _ (status res)) as [e|r]; route_answers;
          (split; [first [exact Hrelay | exact H502] | right; eexists; reflexivity]).
    + route_answers. split; [exact H400 | left; reflexivity].
  - destruct req as [[e|fd]]; unfold CombinedRoute.POST; run_handler.
    { route_answers. split; [exact H502 | left; reflexivity]. }
    destruct (entry_truthy (FormData_get "shoe_id" fd));
      [|route_answers; split; [exact H400 | left; reflexivity]].
    destruct (FormData_get "sneaker_percent" fd);
      [|route_answers; split; [exact H400 | left; reflexivity]].
    destruct (FormData_get "box_percent" fd);
      [|route_answers; split; [exact H400 | left; reflexivity]].
    destruct (FormData_get "video_percent" fd);
      [|route_answers; split; [exact H400 | left; reflexivity]].
    run_handler.
    destruct (net _) as [e|res];
      [route_answers; split; [exact H502 | right; eexists; reflexivity]|].
    pose proof (relay_answer res) as Hrelay. unfold relay in Hrelay.
    destruct (ok res); cbn [negb] in *.
    + destruct (Response_json res) as [e|data];
        [route_answers; split; [exact H502 | right; eexists; reflexivity]|].
      destruct (NextResponse_json data 200) as [e|r]; route_answers;
        (split; [first [exact Hrelay | exact H502] | right; eexists; reflexivity]).
    + destruct (NextResponse_json _ (status res)) as [e|r]; route_answers;
        (split; [first [exact Hrelay | exact H502] | right; eexists; reflexivity]).
  - unfold HealthRoute.GET. run_handler.
    destruct (net HealthRoute.probe) as [e|res]; [route_answers; repeat split|].
    destruct (Response_json res) as [e|data]; [route_answers; repeat split|].
    destruct (NextResponse_json data (status res)) as [e|r] eqn:Hr;
      [route_answers; repeat split|].
    apply NextResponse_json_inr in Hr as [-> Hset]. route_answers.
    repeat split. exact Hset.
Qed.

(** X2.  When the backend answers a proxy with a success status, the route
    does not pass the answer through: it parses the body as JSON and answers
    with status 200 (also when the backend said 201 or 202) and the parsed
    value.  A body that is not JSON makes the route answer 502 with the
    parser's message, which it logs. *)
Theorem ok_answer_is_reparsed (net : Network) (res : Response) :
  ok res = true ->
  (forall data, Response_json res = inr data ->
     (forall fd sid f, box_form fd sid f -> net (box_request sid f) = inr res ->
        BoxRoute.POST net (mkIncoming (inr fd)) (fresh tt)
        = (inr (mkNextResponse 200 data), mkWorld tt [box_request sid f] [] []))
     /\
     (forall fd sid sp bp vp, combined_form fd sid sp bp vp ->
        net (combined_request sid sp bp vp) = inr res ->
        CombinedRoute.POST net (mkIncoming (inr fd)) (fresh tt)
        = (inr (mkNextResponse 200 data), mkWorld tt [combined_request sid sp bp vp] [] [])))
  /\
  (forall e, Response_json res = inl e ->
     (forall fd sid f, box_form fd sid f -> net (box_request sid f) = inr res ->
        BoxRoute.POST net (mkIncoming (inr fd)) (fresh tt)
        = (inr (mkNextResponse 502 (error_body (message e))),
           mkWorld tt [box_request sid f] [("API Error:", Error_toString e)] []))
     /\
     (forall fd sid sp bp vp, combined_form fd sid sp bp vp ->
        net (combined_request sid sp bp vp) = inr res ->
        CombinedRoute.POST net (mkIncoming (inr fd)) (fresh tt)
        = (inr (mkNextResponse 502 (error_body (message e))),
           mkWorld tt [combined_request sid sp bp vp]
                   [("API Error:", Error_toString e)] []))).
Proof.
  intros Hok. split.
  - intros data Hdata.
    assert (Hrelay : relay res = inr (mkNextResponse 200 data)).
    { unfold relay. rewrite Hok, Hdata. reflexivity. }
    split.
    + intros fd sid f Hform Hnet.
      now rewrite (BoxRoute_run net fd sid f Hform), Hnet, Hrelay.
    + intros fd sid sp bp vp Hform Hnet.
      now rewrite (CombinedRoute_run net fd sid sp bp vp Hform), Hnet, Hrelay.
  - intros e He.
    assert (Hrelay : relay res = inl e).
    { unfold relay. rewrite Hok, He. reflexivity. }
    split.
    + intros fd sid f Hform Hnet.
      now rewrite (BoxRoute_run net fd sid f Hform), Hnet, Hrelay.
    + intros fd sid sp bp vp Hform Hnet.
      now rewrite (CombinedRoute_run net fd sid sp bp vp Hform), Hnet, Hrelay.
Qed.

(** X3.  A request whose body cannot be read as a form ([req.formData()]
    rejects) is answered by both proxies with status 502 and the message of
    what was thrown, not with 400; the error is logged and the backend is
    not called. *)
Theorem unreadable_form_is_502 (net : Network) (e : Error) (w : World unit) :
  BoxRoute.POST net (mkIncoming (inl e)) w
  = (inr (mkNextResponse 502 (error_body (message e))),
     mkWorld (state w) (requests w)
             (console w ++ [("API Error:", Error_toString e)])%list (pushed w))
  /\
  CombinedRoute.POST net (mkIncoming (inl e)) w
  = (inr (mkNextResponse 502 (error_body (message e))),
     mkWorld (state w) (requests w)
             (console w ++ [("API Error:", Error_toString e)])%list (pushed w)).
Proof.
  destruct w as [st rq con psh].
  split; [unfold BoxRoute.POST | unfold CombinedRoute.POST]; run_handler; reflexivity.
Qed.

(** X4.  The category route tests its two fields for truthiness only.  A
    [shoe_id] or a [file] that is present but empty is answered with 400
    like a missing one.  A [file] sent as a text field that is not empty
    passes the test and fails at [file.arrayBuffer()]: the route answers 502
    with the message of that type error, and the backend is not called. *)
Theorem file_sent_as_text (net : Network) (fd : FormData) :
  (FormData_get "shoe_id" fd = Some (EString "")
   \/ FormData_get "file" fd = Some (EString "") ->
   BoxRoute.POST net (mkIncoming (inr fd)) (fresh tt)
   = (inr (mkNextResponse 400 (error_body "shoe_id and file are required")), fresh tt))
  /\
  (forall sid s, FormData_get "shoe_id" fd = Some sid -> entry_truthy (Some sid) = true ->
     FormData_get "file" fd = Some (EString s) -> s <> "" ->
     BoxRoute.POST net (mkIncoming (inr fd)) (fresh tt)
     = (inr (mkNextResponse 502 (error_body "file.arrayBuffer is not a function")),
        mkWorld tt [] [("API Error:", "TypeError: file.arrayBuffer is not a function")] [])).
Proof.
  split.
  - intros [H|H]; unfold BoxRoute.POST; run_handler; rewrite H; cbn [entry_truthy String.eqb].
    + reflexivity.
    + destruct (entry_truthy (FormData_get "shoe_id" fd)); reflexivity.
  - intros sid s Hs Ht Hf Hne.
    unfold BoxRoute.POST. run_handler. rewrite Hs, Hf, Ht. cbn [entry_truthy].
    destruct (String.eqb_spec s ""); [contradiction|]. reflexivity.
Qed.

(** The identifier a model is sent under is never the empty string: the
    ones of the table are not, and neither is ["undefined"]. *)
Lemma shoe_nonempty (st : Upload.State) : String.eqb (shoe st) "" = false.
Proof.
  unfold shoe, Upload.shoe_id_of, Upload.SHOE_ID_MAP. cbn [params_get].
  repeat match goal with
         | |- context [String.eqb ?a ?b] =>
             lazymatch b with
             | "" => fail
             | _ => destruct (String.eqb a b)
             end
         end; reflexivity.
Qed.

(** X5.  A route that is handed the entries the upload page appended to its
    form lets them through.  (The multipart encoding that carries a form
    from the browser to the route is not modelled: the statement is about
    the list of entries, given to the route as the page built it.)  The
    entries of a category call (the model's identifier and the file) pass
    the check of the category route whatever model is selected, and the
    route issues one call, whose form holds the identifier and the file
    entry the route builds from what it read.  The entries of the
    aggregation call pass the check of the aggregation route whatever the
    three percentage texts are (the empty text and ["undefined"] included),
    and the route issues one call, whose form holds the same four fields. *)
Theorem page_forms_pass_the_proxies (net : Network) (st : Upload.State) (f : File)
  (sp bp vp : string) :
  let shoeId := Upload.shoe_id_of (Upload.modelDropdown st) in
  requests (snd (BoxRoute.POST net (mkIncoming (inr (Upload.category_form shoeId f)))
                   (fresh tt)))
  = [mkRequest BoxRoute.backend "POST" (Some (Upload.category_form shoeId f))]
  /\
  requests (snd (CombinedRoute.POST net
                   (mkIncoming (inr (Upload.combined_form shoeId sp bp vp))) (fresh tt)))
  = [mkRequest CombinedRoute.backend "POST" (Some (Upload.combined_form shoeId sp bp vp))].
Proof.
  intros shoeId. pose proof (shoe_nonempty st) as Hshoe.
  unfold shoe in Hshoe. fold shoeId in Hshoe.
  split.
  - rewrite (BoxRoute_run net (Upload.category_form shoeId f)
               (EString (match shoeId with Some id => id | None => "undefined" end)) f).
    + unfold box_request. cbn [entry_toString].
      change (Upload.category_form shoeId f)
        with [("shoe_id", EString (match shoeId with Some id => id | None => "undefined" end));
              ("file", EFile f)].
      destruct (net _) as [e|res]; [reflexivity|]. destruct (relay res); reflexivity.
    + repeat split. cbn [entry_truthy]. now rewrite Hshoe.
  - rewrite (CombinedRoute_run net (Upload.combined_form shoeId sp bp vp)
               (EString (match shoeId with Some id => id | None => "undefined" end))
               (EString sp) (EString bp) (EString vp)).
    + unfold combined_request. cbn [entry_toString].
      change (Upload.combined_form shoeId sp bp vp)
        with [("shoe_id", EString (match shoeId with Some id => id | None => "undefined" end));
              ("sneaker_percent", EString sp);
              ("box_percent", EString bp);
              ("video_percent", EString vp)].
      destruct (net _) as [e|res]; [reflexivity|]. destruct (relay res); reflexivity.
    + repeat split. cbn [entry_truthy]. now rewrite Hshoe.
Qed.

End RouteProperties.

(** A backend answer 201 with the JSON text of a result. *)
Definition created : Response := mkResponse 201 (JSON_stringify (verdict_of "REAL" 88)).

(** X2 at a backend that answers the category route with 201. *)
Lemma ok_answer_is_reparsed_witness :
  ok created = true
  /\ BoxRoute.POST (fun _ => inr created) (mkIncoming (inr box_fields)) (fresh tt)
     = (inr (mkNextResponse 200 (verdict_of "REAL" 88)),
        mkWorld tt [box_request (EString "yeezy_350_zebra") photo] [] []).
Proof.
  split; [reflexivity|].
  exact (proj1 (proj1 (ok_answer_is_reparsed (fun _ => inr created) created eq_refl)
                      (verdict_of "REAL" 88) eq_refl)
               box_fields _ _ box_fields_form eq_refl).
Defined.

(** A form whose [file] is the name of a file, sent as text. *)
Definition text_fields : FormData :=
  [("shoe_id", EString "yeezy_350_zebra"); ("file", EString "box.png")].

(** X4 at that form. *)
Lemma file_sent_as_text_witness :
  FormData_get "file" text_fields = Some (EString "box.png")
  /\ BoxRoute.POST unreachable (mkIncoming (inr text_fields)) (fresh tt)
     = (inr (mkNextResponse 502 (error_body "file.arrayBuffer is not a function")),
        mkWorld tt [] [("API Error:", "TypeError: file.arrayBuffer is not a function")] []).
Proof.
  split; [reflexivity|].
  apply (proj2 (file_sent_as_text unreachable text_fields)
               (EString "yeezy_350_zebra") "box.png"); try reflexivity.
  discriminate.
Defined.

(* ================================================================== *)
(** * Further properties of the upload page *)

Section UploadFacts.
Context {NUM : Numbers}.

(** The line of a category in the error text, [`${key}: ${err}\n`]; no
    line when [err] cannot be converted (see [Upload.add_error_line]). *)
Definition line_of (key : Upload.UploadKey) (err : option value) : string :=
  match String_ err with
  | inr text => Upload.key_name key ++ ": " ++ text ++ Upload.newline
  | inl _ => ""
  end.

(** The text the loop over [allResults] adds to the error state: one line
    for each result with a truthy [error], up to a result that is [null]. *)
Fixpoint error_text (allResults : list (Upload.UploadKey * value)) : string :=
  match allResults with
  | [] => ""
  | (key, data) :: rest =>
      match get_prop data "error" with
      | inl _ => ""
      | inr err =>
          if truthy_opt err
          then line_of key err ++ error_text rest
          else error_text rest
      end
  end.

(** What the loop logs with [console.error]. *)
Fixpoint error_log (allResults : list (Upload.UploadKey * value)) : list (string * string) :=
  match allResults with
  | [] => []
  | (key, data) :: rest =>
      match get_prop data "error" with
      | inl _ => []
      | inr err =>
          if truthy_opt err
          then (Upload.key_name key ++ " error:", Upload.logged err) :: error_log rest
          else error_log rest
      end
  end.



Lemma setError_app (a b : string) (st : Upload.State) :
  Upload.setError (fun prev => prev ++ b) (Upload.setError (fun prev => prev ++ a) st)
  = Upload.setError (fun prev => prev ++ (a ++ b)) st.
Proof. unfold Upload.setError. cbn. now rewrite app_assoc_s. Qed.

Lemma setError_nil (st : Upload.State) : Upload.setError (fun prev => prev ++ "") st = st.
Proof. destruct st. unfold Upload.setError. cbn. now rewrite app_nil_r_s. Qed.

(** The loop, run: it writes the error text and the console, and nothing
    else. *)
Lemma collect_effects allResults newResults (w : World Upload.State) :
  Upload.collect allResults newResults w
  = (kept allResults newResults,
     mkWorld (Upload.setError (fun prev => prev ++ error_text allResults) (state w))
             (requests w) (console w ++ error_log allResults)%list (pushed w)).
Proof.
  revert newResults w.
  induction allResults as [|[key data] rest IH]; intros newResults w.
  - cbn [Upload.collect kept error_text error_log]. unfold ret.
    rewrite setError_nil, List.app_nil_r. destruct w; reflexivity.
  - cbn [Upload.collect kept error_text error_log]. unfold bind, lift.
    destruct (get_prop data "error") as [e|err].
    + rewrite setError_nil, List.app_nil_r. destruct w; reflexivity.
    + destruct (truthy_opt err).
      * unfold Upload.add_error_line, line_of, console_error.
        destruct (String_ err) as [x|text]; unfold modify, ret;
          cbn [state requests console pushed]; rewrite IH;
          cbn [state requests console pushed];
          rewrite ?setError_app, <- List.app_assoc; reflexivity.
      * apply IH.
Qed.

(** The message of a submission that threw. *)
Definition failed_text : string := "Analysis failed. Check browser console for details.".

(** The three category calls of a submission. *)
Definition category_calls (st : Upload.State) (f1 f2 f3 : File) : list Request :=
  let shoeId := Upload.shoe_id_of (Upload.modelDropdown st) in
  [Upload.category_request Upload.Sneaker shoeId f1;
   Upload.category_request Upload.Box shoeId f2;
   Upload.category_request Upload.Video shoeId f3].

(** The line a category adds to the error text: [<key>: <error>] and a line
    feed when its result has a truthy [error], nothing otherwise. *)
Definition error_line (key : Upload.UploadKey) (o : Error + value) : string :=
  match o with
  | inr data =>
      match get_prop data "error" with
      | inr err =>
          if truthy_opt err then line_of key err else ""
      | inl _ => ""
      end
  | inl _ => ""
  end.

(** What [console.error] is given for a category: the key and the [error]
    of an answer that has a truthy one. *)
Definition error_entry (key : Upload.UploadKey) (o : Error + value)
  : list (string * string) :=
  match o with
  | inr data =>
      match get_prop data "error" with
      | inr err =>
          if truthy_opt err
          then [(Upload.key_name key ++ " error:", Upload.logged err)]
          else []
      | inl _ => []
      end
  | inl _ => []
  end.

(** A call that was answered with a JSON value other than [null]. *)
Definition has_answer (o : Error + value) : bool :=
  match o with
  | inr data =>
      match get_prop data "error" with
      | inr _ => true
      | inl _ => false
      end
  | inl _ => false
  end.

(** The result of a category the page keeps: the answer, unless it has a
    truthy [error]. *)
Definition keeps (o : Error + value) : option value :=
  match o with
  | inr data => if reports_error o then None else Some data
  | inl _ => None
  end.

(** The [error] of an answer can be written in the error text: the
    template [`${key}: ${data.error}\n`] can be evaluated.  It cannot when
    [data.error] is an object with an own [toString] property, or an array
    that holds one. *)
Definition writable (o : Error + value) : bool :=
  match o with
  | inr data =>
      match get_prop data "error" with
      | inr err => converts err
      | inl _ => true
      end
  | inl _ => true
  end.


End UploadFacts.

(** One step of a callback of the upload page; lists that are appended to
    stay as they are written. *)
Ltac run_page :=
  repeat progress
    (cbv beta iota zeta delta
       [try_catch try_finally bind ret lift throw fetch fetch_promise console_error
        router_push modify fresh state requests console pushed fst snd
        Upload.handleRemove Upload.handleSelect Upload.handleFile Upload.chooseModel
        Upload.submitUpload Upload.analyze Upload.Promise_all Upload.canProceed
        Upload.analyze_disabled
        Upload.setUploads Upload.setSubmitting Upload.setResults Upload.setError
        Upload.setModelDropdown
        Upload.set_upload Upload.set_result Upload.set_combined Upload.no_results
        Upload.upload_at Upload.result_at Upload.prop_of
        Upload.modelDropdown Upload.uploads Upload.submitting Upload.results Upload.error
        Upload.sneaker_file Upload.box_file Upload.video_file
        Upload.combined Upload.sneaker Upload.box Upload.video];
     cbn [andb orb negb app]).

Ltac upload_skip :=
  run_page; cbn [truthy_opt]; rewrite ?andb_false_r; run_page.

(** The paths of a submission with its three files, one after the other:
    [leaf] closes a path that has reached its end. *)
Ltac upload_paths net f1 f2 f3 leaf :=
  run_page;
  destruct (net (Upload.category_request Upload.Sneaker _ f1)) as [e1|res1]; [leaf|];
  destruct (Response_json res1) as [e1|d1]; [leaf|];
  destruct (net (Upload.category_request Upload.Box _ f2)) as [e2|res2]; [leaf|];
  destruct (Response_json res2) as [e2|d2]; [leaf|];
  destruct (net (Upload.category_request Upload.Video _ f3)) as [e3|res3]; [leaf|];
  destruct (Response_json res3) as [e3|d3]; [leaf|];
  run_page; rewrite collect_effects; cbn [kept error_text error_log];
  destruct (get_prop d1 "error") as [x1|err1] eqn:G1; [leaf|];
  destruct (get_prop d2 "error") as [x2|err2] eqn:G2;
    [destruct (truthy_opt err1) eqn:T1; leaf|];
  destruct (get_prop d3 "error") as [x3|err3] eqn:G3;
    [destruct (truthy_opt err1) eqn:T1, (truthy_opt err2) eqn:T2; leaf|];
  destruct (truthy_opt err1) eqn:T1;
    [destruct (truthy_opt err2) eqn:T2, (truthy_opt err3) eqn:T3; upload_skip; leaf|];
  destruct (truthy_opt err2) eqn:T2;
    [destruct (truthy_opt err3) eqn:T3; upload_skip; leaf|];
  destruct (truthy_opt err3) eqn:T3; upload_skip; [leaf|];
  destruct (truthy d1) eqn:V1; run_page; [|leaf];
  destruct (truthy d2) eqn:V2; run_page; [|leaf];
  destruct (truthy d3) eqn:V3; run_page; [|leaf];
  rewrite (get_prop_truthy d1 _ V1), (get_prop_truthy d2 _ V2), (get_prop_truthy d3 _ V3);
  run_page;
  destruct (String_ (get_prop_opt (Some d1) "realness_percent")) as [y1|p1] eqn:S1;
    run_page; [leaf|];
  destruct (String_ (get_prop_opt (Some d2) "realness_percent")) as [y2|p2] eqn:S2;
    run_page; [leaf|];
  destruct (String_ (get_prop_opt (Some d3) "realness_percent")) as [y3|p3] eqn:S3;
    run_page; [leaf|];
  destruct (net (Upload.combined_request _ _ _ _)) as [ec|combinedRes] eqn:NC; [leaf|];
  destruct (Response_json combinedRes) as [ec|combinedData] eqn:JC; [leaf|];
  destruct (get_prop combinedData "error") as [ec|cerr] eqn:GC; [leaf|];
  destruct (truthy_opt cerr) eqn:TC; run_page; leaf.

Section UploadProperties.
Context {NUM : Numbers}.

(** X6.  Choosing a file for a slot puts the file in that slot and changes
    nothing else: the other slots, the analysis results (a result of an
    earlier file of the same slot included), the error text, the model and
    the flag of a running submission stay as they were, and nothing is
    called, logged or navigated to.  A picker closed without a file changes
    nothing at all. *)
Theorem handleSelect_fills_slot (key : Upload.UploadKey) (file : File)
  (w : World Upload.State) :
  let w' := snd (Upload.handleFile key (Some file) w) in
  Upload.upload_at key (Upload.uploads (state w')) = Some file
  /\ (forall k, k <> key ->
        Upload.upload_at k (Upload.uploads (state w'))
        = Upload.upload_at k (Upload.uploads (state w)))
  /\ Upload.results (state w') = Upload.results (state w)
  /\ Upload.error (state w') = Upload.error (state w)
  /\ Upload.submitting (state w') = Upload.submitting (state w)
  /\ Upload.modelDropdown (state w') = Upload.modelDropdown (state w)
  /\ (requests w', console w', pushed w') = (requests w, console w, pushed w)
  /\ Upload.handleFile key None w = (inr tt, w).
Proof.
  destruct w as [[model ups sub res err] rq con psh].
  destruct key; run_page;
    (split; [reflexivity|]); (split; [intros k Hk; destruct k; congruence|]);
    repeat split.
Qed.

(** X7.  How choosing and removing compose.  Removing the file of a slot
    after choosing one leaves the page as removing alone does; a second
    choice for a slot replaces the first; removing twice is removing once;
    choices for two different slots commute.  After a removal the page
    cannot proceed, and after a choice it can exactly when the two other
    slots already hold a file. *)
Theorem select_and_remove_compose (key other : Upload.UploadKey) (f g : File)
  (w : World Upload.State) :
  let after (m : M Upload.State unit) := snd (m w) in
  after (Upload.handleSelect key f ;;; Upload.handleRemove key)%monad
  = after (Upload.handleRemove key)
  /\ after (Upload.handleSelect key f ;;; Upload.handleSelect key g)%monad
     = after (Upload.handleSelect key g)
  /\ after (Upload.handleRemove key ;;; Upload.handleRemove key)%monad
     = after (Upload.handleRemove key)
  /\ (key <> other ->
      after (Upload.handleSelect key f ;;; Upload.handleSelect other g)%monad
      = after (Upload.handleSelect other g ;;; Upload.handleSelect key f)%monad)
  /\ Upload.canProceed (state (after (Upload.handleRemove key))) = false
  /\ (Upload.canProceed (state (after (Upload.handleSelect key f))) = true
      <-> forall k, k <> key -> Upload.upload_at k (Upload.uploads (state w)) <> None).
Proof.
  intros after. subst after.
  destruct w as [[model [u1 u2 u3] sub res err] rq con psh].
  split; [destruct key; reflexivity|].
  split; [destruct key; reflexivity|].
  split; [destruct key; reflexivity|].
  split; [intros Hne; destruct key, other; try reflexivity; contradiction|].
  split; [destruct key; run_page; try reflexivity; destruct u1, u2, u3; reflexivity|].
  destruct key; run_page; split.
  all: try (intros H k Hk; destruct k; try contradiction; cbn;
            destruct u1, u2, u3; try discriminate H; discriminate).
  all: intros H.
  - pose proof (H Upload.Box ltac:(discriminate)) as H2.
    pose proof (H Upload.Video ltac:(discriminate)) as H3. cbn in H2, H3.
    destruct u2, u3; try reflexivity; contradiction.
  - pose proof (H Upload.Sneaker ltac:(discriminate)) as H1.
    pose proof (H Upload.Video ltac:(discriminate)) as H3. cbn in H1, H3.
    destruct u1, u3; try reflexivity; contradiction.
  - pose proof (H Upload.Sneaker ltac:(discriminate)) as H1.
    pose proof (H Upload.Box ltac:(discriminate)) as H2. cbn in H1, H2.
    destruct u1, u2; try reflexivity; contradiction.
Qed.

(** A submission that passes the guard, in outline: it returns, it leaves
    [submitting] false and the files and the model as they were, and its
    calls are the three category calls, then at most the aggregation call. *)
Lemma submitUpload_shape (net : Network) (st : Upload.State) (f1 f2 f3 : File)
  (w : World Upload.State) :
  Upload.uploads st = Upload.mkUploads (Some f1) (Some f2) (Some f3) ->
  Upload.submitting st = false ->
  exists w' rest,
    Upload.submitUpload net st w = (inr tt, w')
    /\ Upload.submitting (state w') = false
    /\ Upload.uploads (state w') = Upload.uploads (state w)
    /\ Upload.modelDropdown (state w') = Upload.modelDropdown (state w)
    /\ requests w' = (requests w ++ category_calls st f1 f2 f3 ++ rest)%list
    /\ (rest = []
        \/ exists sp bp vp,
             rest = [Upload.combined_request (Upload.shoe_id_of (Upload.modelDropdown st))
                       sp bp vp]).
Proof.
  intros Hup Hsub.
  destruct st as [model ups sub res err]. cbn in Hup, Hsub. subst ups sub.
  destruct w as [[wmodel wups wsub wres werr] rq con psh].
  unfold category_calls.
  upload_paths net f1 f2 f3
    ltac:(solve
      [ eexists; eexists; split; [reflexivity|];
        cbn [state requests Upload.submitting Upload.uploads Upload.modelDropdown];
        repeat (split; [reflexivity|]);
        first
          [ instantiate (1 := []); split;
            [rewrite <- !List.app_assoc; reflexivity | left; reflexivity]
          | instantiate (1 := [_]); split;
            [rewrite <- !List.app_assoc; reflexivity
            | right; eexists; eexists; eexists; reflexivity] ] ]).
Qed.

(** X8.  A submission throws nothing.  Once each call it awaits has settled
    (with a response or with an exception; a call that stays pending is
    outside the model: the submission then waits, with [submitting] true,
    and nothing is said of it), [submitUpload] ends without an exception,
    whatever the answers are, and its setters never touch the files or the
    model.  While the Analyze button is disabled (a slot is empty or a
    submission is running) it does nothing at all: no state is written and
    nothing is called, logged or navigated to.  Otherwise the last thing it
    does is to set [submitting] to false. *)
Theorem submission_never_throws (net : Network) (st : Upload.State)
  (w : World Upload.State) :
  let r := Upload.submitUpload net st w in
  fst r = inr tt
  /\ Upload.uploads (state (snd r)) = Upload.uploads (state w)
  /\ Upload.modelDropdown (state (snd r)) = Upload.modelDropdown (state w)
  /\ (Upload.analyze_disabled st = true -> snd r = w)
  /\ (Upload.analyze_disabled st = false -> Upload.submitting (state (snd r)) = false).
Proof.
  intros r. subst r.
  destruct (Upload.analyze_disabled st) eqn:Hguard.
  - unfold Upload.analyze_disabled in Hguard. unfold Upload.submitUpload.
    rewrite Hguard. cbn [ret fst snd].
    split; [reflexivity|]. split; [reflexivity|]. split; [reflexivity|].
    split; [intros _; reflexivity | intros H; discriminate H].
  - unfold Upload.analyze_disabled in Hguard. apply orb_false_iff in Hguard as [Hcan Hsub].
    apply negb_false_iff in Hcan. unfold Upload.canProceed in Hcan.
    destruct st as [model [[f1|] [f2|] [f3|]] sub res err]; cbn in Hcan, Hsub;
      try discriminate Hcan.
    subst sub.
    destruct (submitUpload_shape net
                (Upload.mkState model (Upload.mkUploads (Some f1) (Some f2) (Some f3))
                   false res err) f1 f2 f3 w eq_refl eq_refl)
      as (w' & rest & -> & Hs & Hu & Hm & _).
    cbn [fst snd]. split; [reflexivity|]. split; [exact Hu|]. split; [exact Hm|].
    split; [intros H; discriminate H | intros _; exact Hs].
Qed.

(** X9.  A submission with its three files issues the three category calls
    first, in the order sneaker, box, video, each with the identifier of the
    model and the file of its slot, whatever the answers are: a call that
    fails does not keep the later ones from being sent.  At most one more
    call follows them, the aggregation call. *)
Theorem category_calls_come_first (net : Network) (st : Upload.State) (f1 f2 f3 : File)
  (w : World Upload.State) :
  Upload.uploads st = Upload.mkUploads (Some f1) (Some f2) (Some f3) ->
  Upload.submitting st = false ->
  exists rest,
    requests (snd (Upload.submitUpload net st w))
    = (requests w ++ category_calls st f1 f2 f3 ++ rest)%list
    /\ (rest = []
        \/ exists sp bp vp,
             rest = [Upload.combined_request (Upload.shoe_id_of (Upload.modelDropdown st))
                       sp bp vp]).
Proof.
  intros Hup Hsub.
  destruct (submitUpload_shape net st f1 f2 f3 w Hup Hsub)
    as (w' & rest & -> & _ & _ & _ & Hreq & Hrest).
  exists rest. split; assumption.
Qed.

(** X10.  A submission with its three files, in which the [error] of each
    answer can be written as text (none is an object with an own [toString]
    property, or an array that holds one: the updater of the error text
    would throw at the next render, and nothing is said of the page then),
    ends in one of two ways, never in both and never in neither.  Either
    something threw: the browser is sent nowhere, the error text is the
    message of a failed analysis (the lines of the categories are
    overwritten by it) and the error is logged last.  Or the browser is
    sent, once, to the results URL built from the results the page then
    holds and from the model, and the error text is made of the lines of the
    categories that answered with a truthy [error], in the order sneaker,
    box, video. *)
Theorem submission_navigates_or_fails (net : Network) (st : Upload.State) (f1 f2 f3 : File)
  (w : World Upload.State) :
  Upload.uploads st = Upload.mkUploads (Some f1) (Some f2) (Some f3) ->
  Upload.submitting st = false ->
  let s := category_data net Upload.Sneaker st f1 in
  let b := category_data net Upload.Box st f2 in
  let v := category_data net Upload.Video st f3 in
  writable s && writable b && writable v = true ->
  let w' := snd (Upload.submitUpload net st w) in
  (pushed w' = pushed w
   /\ Upload.error (state w') = failed_text
   /\ exists e logged,
        console w' = (console w ++ logged ++ [("Analysis error:", Error_toString e)])%list)
  \/
  (pushed w'
   = (pushed w ++ [Upload.results_url (Upload.results (state w'))
                     (Upload.modelDropdown st)])%list
   /\ Upload.error (state w')
      = error_line Upload.Sneaker s ++ error_line Upload.Box b ++ error_line Upload.Video v).
Proof.
  intros Hup Hsub s b v _ w'.
  destruct st as [model ups sub res err]. cbn in Hup, Hsub. subst ups sub.
  destruct w as [[wmodel wups wsub wres werr] rq con psh].
  subst w' s b v. unfold category_data.
  upload_paths net f1 f2 f3
    ltac:(first
      [ solve [left; split; [reflexivity|]; split; [reflexivity|];
               first [ eexists; exists []; reflexivity
                     | eexists; eexists; symmetry; apply List.app_assoc ]]
      | solve [right; split; [reflexivity|];
               cbn [error_line]; rewrite ?G1, ?G2, ?G3, ?T1, ?T2, ?T3;
               rewrite ?app_nil_r_s; reflexivity ] ]).
Qed.

(** X11.  When a category call is rejected or its body is not JSON, the
    submission fails as a whole, also when the two other categories were
    analysed: the three calls have been issued and no other, the page holds
    no result, the error text is the message of a failed analysis, the
    browser is sent nowhere, and what is logged is the error of one of the
    failed calls. *)
Theorem rejected_call_fails_the_submission (net : Network) (st : Upload.State)
  (f1 f2 f3 : File) (w : World Upload.State) :
  Upload.uploads st = Upload.mkUploads (Some f1) (Some f2) (Some f3) ->
  Upload.submitting st = false ->
  let s := category_data net Upload.Sneaker st f1 in
  let b := category_data net Upload.Box st f2 in
  let v := category_data net Upload.Video st f3 in
  (exists e, s = inl e) \/ (exists e, b = inl e) \/ (exists e, v = inl e) ->
  let w' := snd (Upload.submitUpload net st w) in
  state w' = Upload.mkState (Upload.modelDropdown (state w)) (Upload.uploads (state w))
               false Upload.no_results failed_text
  /\ requests w' = (requests w ++ category_calls st f1 f2 f3)%list
  /\ pushed w' = pushed w
  /\ exists e, (s = inl e \/ b = inl e \/ v = inl e)
               /\ console w' = (console w ++ [("Analysis error:", Error_toString e)])%list.
Proof.
  intros Hup Hsub s b v Hfail w'.
  destruct st as [model ups sub res err]. cbn in Hup, Hsub. subst ups sub.
  destruct w as [[wmodel wups wsub wres werr] rq con psh].
  subst w'. revert Hfail. subst s b v. unfold category_data, category_calls.
  run_page.
  destruct (net (Upload.category_request Upload.Sneaker _ f1)) as [e1|res1];
    [|destruct (Response_json res1) as [e1|d1]].
  1, 2: intros _; split; [reflexivity|]; split; [rewrite <- !List.app_assoc; reflexivity|];
    split; [reflexivity|]; exists e1; split; [left; reflexivity | reflexivity].
  destruct (net (Upload.category_request Upload.Box _ f2)) as [e2|res2];
    [|destruct (Response_json res2) as [e2|d2]].
  1, 2: intros _; split; [reflexivity|]; split; [rewrite <- !List.app_assoc; reflexivity|];
    split; [reflexivity|]; exists e2; split; [right; left; reflexivity | reflexivity].
  destruct (net (Upload.category_request Upload.Video _ f3)) as [e3|res3];
    [|destruct (Response_json res3) as [e3|d3]].
  1, 2: intros _; split; [reflexivity|]; split; [rewrite <- !List.app_assoc; reflexivity|];
    split; [reflexivity|]; exists e3; split; [right; right; reflexivity | reflexivity].
  intros [[e H]|[[e H]|[e H]]]; discriminate H.
Qed.

(** X12.  When the three category calls are answered with JSON values other
    than [null], at least one of them has a truthy [error], and each such
    [error] can be written as text (none is an object with an own
    [toString] property, or an array that holds one: the updater of the
    error text would throw at the next render), the submission does not
    fail: no aggregation call is made, the page keeps the results of the
    categories without a truthy [error], the error text is one line
    [<key>: <error>] for each category with one, each of them is logged, and
    the browser is sent to the results URL of the results kept. *)
Theorem partial_failure_still_navigates (net : Network) (st : Upload.State)
  (f1 f2 f3 : File) (w : World Upload.State) :
  Upload.uploads st = Upload.mkUploads (Some f1) (Some f2) (Some f3) ->
  Upload.submitting st = false ->
  let s := category_data net Upload.Sneaker st f1 in
  let b := category_data net Upload.Box st f2 in
  let v := category_data net Upload.Video st f3 in
  has_answer s && has_answer b && has_answer v = true ->
  reports_error s || reports_error b || reports_error v = true ->
  writable s && writable b && writable v = true ->
  let newResults := Upload.mkResults None (keeps s) (keeps b) (keeps v) in
  Upload.submitUpload net st w
  = (inr tt,
     mkWorld
       (Upload.mkState (Upload.modelDropdown (state w)) (Upload.uploads (state w)) false
          newResults
          (error_line Upload.Sneaker s ++ error_line Upload.Box b
             ++ error_line Upload.Video v))
       (requests w ++ category_calls st f1 f2 f3)%list
       (console w ++ error_entry Upload.Sneaker s ++ error_entry Upload.Box b
          ++ error_entry Upload.Video v)%list
       (pushed w ++ [Upload.results_url newResults (Upload.modelDropdown st)])%list).
Proof.
  intros Hup Hsub s b v Hans Herr _ newResults.
  destruct st as [model ups sub res err]. cbn in Hup, Hsub. subst ups sub.
  destruct w as [[wmodel wups wsub wres werr] rq con psh].
  subst newResults. revert Hans Herr. subst s b v. unfold category_data, category_calls.
  upload_paths net f1 f2 f3
    ltac:(first
      [ solve [cbn [has_answer reports_error keeps error_line error_entry];
               rewrite ?G1, ?G2, ?G3, ?T1, ?T2, ?T3; cbn [andb orb];
               rewrite ?andb_false_r;
               intros Hans Herr; first [discriminate Hans | discriminate Herr]]
      | solve [cbn [has_answer reports_error keeps error_line error_entry];
               rewrite ?G1, ?G2, ?G3, ?T1, ?T2, ?T3; cbn [andb orb app];
               intros _ _; rewrite <- !List.app_assoc, ?app_nil_r_s; cbn [app]; reflexivity] ]).
Qed.


(** ** The page under its events *)

(** What the user can do on the page. *)
Inductive Event :=
| Choose (o : Upload.ModelOption)
| Pick (key : Upload.UploadKey) (f : option File)
| Remove (key : Upload.UploadKey)
| Analyze.

(** The callback of an event, called from a render whose state is [st]. *)
Definition callback (net : Network) (ev : Event) (st : Upload.State) : M Upload.State unit :=
  match ev with
  | Choose o => Upload.chooseModel o
  | Pick key f => Upload.handleFile key f
  | Remove key => Upload.handleRemove key
  | Analyze => Upload.submitUpload net st
  end.

(** The events one after the other: each callback runs to its end on the
    state the one before it left. *)
Fixpoint play (net : Network) (evs : list Event) (w : World Upload.State)
  : World Upload.State :=
  match evs with
  | [] => w
  | ev :: rest => play net rest (snd (callback net ev (state w) w))
  end.

(** A call that names a shoe of the table in its [shoe_id] field. *)
Definition names_a_shoe (rq : Request) : Prop :=
  exists fd id, body rq = Some fd
                /\ FormData_get "shoe_id" fd = Some (EString id)
                /\ In id (map snd Upload.SHOE_ID_MAP).

Lemma option_has_a_shoe (o : Upload.ModelOption) :
  exists id, Upload.shoe_id_of (Upload.option_text o) = Some id
             /\ In id (map snd Upload.SHOE_ID_MAP).
Proof. destruct o; eexists; (split; [reflexivity|]); cbn; tauto. Qed.

(** What every event keeps. *)
Definition idle (w : World Upload.State) : Prop :=
  Upload.submitting (state w) = false
  /\ (exists o, Upload.modelDropdown (state w) = Upload.option_text o)
  /\ Forall names_a_shoe (requests w).

Lemma callback_keeps_idle (net : Network) (ev : Event) (w : World Upload.State) :
  idle w -> idle (snd (callback net ev (state w) w)).
Proof.
  intros (Hsub & [o Ho] & Hreq).
  destruct ev as [o'|key [f|]|key|]; cbn [callback].
  - destruct w as [[model ups sub res err] rq con psh]. run_page.
    split; [exact Hsub|]. split; [now exists o' | exact Hreq].
  - destruct w as [[model ups sub res err] rq con psh]. destruct key; run_page;
      (split; [exact Hsub|]); (split; [now exists o | exact Hreq]).
  - destruct w as [[model ups sub res err] rq con psh]. run_page.
    split; [exact Hsub|]. split; [now exists o | exact Hreq].
  - destruct w as [[model ups sub res err] rq con psh]. destruct key; run_page;
      (split; [exact Hsub|]); (split; [now exists o | exact Hreq]).
  - destruct (Upload.canProceed (state w)) eqn:Hcan.
    + unfold Upload.canProceed in Hcan.
      destruct (Upload.uploads (state w)) as [[f1|] [f2|] [f3|]] eqn:Hup;
        cbn in Hcan; try discriminate Hcan.
      destruct (submitUpload_shape net (state w) f1 f2 f3 w Hup Hsub)
        as (w' & rest & -> & Hs & _ & Hm & Hrq & Hrest).
      cbn [snd]. split; [exact Hs|]. split; [exists o; now rewrite Hm|].
      rewrite Hrq. destruct (option_has_a_shoe o) as (id & Hid & Hin).
      apply Forall_app. split; [exact Hreq|].
      apply Forall_app. split.
      * unfold category_calls. rewrite Ho, Hid.
        repeat (constructor;
                [eexists; exists id; split; [reflexivity|]; split; [reflexivity | exact Hin]|]).
        constructor.
      * destruct Hrest as [->|(sp & bp & vp & ->)]; [constructor|].
        rewrite Ho, Hid. constructor; [|constructor].
        eexists; exists id. split; [reflexivity|]. split; [reflexivity | exact Hin].
    + unfold Upload.submitUpload. rewrite Hcan. cbn [negb orb ret snd].
      split; [exact Hsub|]. split; [now exists o | exact Hreq].
Qed.

Lemma play_keeps_idle (net : Network) (evs : list Event) (w : World Upload.State) :
  idle w -> idle (play net evs w).
Proof.
  revert w. induction evs as [|ev rest IH]; intros w Hw; [exact Hw|].
  cbn [play]. apply IH. now apply callback_keeps_idle.
Qed.

(** X14.  An invariant of the page.  From the initial state, after any
    sequence of events (a model chosen from the list, a file picked or the
    picker closed, a file removed, Analyze clicked), each callback having
    run to its end: no submission is left running, the model is one of the
    options of the list and has an identifier in the table, and every call
    the page has issued names a shoe of the table in its [shoe_id] field:
    the text ["undefined"] is never sent. *)
Theorem page_names_a_shoe (net : Network) (evs : list Event) :
  let w := play net evs (fresh Upload.initial) in
  Upload.submitting (state w) = false
  /\ (exists o id, Upload.modelDropdown (state w) = Upload.option_text o
                   /\ Upload.shoe_id_of (Upload.modelDropdown (state w)) = Some id)
  /\ Forall names_a_shoe (requests w).
Proof.
  intros w.
  assert (Hidle : idle w).
  { apply play_keeps_idle. split; [reflexivity|]. split; [|constructor].
    now exists Upload.JordanLostFound. }
  destruct Hidle as (Hsub & [o Ho] & Hreq).
  split; [exact Hsub|]. split; [|exact Hreq].
  destruct (option_has_a_shoe o) as (id & Hid & _).
  exists o, id. split; [exact Ho | now rewrite Ho].
Qed.

End UploadProperties.

(** X6 at the sneaker slot of the form with its three files: the box slot
    keeps its file. *)
Lemma handleSelect_fills_slot_witness :
  Upload.Box <> Upload.Sneaker
  /\ Upload.upload_at Upload.Box
       (Upload.uploads (state (snd (Upload.handleFile Upload.Sneaker (Some photo)
                                      (fresh ready)))))
     = Upload.upload_at Upload.Box (Upload.uploads (state (fresh ready))).
Proof.
  split; [discriminate|].
  apply (proj1 (proj2 (handleSelect_fills_slot Upload.Sneaker photo (fresh ready)))).
  discriminate.
Defined.

(** X7 at the sneaker and the box slot of the empty form. *)
Lemma select_and_remove_compose_witness :
  Upload.Sneaker <> Upload.Box
  /\ snd ((Upload.handleSelect Upload.Sneaker photo ;;;
           Upload.handleSelect Upload.Box photo)%monad (fresh Upload.initial))
     = snd ((Upload.handleSelect Upload.Box photo ;;;
             Upload.handleSelect Upload.Sneaker photo)%monad (fresh Upload.initial)).
Proof.
  split; [discriminate|].
  apply (proj1 (proj2 (proj2 (proj2
           (select_and_remove_compose Upload.Sneaker Upload.Box photo photo
              (fresh Upload.initial)))))).
  discriminate.
Defined.

(** X8 at the empty form, and at the form with its three files when the
    network is down. *)
Lemma submission_never_throws_witness :
  (Upload.analyze_disabled Upload.initial = true
   /\ snd (Upload.submitUpload unreachable Upload.initial (fresh Upload.initial))
      = fresh Upload.initial)
  /\
  (Upload.analyze_disabled ready = false
   /\ Upload.submitting (state (snd (Upload.submitUpload unreachable ready (fresh ready))))
      = false).
Proof.
  split; (split; [reflexivity|]).
  - exact (proj1 (proj2 (proj2 (proj2
             (submission_never_throws unreachable Upload.initial (fresh Upload.initial)))))
                 eq_refl).
  - exact (proj2 (proj2 (proj2 (proj2
             (submission_never_throws unreachable ready (fresh ready)))))
                 eq_refl).
Defined.

(** X9 at the form with its three files, when the network is down. *)
Lemma category_calls_come_first_witness :
  Upload.uploads ready = Upload.mkUploads (Some photo) (Some photo) (Some photo)
  /\ Upload.submitting ready = false
  /\ exists rest,
       requests (snd (Upload.submitUpload unreachable ready (fresh ready)))
       = (requests (fresh ready) ++ category_calls ready photo photo photo ++ rest)%list
       /\ (rest = []
           \/ exists sp bp vp,
                rest = [Upload.combined_request
                          (Upload.shoe_id_of (Upload.modelDropdown ready)) sp bp vp]).
Proof.
  split; [reflexivity|]. split; [reflexivity|].
  exact (category_calls_come_first unreachable ready photo photo photo (fresh ready)
           eq_refl eq_refl).
Defined.

(** X10 at the scenario of three results 92, 88 and 95: the browser is sent
    to the results URL of the four results. *)
Lemma submission_navigates_or_fails_witness :
  Upload.uploads ready = Upload.mkUploads (Some photo) (Some photo) (Some photo)
  /\ Upload.submitting ready = false
  /\ writable (category_data scenario_net Upload.Sneaker ready photo)
     && writable (category_data scenario_net Upload.Box ready photo)
     && writable (category_data scenario_net Upload.Video ready photo) = true
  /\ pushed (snd (Upload.submitUpload scenario_net ready (fresh ready)))
     = [Upload.results_url
          (Upload.mkResults (Some (verdict_of "AUTHENTIC" 91)) (Some (verdict_of "REAL" 92))
             (Some (verdict_of "REAL" 88)) (Some (verdict_of "REAL" 95)))
          "Yeezy 350 Zebra"].
Proof.
  split; [reflexivity|]. split; [reflexivity|]. split; [reflexivity|].
  destruct (submission_navigates_or_fails scenario_net ready photo photo photo
              (fresh ready) eq_refl eq_refl eq_refl) as [(H & _)|(H & _)].
  - discriminate H.
  - exact H.
Defined.

(** X11 at the form with its three files, when the network is down. *)
Lemma rejected_call_fails_the_submission_witness :
  category_data unreachable Upload.Sneaker ready photo = inl (TypeError "fetch failed")
  /\ state (snd (Upload.submitUpload unreachable ready (fresh ready)))
     = Upload.mkState "Yeezy 350 Zebra"
         (Upload.mkUploads (Some photo) (Some photo) (Some photo)) false
         Upload.no_results failed_text
  /\ requests (snd (Upload.submitUpload unreachable ready (fresh ready)))
     = category_calls ready photo photo photo
  /\ pushed (snd (Upload.submitUpload unreachable ready (fresh ready))) = [].
Proof.
  split; [reflexivity|].
  destruct (rejected_call_fails_the_submission unreachable ready photo photo photo
              (fresh ready) eq_refl eq_refl
              (or_introl (ex_intro _ (TypeError "fetch failed") eq_refl)))
    as (H1 & H2 & H3 & _).
  split; [exact H1|]. split; [exact H2 | exact H3].
Defined.

(** The sneaker endpoint answers with an error the page reports. *)
Definition blurry : value := VObj [("error", VStr "blurry image")].
Definition blurry_net : Network :=
  endpoints blurry (verdict_of "REAL" 88) (verdict_of "REAL" 95)
            (verdict_of "AUTHENTIC" 91).

(** X12 at that network: the box and the video result reach the results
    URL, the sneaker's error reaches the error text. *)
Lemma partial_failure_still_navigates_witness :
  reports_error (category_data blurry_net Upload.Sneaker ready photo) = true
  /\ writable (category_data blurry_net Upload.Sneaker ready photo)
     && writable (category_data blurry_net Upload.Box ready photo)
     && writable (category_data blurry_net Upload.Video ready photo) = true
  /\ Upload.submitUpload blurry_net ready (fresh ready)
     = (inr tt,
        mkWorld
          (Upload.mkState "Yeezy 350 Zebra"
             (Upload.mkUploads (Some photo) (Some photo) (Some photo)) false
             (Upload.mkResults None None (Some (verdict_of "REAL" 88))
                (Some (verdict_of "REAL" 95)))
             ("sneaker: blurry image" ++ Upload.newline))
          (category_calls ready photo photo photo)
          [("sneaker error:", "blurry image")]
          [Upload.results_url
             (Upload.mkResults None None (Some (verdict_of "REAL" 88))
                (Some (verdict_of "REAL" 95)))
             "Yeezy 350 Zebra"]).
Proof.
  split; [reflexivity|]. split; [reflexivity|].
  exact (partial_failure_still_navigates blurry_net ready photo photo photo (fresh ready)
           eq_refl eq_refl eq_refl eq_refl eq_refl).
Defined.


(* ================================================================== *)
(** * Further properties of the results page *)

Section ResultsProperties.
Context {NUM : Numbers}.

(** [if (data) setResults(...)] returns, whatever [data] is. *)
Lemma when_present_returns (data : option string)
  (set : value -> Results.Results -> Results.Results) (w : World Results.State) :
  exists q,
    Results.when_present data set w
    = (inr tt,
       mkWorld (Results.mkState (Results.results (state w)) (Results.shoeModel (state w))
                  (Results.loading (state w)) q)
               (requests w) (console w) (pushed w)).
Proof.
  destruct w as [[res model loading queue] rq con psh].
  unfold Results.when_present.
  destruct data as [d|]; [destruct (negb (String.eqb d ""))|]; eexists; reflexivity.
Qed.

(** X15.  The effect of the results page always finishes: whatever the
    query holds (parameters that are missing, empty or malformed included)
    it returns and throws nothing, it leaves [loading] false, it sets the
    model name to the [model] parameter, or to ["Unknown Model"] when that
    parameter is missing or empty, and it calls nothing and navigates
    nowhere. *)
Theorem effect_always_finishes (searchParams : URLSearchParams)
  (w : World Results.State) :
  let r := Results.effect searchParams w in
  fst r = inr tt
  /\ Results.loading (state (snd r)) = false
  /\ Results.shoeModel (state (snd r))
     = match params_get "model" searchParams with
       | Some m => if String.eqb m "" then "Unknown Model" else m
       | None => "Unknown Model"
       end
  /\ requests (snd r) = requests w
  /\ pushed (snd r) = pushed w.
Proof.
  intros r. subst r.
  destruct w as [[res model loading queue] rq con psh].
  unfold Results.effect.
  set (name := match params_get "model" searchParams with
               | Some m => if negb (String.eqb m "") then m else "Unknown Model"
               | None => "Unknown Model"
               end).
  assert (Hname : name = match params_get "model" searchParams with
                         | Some m => if String.eqb m "" then "Unknown Model" else m
                         | None => "Unknown Model"
                         end).
  { subst name. destruct (params_get "model" searchParams) as [m|]; [|reflexivity].
    destruct (String.eqb m ""); reflexivity. }
  rewrite <- Hname. clear Hname.
  unfold try_finally, try_catch, bind, modify.
  cbn [state requests console pushed Results.setShoeModel Results.setLoading
       Results.results Results.shoeModel Results.loading Results.queued].
  repeat match goal with
         | |- context [Results.when_present ?d ?set ?w0] =>
             let q := fresh "q" in
             let E := fresh "E" in
             destruct (when_present_returns d set w0) as [q E]; rewrite E; clear E;
             cbn [state requests console pushed Results.results Results.shoeModel
                  Results.loading Results.queued]
         end.
  repeat split.
Qed.

Hypothesis LAWS : NumbersLaws NUM.

(** What the upload page writes into the results URL for a result: the
    result when it is truthy, nothing otherwise. *)
Definition written (o : option value) : option value :=
  if truthy_opt o then o else None.

Lemma results_params_model (newResults : Upload.Results) (model : string) :
  params_get "model" (Upload.results_params newResults model) = Some model.
Proof.
  unfold Upload.results_params, Upload.append_if, params_append.
  destruct (negb (String.eqb (Upload.param_of (Upload.sneaker newResults)) ""));
    destruct (negb (String.eqb (Upload.param_of (Upload.box newResults)) ""));
    destruct (negb (String.eqb (Upload.param_of (Upload.video newResults)) ""));
    destruct (negb (String.eqb (Upload.param_of (Upload.combined newResults)) ""));
    reflexivity.
Qed.

Lemma step_results_params (newResults : Upload.Results) (model : string) (k : Field)
  (r : Results.Results) :
  step (Upload.results_params newResults model) k r
  = inr (match written (sent k newResults) with
         | Some v => put k v r
         | None => r
         end).
Proof.
  unfold step, written. rewrite (present_results_params LAWS).
  destruct (sent k newResults) as [v|]; [|reflexivity]. cbn [truthy_opt].
  destruct (truthy v) eqn:Hv; [|reflexivity].
  now rewrite (decode_param_of LAWS).
Qed.

(** X16.  The state of the results page holds what the upload page sent,
    all of it and nothing else, provided the numbers of the results are
    finite.  That is the law of numbers assumed here: each number is read
    back from the text [JSON.stringify] writes for it.  (A number read from
    a text such as [1e999] is infinite; [JSON.stringify] writes it as
    [null], and a result that holds one is outside the statement.)  Loaded
    from the URL the upload page builds for its results and its model, the
    updaters the effect queued all return and nothing is logged; in the
    state the page is then rendered from, each of the four results is the
    one the upload page held when that one is truthy and is absent
    otherwise, the model name is the model (or ["Unknown Model"] for the
    empty text), whatever characters the results and the model hold, and
    the page is no longer loading.  Nothing is said of the markup built from
    that state. *)
Theorem results_state_holds_what_was_kept (newResults : Upload.Results) (model : string) :
  Results.ResultsPage (useSearchParams (Upload.results_url newResults model))
  = (inr (Results.mkState
            (Results.mkResults (written (Upload.sneaker newResults))
                               (written (Upload.box newResults))
                               (written (Upload.video newResults))
                               (written (Upload.combined newResults)))
            (if String.eqb model "" then "Unknown Model" else model)
            false []),
     []).
Proof.
  unfold Upload.results_url. rewrite useSearchParams_push, ResultsPage_run.
  unfold then_step. rewrite !step_results_params.
  unfold model_name. rewrite results_params_model.
  cbn [sent put].
  destruct (written (Upload.sneaker newResults)), (written (Upload.box newResults)),
    (written (Upload.video newResults)), (written (Upload.combined newResults)),
    (String.eqb model ""); reflexivity.
Qed.

End ResultsProperties.

(** X16 at the four results of the scenario and a model name with a space
    and an ampersand, with the integers as numbers. *)
Lemma results_state_holds_what_was_kept_witness :
  Results.ResultsPage
    (useSearchParams (Upload.results_url scenario_results "Jordan 1 Lost & Found"))
  = (inr (Results.mkState
            (Results.mkResults (Some (verdict_of "REAL" 92)) (Some (verdict_of "REAL" 88))
               (Some (verdict_of "REAL" 95)) (Some (verdict_of "AUTHENTIC" 91)))
            "Jordan 1 Lost & Found" false []),
     []).
Proof.
  exact (results_state_holds_what_was_kept ZNumbersLaws scenario_results
           "Jordan 1 Lost & Found").
Defined.

(* ================================================================== *)
(** * Properties of the upload card *)

(** Clicks one after the other on a card whose props stay the same; a click
    on something that is not rendered does not happen. *)
Fixpoint clicks (p : UploadCard.Props) (ts : list UploadCard.Target) (c : UploadCard.Card)
  : UploadCard.Card :=
  match ts with
  | [] => c
  | t :: rest =>
      clicks p rest (match UploadCard.click p t c with
                     | Some c' => c'
                     | None => c
                     end)
  end.

Definition is_start (t : UploadCard.Target) : bool :=
  match t with
  | UploadCard.StartUpload => true
  | _ => false
  end.

Definition is_close (t : UploadCard.Target) : bool :=
  match t with
  | UploadCard.Close => true
  | _ => false
  end.

(** X17.  What a click on an upload card does.  On an image card, and on
    any card that holds a file, a click on the card opens the file picker
    and the info panel is not rendered.  On a video card without a file a
    click on the card opens no picker: it shows the info panel.  On that
    panel, Close hides the panel and opens nothing, since it stops the
    click; Start Upload opens the picker once, and as it does not stop the
    click, the click reaches the card and the panel is shown again: the
    panel stays open.  The Remove label, rendered only with a file, calls
    [onRemove] and opens nothing. *)
Theorem clicks_on_a_card (p : UploadCard.Props) (c : UploadCard.Card) :
  (UploadCard.awaits_video p = false ->
   UploadCard.click p UploadCard.TheCard c = Some (UploadCard.openPicker c)
   /\ UploadCard.click p UploadCard.StartUpload c = None
   /\ UploadCard.click p UploadCard.Close c = None)
  /\
  (UploadCard.awaits_video p = true ->
   UploadCard.click p UploadCard.TheCard c = Some (UploadCard.setShowInfo true c)
   /\ UploadCard.click p UploadCard.RemoveLabel c = None
   /\ (UploadCard.showInfo c = true ->
       UploadCard.click p UploadCard.StartUpload c
       = Some (UploadCard.mkCard true (S (UploadCard.opened c)) (UploadCard.removed c))
       /\ UploadCard.click p UploadCard.Close c = Some (UploadCard.setShowInfo false c))
   /\ (UploadCard.showInfo c = false ->
       UploadCard.click p UploadCard.StartUpload c = None
       /\ UploadCard.click p UploadCard.Close c = None))
  /\
  (forall f, UploadCard.file p = Some f ->
     UploadCard.click p UploadCard.RemoveLabel c = Some (UploadCard.onRemove c)).
Proof.
  split; [|split].
  - intros H. destruct p as [[f|] [|]]; try discriminate H;
      destruct c as [[|] n m]; repeat split.
  - intros H. destruct p as [[f|] [|]]; try discriminate H.
    destruct c as [[|] n m]; (split; [reflexivity|]); (split; [reflexivity|]);
      split; intros Hs; try discriminate Hs; split; reflexivity.
  - intros f H. destruct p as [[f0|] pt]; [|discriminate H].
    destruct pt, c as [[|] n m]; reflexivity.
Qed.

(** X18.  The video card without a file, under any sequence of clicks.  The
    file picker is opened at most once for each click on Start Upload, never
    by a click on the card or on Close, and [onRemove] is never called.
    Once the info panel is shown it stays shown until Close is clicked, and
    until then every click on Start Upload opens the picker. *)
Theorem video_card_panel (p : UploadCard.Props) (ts : list UploadCard.Target)
  (c : UploadCard.Card) :
  UploadCard.awaits_video p = true ->
  let c' := clicks p ts c in
  UploadCard.opened c' <= UploadCard.opened c + length (filter is_start ts)
  /\ UploadCard.removed c' = UploadCard.removed c
  /\ (UploadCard.showInfo c = true -> existsb is_close ts = false ->
      UploadCard.showInfo c' = true
      /\ UploadCard.opened c' = UploadCard.opened c + length (filter is_start ts)).
Proof.
  intros Hp c'. subst c'. revert c.
  induction ts as [|t rest IH]; intros c.
  - cbn. split; [lia|]. split; [reflexivity|]. intros Hs _. split; [exact Hs | lia].
  - cbn [clicks filter existsb length].
    destruct p as [[f|] [|]]; try discriminate Hp.
    destruct c as [[|] n m]; destruct t; cbn;
      match goal with
      | |- context [clicks ?p rest ?c0] =>
          destruct (IH c0) as (H1 & H2 & H3); cbn in H1, H2, H3
      end;
      (split; [lia|]); (split; [exact H2|]);
      intros Hs Hc; try discriminate Hs; try discriminate Hc;
      destruct (H3 eq_refl Hc) as [H4 H5]; (split; [exact H4 | lia]).
Qed.

(** A video card without a file, its info panel shown. *)
Definition empty_video : UploadCard.Props := UploadCard.mkProps None UploadCard.VideoPreview.
Definition panel_shown : UploadCard.Card := UploadCard.mkCard true 0 0.

(** X17 at that card: Start Upload opens the picker and the panel stays. *)
Lemma clicks_on_a_card_witness :
  UploadCard.awaits_video empty_video = true
  /\ UploadCard.click empty_video UploadCard.StartUpload panel_shown
     = Some (UploadCard.mkCard true 1 0).
Proof.
  split; [reflexivity|].
  exact (proj1 (proj1 (proj2 (proj2 (proj1 (proj2 (clicks_on_a_card empty_video panel_shown))
                                           eq_refl)))
                      eq_refl)).
Defined.

(** X18 at that card: Start Upload, a click on the card, Start Upload. *)
Lemma video_card_panel_witness :
  UploadCard.awaits_video empty_video = true
  /\ UploadCard.showInfo
       (clicks empty_video
          [UploadCard.StartUpload; UploadCard.TheCard; UploadCard.StartUpload] panel_shown)
     = true
  /\ UploadCard.opened
       (clicks empty_video
          [UploadCard.StartUpload; UploadCard.TheCard; UploadCard.StartUpload] panel_shown)
     = 2.
Proof.
  split; [reflexivity|].
  exact (proj2 (proj2 (video_card_panel empty_video
                         [UploadCard.StartUpload; UploadCard.TheCard; UploadCard.StartUpload]
                         panel_shown eq_refl))
               eq_refl eq_refl).
Defined.
